(** * MU-BPO: blockchain performance regression (BPR/MLP.py)

    A shallow embedding of [cli_main] and of the classes it drives: column
    selection, the 5-fold split, per-fold min-max scaling, the datasets and
    loaders, the MLP backbone, the evaluation metrics, early stopping and the
    final aggregation of the fold metrics.

    The script is glue over scikit-learn, torch, pytorch_lightning, numpy
    and pandas, none of which is part of the repository: each class or
    function it calls is written out after the library's implementation,
    under a heading that names it, as far as the script uses it.

    Conventions.
    - float values are idealised as rationals ([Q]); a float operation whose
      result would not be finite (a division by zero) is an error result;
    - a 2-D array is a list of rows; the raw CSV array also carries its
      column count, which numpy keeps even when there are no rows;
    - a Python exception is a [Raise] result of the [result] monad;
    - what the script takes from numpy's random generator, from the square
      root and from the optimiser is a [Variable] of the enclosing section:
      the script fixes how they are called, not what they compute. *)

From Stdlib Require Import String Ascii.
From Stdlib Require Import List Bool Arith ZArith QArith Qabs Qminmax Lia.
From Stdlib Require Import Permutation DecimalString Sorted.
From Stdlib Require DecimalNat DecimalFacts.
Import ListNotations.

Local Open Scope Q_scope.

(* ================================================================= *)
(** ** Exceptions and the error monad *)

Inductive exn : Type :=
| UnboundLocalError   (* a local read before any branch bound it *)
| IndexError          (* index out of bounds for an axis *)
| ValueError          (* sklearn / torch / pandas argument checks *)
| RuntimeError        (* torch: mat1 and mat2 shapes cannot be multiplied *)
| NotFittedError      (* sklearn: transform before fit *)
| ZeroDivisionError.  (* a quotient that is not a finite float *)

Inductive result (A : Type) : Type :=
| Ok (a : A)
| Raise (e : exn).
Arguments Ok {A} a.
Arguments Raise {A} e.

Definition bind {A B} (m : result A) (k : A -> result B) : result B :=
  match m with
  | Ok a => k a
  | Raise e => Raise e
  end.

Notation "x <- m ;; k" := (bind m (fun x => k))
  (at level 61, m at next level, right associativity).
Notation "' pat <- m ;; k" := (bind m (fun x => match x with pat => k end))
  (at level 61, pat pattern, m at next level, right associativity).

Fixpoint mapM {A B} (f : A -> result B) (l : list A) : result (list B) :=
  match l with
  | [] => Ok []
  | a :: l' => b <- f a ;; bs <- mapM f l' ;; Ok (b :: bs)
  end.

Definition succeeds {A} (m : result A) : Prop := exists a, m = Ok a.

(* ================================================================= *)
(** ** Arrays *)

Definition row := list Q.
Definition matrix := list row.

(** The array read from the CSV file: [shape1] is its number of columns. *)
Record ndarray : Type := mk_ndarray {
  shape1 : nat;
  values : matrix
}.

Definition well_shaped (a : ndarray) : Prop :=
  Forall (fun r => length r = shape1 a) (values a).

(** numpy's treatment of one integer index on an axis of size [n]. *)
Definition normalize_index (i : Z) (n : nat) : result nat :=
  if (0 <=? i)%Z && (i <? Z.of_nat n)%Z then Ok (Z.to_nat i)
  else if (- Z.of_nat n <=? i)%Z && (i <? 0)%Z then Ok (Z.to_nat (Z.of_nat n + i))
  else Raise IndexError.

(** [a[:, i].reshape((-1, 1))] *)
Definition column_reshaped (a : ndarray) (i : Z) : result matrix :=
  j <- normalize_index i (shape1 a) ;;
  Ok (map (fun r => [nth j r 0]) (values a)).

(** [a[:, lo:hi]] for [0 <= lo <= hi]: a slice never raises. *)
Definition column_slice (a : ndarray) (lo hi : nat) : matrix :=
  map (fun r => skipn lo (firstn hi r)) (values a).

(** [X[index]] with an integer index array. *)
Definition take_rows (X : matrix) (index : list nat) : result matrix :=
  mapM (fun i => match nth_error X i with
                 | Some r => Ok r
                 | None => Raise IndexError
                 end) index.

(* ================================================================= *)
(** ** Command line *)

Record Args : Type := mk_Args {
  batch_size : Z;
  learning_rate : Q;
  dataset : string;
  task : string
}.

(** The defaults declared with [parser.add_argument]. *)
Definition default_args : Args :=
  {| batch_size := 32;
     learning_rate := 1 # 1000;
     dataset := "MMBPD";
     task := "Throughput" |}.

Definition seed : Z := 42.

(* ================================================================= *)
(** ** Column selection (cli_main, lines 129-146)

    The two locals [X] and [Y1] are bound by the branch that matches the
    dataset name; when none matches they stay unbound, which is [None]
    here.  An [IndexError] comes from a target column the array lacks. *)

Definition select_columns (args : Args) (raw_data : ndarray)
  : result (option (matrix * matrix)) :=
  if String.eqb (dataset args) "BPD-1" then
    let X := column_slice raw_data 0 2 in
    if String.eqb (task args) "Latency" then
      Y1 <- column_reshaped raw_data 2 ;; Ok (Some (X, Y1))
    else
      Y1 <- column_reshaped raw_data 3 ;; Ok (Some (X, Y1))
  else if String.eqb (dataset args) "HFBTP" then
    let X := column_slice raw_data 0 3 in
    if String.eqb (task args) "Latency" then
      Y1 <- column_reshaped raw_data 4 ;; Ok (Some (X, Y1))
    else
      Y1 <- column_reshaped raw_data 3 ;; Ok (Some (X, Y1))
  else if String.eqb (dataset args) "MMBPD" then
    let X := column_slice raw_data 1 3 in
    if String.eqb (task args) "Latency" then
      Y1 <- column_reshaped raw_data 4 ;; Ok (Some (X, Y1))
    else
      Y1 <- column_reshaped raw_data (-2) ;; Ok (Some (X, Y1))
  else Ok None.

(** Reading a local: unbound locals raise. *)
Definition read_local {A} (v : option A) : result A :=
  match v with
  | Some a => Ok a
  | None => Raise UnboundLocalError
  end.

(** The names the command line documents (its defaults and the names the
    branches compare with). *)
Definition recognized_dataset (d : string) : Prop :=
  d = "BPD-1"%string \/ d = "HFBTP"%string \/ d = "MMBPD"%string.

Definition recognized_task (t : string) : Prop :=
  t = "Latency"%string \/ t = "Throughput"%string.

(* ================================================================= *)
(** ** sklearn.model_selection.KFold

    The script builds [KFold(n_splits=5, random_state=seed, shuffle=True)]
    and iterates [KF.split(X)].  The class is scikit-learn's; what follows
    writes out its [split] ([_iter_test_indices], [_iter_test_masks] and
    the train/test selection by mask).  The generator's [shuffle] is the
    argument [rng_shuffle]: a fresh [RandomState(random_state)] is made by
    every call of [split], so the shuffled array is a function of the seed
    and of the array. *)

Record KFold : Type := mk_KFold {
  n_splits : nat;
  random_state : Z;
  shuffle : bool
}.

(** [l[start:stop]] *)
Definition slice {A} (l : list A) (start stop : nat) : list A :=
  skipn start (firstn stop l).

(** [np.full(n_splits, n_samples // n_splits)] with the first
    [n_samples % n_splits] entries incremented. *)
Definition fold_sizes (k n_samples : nat) : list nat :=
  map (fun i => n_samples / k + (if i <? n_samples mod k then 1 else 0))%nat
      (seq 0 k).

(** The loop over [fold_sizes], [current] being its running offset. *)
Fixpoint iter_chunks (indices : list nat) (current : nat) (sizes : list nat)
  : list (list nat) :=
  match sizes with
  | [] => []
  | fold_size :: rest =>
      let start := current in
      let stop := (current + fold_size)%nat in
      slice indices start stop :: iter_chunks indices stop rest
  end.

(** [test_mask = zeros(n, bool); test_mask[test_index] = True] *)
Definition test_mask (n_samples : nat) (test_index : list nat) : list bool :=
  map (fun i => existsb (Nat.eqb i) test_index) (seq 0 n_samples).

(** [a[mask]] with a boolean mask. *)
Fixpoint bool_index {A} (a : list A) (mask : list bool) : list A :=
  match a, mask with
  | x :: a', b :: mask' =>
      if b then x :: bool_index a' mask' else bool_index a' mask'
  | _, _ => []
  end.

Section KFoldSplit.
Variable rng_shuffle : Z -> list nat -> list nat.

Definition iter_test_indices (kf : KFold) (n_samples : nat)
  : list (list nat) :=
  let indices := seq 0 n_samples in
  let indices :=
    if shuffle kf then rng_shuffle (random_state kf) indices else indices in
  iter_chunks indices 0 (fold_sizes (n_splits kf) n_samples).

Definition iter_test_masks (kf : KFold) (n_samples : nat)
  : list (list bool) :=
  map (test_mask n_samples) (iter_test_indices kf n_samples).

(** [split] yields the pairs [(train_index, test_index)]. *)
Definition split (kf : KFold) (n_samples : nat)
  : result (list (list nat * list nat)) :=
  if (n_samples <? n_splits kf)%nat then Raise ValueError
  else
    let indices := seq 0 n_samples in
    Ok (map (fun mask =>
               (bool_index indices (map negb mask), bool_index indices mask))
            (iter_test_masks kf n_samples)).
End KFoldSplit.

(** The splitter of [cli_main]. *)
Definition KF : KFold :=
  {| n_splits := 5; random_state := seed; shuffle := true |}.

(* ================================================================= *)
(** ** sklearn.preprocessing.MinMaxScaler

    [MinMaxScaler()] with its default [feature_range=(0, 1)], no clipping.
    [fit] is [partial_fit] after a reset; [fit_transform] is the mixin's
    [fit(X).transform(X)]. *)

Record ScalerState : Type := mk_ScalerState {
  n_features_in_ : nat;
  data_min_ : row;
  data_max_ : row;
  data_range_ : row;
  scale_ : row;
  min_ : row
}.

Record MinMaxScaler : Type := mk_MinMaxScaler {
  feature_range : Q * Q;
  fitted : option ScalerState
}.

Definition new_MinMaxScaler : MinMaxScaler :=
  {| feature_range := (0, 1); fitted := None |}.

(** Elementwise operation on two rows of the same length. *)
Fixpoint zip_with {A B C} (f : A -> B -> C) (a : list A) (b : list B)
  : list C :=
  match a, b with
  | x :: a', y :: b' => f x y :: zip_with f a' b'
  | _, _ => []
  end.

(** A float quotient; not finite when the divisor is zero. *)
Definition checked_div (a b : Q) : result Q :=
  if Qeq_bool b 0 then Raise ZeroDivisionError else Ok (a / b).

(** [np.finfo(np.float64).eps] *)
Definition float_eps : Q := 1 # (2 ^ 52).

(** [_handle_zeros_in_scale]: entries below [10 * eps] become 1. *)
Definition handle_zeros_in_scale (scale : row) : row :=
  map (fun s => if Qle_bool (10 * float_eps) s then s else 1) scale.

(** [np.min(X, axis=0)] and [np.max(X, axis=0)] of an array with a first
    row [r0]. *)
Definition column_min (r0 : row) (rest : matrix) : row :=
  fold_left (zip_with Qmin) rest r0.

Definition column_max (r0 : row) (rest : matrix) : row :=
  fold_left (zip_with Qmax) rest r0.

(** [fit(X)]: [scale_] is the width of the feature range over the column
    range, zeros handled; [min_] is the lower bound less
    [data_min * scale_]. *)
Definition fit (s : MinMaxScaler) (X : matrix) : result MinMaxScaler :=
  let '(lo, hi) := feature_range s in
  if Qle_bool hi lo then Raise ValueError
  else
    match X with
    | [] => Raise ValueError                      (* 0 samples *)
    | r0 :: rest =>
        if (length r0 =? 0)%nat then Raise ValueError  (* 0 features *)
        else
          let data_min := column_min r0 rest in
          let data_max := column_max r0 rest in
          let data_range := zip_with Qminus data_max data_min in
          scale <- mapM (checked_div (hi - lo))
                        (handle_zeros_in_scale data_range) ;;
          let min := map (fun p => lo - p)
                         (zip_with Qmult data_min scale) in
          Ok {| feature_range := feature_range s;
                fitted := Some {| n_features_in_ := length r0;
                                  data_min_ := data_min;
                                  data_max_ := data_max;
                                  data_range_ := data_range;
                                  scale_ := scale;
                                  min_ := min |} |}
    end.

(** [transform(X)]: [X * scale_ + min_], refused before [fit] and for
    rows of another width; the state is left as it is. *)
Definition transform (s : MinMaxScaler) (X : matrix) : result matrix :=
  match fitted s with
  | None => Raise NotFittedError
  | Some st =>
      match X with
      | [] => Raise ValueError
      | _ =>
          mapM (fun r =>
                  if (length r =? n_features_in_ st)%nat
                  then Ok (zip_with Qplus (zip_with Qmult r (scale_ st))
                                     (min_ st))
                  else Raise ValueError) X
      end
  end.

(** [fit_transform(X)]: the fitted scaler and the transformed array. *)
Definition fit_transform (s : MinMaxScaler) (X : matrix)
  : result (MinMaxScaler * matrix) :=
  s' <- fit s X ;;
  out <- transform s' X ;;
  Ok (s', out).

(* ================================================================= *)
(** ** BlockChainDataset and torch's DataLoader *)

Record BlockChainDataset : Type := mk_BlockChainDataset {
  len : nat;
  x_data : matrix;
  y_data : matrix
}.

(** [__init__(self, data, label)] *)
Definition new_BlockChainDataset (data label : matrix) : BlockChainDataset :=
  {| len := length data; x_data := data; y_data := label |}.

(** [__getitem__(self, index)] *)
Definition getitem (self : BlockChainDataset) (index : nat)
  : result (row * row) :=
  match nth_error (x_data self) index, nth_error (y_data self) index with
  | Some x, Some y => Ok (x, y)
  | _, _ => Raise IndexError
  end.

(** The keyword arguments the script passes; [dl_shuffle] is [None] when
    the call leaves [shuffle] out, as torch's signature has it. *)
Record DataLoader : Type := mk_DataLoader {
  dl_dataset : BlockChainDataset;
  dl_batch_size : nat;
  dl_shuffle : option bool;
  pin_memory : bool;
  num_workers : nat;
  persistent_workers : bool
}.

(** torch's constructor refuses a batch size that is not positive. *)
Definition new_DataLoader (ds : BlockChainDataset) (batch_size : Z)
  (shuffle : option bool) : result DataLoader :=
  if (batch_size <=? 0)%Z then Raise ValueError
  else Ok {| dl_dataset := ds;
             dl_batch_size := Z.to_nat batch_size;
             dl_shuffle := shuffle;
             pin_memory := true;
             num_workers := 23;
             persistent_workers := true |}.

(** [BatchSampler] with [drop_last=False]: indices are appended to
    [batch], which is emitted when it reaches [batch_size]. *)
Fixpoint batch_sampler (batch_size : nat) (sampler : list nat)
  (batch : list nat) : list (list nat) :=
  match sampler with
  | [] => match batch with [] => [] | _ => [batch] end
  | idx :: rest =>
      let batch := batch ++ [idx] in
      if (length batch =? batch_size)%nat
      then batch :: batch_sampler batch_size rest []
      else batch_sampler batch_size rest batch
  end.

Definition truthy (b : option bool) : bool :=
  match b with Some true => true | _ => false end.

Section Loader.
(** [torch.randperm], what a [RandomSampler] draws each epoch. *)
Variable randperm : nat -> nat -> list nat.

(** [RandomSampler] if [shuffle] else [SequentialSampler]. *)
Definition sampler (dl : DataLoader) (epoch : nat) : list nat :=
  if truthy (dl_shuffle dl)
  then randperm epoch (len (dl_dataset dl))
  else seq 0 (len (dl_dataset dl)).

Definition batch_indices (dl : DataLoader) (epoch : nat)
  : list (list nat) :=
  batch_sampler (dl_batch_size dl) (sampler dl epoch) [].

(** The default collate function stacks the items of one batch. *)
Definition collate (ds : BlockChainDataset) (idxs : list nat)
  : result (matrix * matrix) :=
  items <- mapM (getitem ds) idxs ;;
  Ok (map fst items, map snd items).

Definition batches (dl : DataLoader) (epoch : nat)
  : result (list (matrix * matrix)) :=
  mapM (collate (dl_dataset dl)) (batch_indices dl epoch).
End Loader.

(* ================================================================= *)
(** ** Backbone *)

Record Linear : Type := mk_Linear {
  in_features : nat;
  out_features : nat;
  weight : nat -> nat -> Q;     (* weight[o][i] *)
  bias : nat -> Q
}.

Definition sumQ (l : list Q) : Q := fold_left Qplus l 0.

(** [nn.Linear.forward] on one row: [x W^T + b], refused when the row does
    not have [in_features] entries. *)
Definition linear (l : Linear) (x : row) : result row :=
  if (length x =? in_features l)%nat
  then Ok (map (fun o =>
                  sumQ (map (fun '(i, xi) => weight l o i * xi)
                            (combine (seq 0 (length x)) x)) + bias l o)
               (seq 0 (out_features l)))
  else Raise RuntimeError.

Definition relu (x : row) : row := map (Qmax 0) x.

(** [nn.Dropout(p)]: the identity in evaluation mode; in training mode the
    kept units are scaled by [1 / (1 - p)]. *)
Definition dropout_layer (p : Q) (training : bool) (keep : nat -> bool)
  (x : row) : row :=
  if training
  then map (fun '(i, v) => if keep i then v / (1 - p) else 0)
           (combine (seq 0 (length x)) x)
  else x.

Record Backbone : Type := mk_Backbone {
  fc1 : Linear;
  fc2 : Linear;
  fc3 : Linear;
  fc4 : Linear;
  dropout : Q
}.

(** Initial parameters of the layer of a given number, as drawn by torch. *)
Definition initializer := nat -> (nat -> nat -> Q) * (nat -> Q).

Definition nn_Linear (i o : nat) (w : (nat -> nat -> Q) * (nat -> Q))
  : Linear :=
  {| in_features := i; out_features := o; weight := fst w; bias := snd w |}.

(** [Backbone.__init__]: the first layer is [nn.Linear(2, 128)] whatever
    the dataset is. *)
Definition new_Backbone (init : initializer) : Backbone :=
  {| fc1 := nn_Linear 2 128 (init 1%nat);
     fc2 := nn_Linear 128 64 (init 2%nat);
     fc3 := nn_Linear 64 8 (init 3%nat);
     fc4 := nn_Linear 8 1 (init 4%nat);
     dropout := 1 # 10 |}.

(** [Backbone.forward] on one row; [keep l] is the dropout mask drawn for
    the [l]-th dropout call. *)
Definition forward_row (self : Backbone) (training : bool)
  (keep : nat -> nat -> bool) (x : row) : result row :=
  out <- linear (fc1 self) x ;;
  let out := dropout_layer (dropout self) training (keep 1%nat) out in
  let out := relu out in
  out <- linear (fc2 self) out ;;
  let out := dropout_layer (dropout self) training (keep 2%nat) out in
  let out := relu out in
  out <- linear (fc3 self) out ;;
  let out := dropout_layer (dropout self) training (keep 3%nat) out in
  let out := relu out in
  out <- linear (fc4 self) out ;;
  Ok out.

Definition forward (self : Backbone) (training : bool)
  (keep : nat -> nat -> bool) (x : matrix) : result matrix :=
  mapM (forward_row self training keep) x.

(** The layer widths, input first. *)
Definition layer_dims (self : Backbone) : list (nat * nat) :=
  map (fun l => (in_features l, out_features l))
      [fc1 self; fc2 self; fc3 self; fc4 self].

(* ================================================================= *)
(** ** Reductions and sklearn.metrics *)

Definition Qnat (n : nat) : Q := inject_Z (Z.of_nat n).

(** Sum of the rows of an array with first row [r0] ([add.reduce] along
    axis 0). *)
Definition sum0 (r0 : row) (rest : matrix) : row :=
  fold_left (zip_with Qplus) rest r0.

(** [np.mean(a)] of a 1-D array. *)
Definition mean (a : row) : result Q :=
  checked_div (sumQ a) (Qnat (length a)).

(** [a.mean(0)], also [np.average(a, axis=0)]. *)
Definition mean0 (a : matrix) : result row :=
  match a with
  | [] => Raise ZeroDivisionError
  | r0 :: rest => mapM (fun s => checked_div s (Qnat (length a)))
                       (sum0 r0 rest)
  end.

(** [torch.mean(a, dim=1)] reshaped to a column. *)
Definition mean1_column (a : matrix) : result matrix :=
  mapM (fun r => m <- mean r ;; Ok [m]) a.

(** Elementwise combination of two arrays of one shape. *)
Definition elementwise (f : Q -> Q -> result Q) (a b : matrix)
  : result matrix :=
  if (length a =? length b)%nat
  then mapM (fun '(ra, rb) =>
               if (length ra =? length rb)%nat
               then mapM (fun '(x, y) => f x y) (combine ra rb)
               else Raise ValueError)
            (combine a b)
  else Raise ValueError.

(** [_check_reg_targets] followed by the column averages of the errors and
    their uniform average. *)
Definition regression_metric (err : Q -> Q -> result Q)
  (y_true y_pred : matrix) : result Q :=
  match y_true with
  | [] => Raise ValueError
  | _ =>
      errors <- elementwise err y_true y_pred ;;
      output_errors <- mean0 errors ;;
      mean output_errors
  end.

Definition mean_absolute_error : matrix -> matrix -> result Q :=
  regression_metric (fun t p => Ok (Qabs (p - t))).

Definition mean_squared_error : matrix -> matrix -> result Q :=
  regression_metric (fun t p => Ok ((t - p) * (t - p))).

(** [np.abs(y_pred - y_true) / np.maximum(np.abs(y_true), epsilon)] *)
Definition mean_absolute_percentage_error : matrix -> matrix -> result Q :=
  regression_metric
    (fun t p => checked_div (Qabs (p - t)) (Qmax (Qabs t) float_eps)).

(** [nn.MSELoss()] on two arrays of one shape. *)
Definition MSELoss (input target : matrix) : result Q :=
  sq <- elementwise (fun x y => Ok ((x - y) * (x - y))) input target ;;
  mean (concat sq).

(* ================================================================= *)
(** ** Logged metrics: a dict in insertion order *)

Definition Log := list (string * Q).

Fixpoint dict_set (k : string) (v : Q) (d : Log) : Log :=
  match d with
  | [] => [(k, v)]
  | (k', v') :: d' =>
      if String.eqb k k' then (k, v) :: d' else (k', v') :: dict_set k v d'
  end.

Fixpoint dict_get (k : string) (d : Log) : option Q :=
  match d with
  | [] => None
  | (k', v) :: d' => if String.eqb k k' then Some v else dict_get k d'
  end.

(** [list(d.values())] *)
Definition dict_values (d : Log) : list Q := map snd d.

(* ================================================================= *)
(** ** LitClassifier *)

Record LitClassifier : Type := mk_LitClassifier {
  lit_learning_rate : Q;
  backbone : Backbone
}.

Section Lit.
(** The float power [x ** 0.5]. *)
Variable sqrt : Q -> Q.

(** [evaluate(self, batch, stage)]; [logs] is what [self.log] has
    recorded for the current step.  Both callers pass a string for
    [stage]; the empty string is the falsy stage, under which nothing is
    logged.  Dropout is off: the trainer evaluates in evaluation mode. *)
Definition evaluate (self : LitClassifier) (batch : matrix * matrix)
  (stage : string) (logs : Log) : result ((Q * Q * Q) * Log) :=
  let '(x, y) := batch in
  y_hat <- forward (backbone self) false (fun _ _ => true) x ;;
  y_hat <- mean1_column y_hat ;;
  loss <- MSELoss y_hat y ;;
  MAE <- mean_absolute_error y y_hat ;;
  mse <- mean_squared_error y y_hat ;;
  let RMSE := sqrt mse in
  MAPE <- mean_absolute_percentage_error y y_hat ;;
  let logs :=
    if String.eqb stage "" then logs
    else
      let logs := dict_set (stage ++ "_loss") loss logs in
      let logs := dict_set (stage ++ "_MAE") MAE logs in
      let logs := dict_set (stage ++ "_RMSE") RMSE logs in
      dict_set (stage ++ "_MAPE") MAPE logs in
  Ok ((MAE, RMSE, MAPE), logs).

(** The second [validation_step], which replaces the first. *)
Definition validation_step (self : LitClassifier)
  (batch : matrix * matrix) (logs : Log) : result Log :=
  '(_, logs) <- evaluate self batch "val" logs ;; Ok logs.

Definition test_step (self : LitClassifier) (batch : matrix * matrix)
  (logs : Log) : result ((Q * Q * Q) * Log) :=
  evaluate self batch "test" logs.

(** [training_step]: the loss of a forward pass in training mode. *)
Definition training_step (self : LitClassifier)
  (keep : nat -> nat -> bool) (batch : matrix * matrix) : result Q :=
  let '(x, y) := batch in
  y_hat <- forward (backbone self) true keep x ;;
  MSELoss y_hat y.
End Lit.

(* ================================================================= *)
(** ** pytorch_lightning: EarlyStopping

    [best_score] starts at plus or minus infinity, which is [None] here.
    Every value of the model is finite, so the callback's [check_finite]
    test never fires; the two thresholds are left at their default [None]. *)

Inductive Mode : Type := mode_min | mode_max.

Record EarlyStopping : Type := mk_EarlyStopping {
  monitor : string;
  min_delta : Q;
  patience : nat;
  mode : Mode;
  wait_count : nat;
  best_score : option Q;
  stopped_epoch : nat
}.

(** [__init__]: [min_delta] is negated for [torch.lt]. *)
Definition new_EarlyStopping (monitor : string) (min_delta : Q)
  (patience : nat) (mode : Mode) : EarlyStopping :=
  {| monitor := monitor;
     min_delta := match mode with
                  | mode_max => min_delta * 1
                  | mode_min => min_delta * (-1 # 1)
                  end;
     patience := patience;
     mode := mode;
     wait_count := 0;
     best_score := None;
     stopped_epoch := 0 |}.

(** [torch.lt] or [torch.gt] against a possibly infinite best score. *)
Definition monitor_op (m : Mode) (a : Q) (best : option Q) : bool :=
  match best with
  | None => true
  | Some b => match m with
              | mode_min => negb (Qle_bool b a)
              | mode_max => negb (Qle_bool a b)
              end
  end.

(** [_evaluate_stopping_criteria(current)]: the new callback state and
    [should_stop]. *)
Definition evaluate_stopping_criteria (es : EarlyStopping) (current : Q)
  : EarlyStopping * bool :=
  if monitor_op (mode es) (current - min_delta es) (best_score es)
  then ({| monitor := monitor es; min_delta := min_delta es;
           patience := patience es; mode := mode es;
           wait_count := 0;
           best_score := Some current;
           stopped_epoch := stopped_epoch es |}, false)
  else
    let wc := S (wait_count es) in
    ({| monitor := monitor es; min_delta := min_delta es;
        patience := patience es; mode := mode es;
        wait_count := wc;
        best_score := best_score es;
        stopped_epoch := stopped_epoch es |}, (patience es <=? wc)%nat).

(** [_run_early_stopping_check]: a monitored key that was never logged is
    a [RuntimeError]. *)
Definition run_early_stopping_check (es : EarlyStopping)
  (callback_metrics : Log) (current_epoch : nat)
  : result (EarlyStopping * bool) :=
  match dict_get (monitor es) callback_metrics with
  | None => Raise RuntimeError
  | Some current =>
      let '(es, should_stop) := evaluate_stopping_criteria es current in
      Ok (if should_stop
          then {| monitor := monitor es; min_delta := min_delta es;
                  patience := patience es; mode := mode es;
                  wait_count := wait_count es;
                  best_score := best_score es;
                  stopped_epoch := current_epoch |}
          else es, should_stop)
  end.

(* ================================================================= *)
(** ** pytorch_lightning: Trainer

    The trainer is generic in the module it drives: [training_epoch] runs
    the training steps and optimiser updates of one epoch, and
    [validation_epoch] runs the validation steps over the validation loader
    and returns the metrics they logged.  [logged] is the history the
    trainer's logger keeps: the metrics of every validation check, with the
    epoch of the check. *)

Record Trainer : Type := mk_Trainer {
  max_epochs : nat;
  check_val_every_n_epoch : nat;
  callbacks : EarlyStopping
}.

Record FitState (M : Type) : Type := mk_FitState {
  module : M;
  early_stopping : EarlyStopping;
  should_stop : bool;
  current_epoch : nat;
  callback_metrics : Log;
  logged : list (nat * Log)
}.
Arguments mk_FitState {M}.
Arguments module {M}.
Arguments early_stopping {M}.
Arguments should_stop {M}.
Arguments current_epoch {M}.
Arguments callback_metrics {M}.
Arguments logged {M}.

Section TrainerFit.
Context {M : Type}.
Variable training_epoch : nat -> M -> result M.
Variable validation_epoch : M -> result Log.
Variable trainer : Trainer.

(** One pass of the fit loop: the training epoch, then, every
    [check_val_every_n_epoch] epochs, validation followed by the
    callback's [on_validation_end]. *)
Definition run_epoch (st : FitState M) : result (FitState M) :=
  let epoch := current_epoch st in
  m <- training_epoch epoch (module st) ;;
  if (S epoch mod check_val_every_n_epoch trainer =? 0)%nat then
    metrics <- validation_epoch m ;;
    '(es, stop) <- run_early_stopping_check (early_stopping st) metrics
                                            epoch ;;
    Ok {| module := m;
          early_stopping := es;
          should_stop := should_stop st || stop;
          current_epoch := S epoch;
          callback_metrics := metrics;
          logged := logged st ++ [(epoch, metrics)] |}
  else
    Ok {| module := m;
          early_stopping := early_stopping st;
          should_stop := should_stop st;
          current_epoch := S epoch;
          callback_metrics := callback_metrics st;
          logged := logged st |}.

(** The epochs that remain of the budget, left when [should_stop]. *)
Fixpoint fit_loop (remaining : nat) (st : FitState M)
  : result (FitState M) :=
  match remaining with
  | O => Ok st
  | S remaining =>
      st <- run_epoch st ;;
      if should_stop st then Ok st else fit_loop remaining st
  end.

(** [trainer.fit]: the sanity pass over the validation loader, whose
    metrics are dropped, then the loop. *)
Definition trainer_fit (model : M) : result (FitState M) :=
  _ <- validation_epoch model ;;
  fit_loop (max_epochs trainer)
           {| module := model;
              early_stopping := callbacks trainer;
              should_stop := false;
              current_epoch := 0;
              callback_metrics := [];
              logged := [] |}.
End TrainerFit.

(** The values of one key over the logged history. *)
Definition monitored (key : string) (history : list (nat * Log)) : list Q :=
  flat_map (fun '(_, metrics) =>
              match dict_get key metrics with
              | Some v => [v]
              | None => []
              end) history.

(** [early_stop_callback] and [trainer] of [cli_main]. *)
Definition early_stop_callback : EarlyStopping :=
  new_EarlyStopping "val_MAE" 0 10 mode_min.

Definition cli_trainer : Trainer :=
  {| max_epochs := 500;
     check_val_every_n_epoch := 10;
     callbacks := early_stop_callback |}.

(* ================================================================= *)
(** ** numpy and pandas at the end of the run *)

(** [a.std(0)] with numpy's default [ddof=0]: the mean, the squared
    deviations, their sum over axis 0 divided by [n - ddof], the root. *)
Definition std0 (sqrt : Q -> Q) (a : matrix) : result row :=
  arrmean <- mean0 a ;;
  let x := map (fun r => zip_with Qminus r arrmean) a in
  let x := map (map (fun d => d * d)) x in
  match x with
  | [] => Raise ZeroDivisionError
  | r0 :: rest =>
      ret <- mapM (fun s => checked_div s (Qnat (length a - 0)))
                  (sum0 r0 rest) ;;
      Ok (map sqrt ret)
  end.

(** [np.vstack((a, b))] of two 2-D arrays. *)
Definition vstack (a b : matrix) : result matrix :=
  match a, b with
  | ra :: _, rb :: _ =>
      if (length ra =? length rb)%nat then Ok (a ++ b) else Raise ValueError
  | _, _ => Raise ValueError
  end.

Inductive Index : Type :=
| RangeIndex (n : nat)             (* the default labels 0 .. n-1 *)
| Names (labels : list string).

Record DataFrame : Type := mk_DataFrame {
  columns : Index;
  frame : matrix
}.

Definition new_DataFrame (a : matrix) : DataFrame :=
  {| columns := RangeIndex (match a with r :: _ => length r | [] => 0%nat end);
     frame := a |}.

(** [df.columns = labels] *)
Definition set_columns (df : DataFrame) (labels : list string)
  : result DataFrame :=
  let width := match frame df with r :: _ => length r | [] => 0%nat end in
  if (length labels =? width)%nat
  then Ok {| columns := Names labels; frame := frame df |}
  else Raise ValueError.

(** [posixpath.join] *)
Definition ends_with_sep (s : string) : bool :=
  match String.length s with
  | O => false
  | S n => match String.get n s with
           | Some c => Ascii.eqb c "/"
           | None => false
           end
  end.

Definition join2 (path b : string) : string :=
  if String.prefix "/" b then b
  else if (String.length path =? 0)%nat || ends_with_sep path
       then (path ++ b)%string
       else (path ++ "/" ++ b)%string.

Definition path_join (a : string) (p : list string) : string :=
  fold_left join2 p a.

(** What [to_csv] is given: the path and the frame. *)
Definition CsvFile : Type := string * DataFrame.

Definition aggregate (sqrt : Q -> Q) (args : Args) (results : matrix)
  : result CsvFile :=
  m <- mean0 results ;;
  inner <- vstack results [m] ;;
  s <- std0 sqrt results ;;
  table <- vstack inner [s] ;;
  let resultpd := new_DataFrame table in
  resultpd <- (if String.eqb (task args) "Latency"
               then set_columns resultpd
                      ["latency_MAE"; "latency_RMSE"; "latency_MAPE"]%string
               else Ok resultpd) ;;
  resultpd <- (if String.eqb (task args) "Throughput"
               then set_columns resultpd
                      ["throughput_MAE"; "throughput_RMSE";
                       "throughput_MAPE"]%string
               else Ok resultpd) ;;
  Ok (path_join (dataset args) [task args; "Ensemble_result.csv"%string],
      resultpd).

(* ================================================================= *)
(** ** The body of the fold loop (cli_main, lines 152-168) *)

Record FoldData : Type := mk_FoldData {
  Xtrain1 : matrix;
  Xtest1 : matrix;
  Ytrain1 : matrix;
  Ytest1 : matrix;
  min_max_scaler1 : MinMaxScaler;
  Xtrain1_minmax : matrix;
  Xtest1_minmax : matrix;
  train_dataset : BlockChainDataset;
  val_dataset : BlockChainDataset;
  test_dataset : BlockChainDataset;
  train_loader : DataLoader;
  val_loader : DataLoader;
  test_loader : DataLoader
}.

Definition prepare_fold (args : Args) (X Y1 : matrix)
  (train_index test_index : list nat) : result FoldData :=
  Xtrain1 <- take_rows X train_index ;;
  Xtest1 <- take_rows X test_index ;;
  Ytrain1 <- take_rows Y1 train_index ;;
  Ytest1 <- take_rows Y1 test_index ;;
  let min_max_scaler1 := new_MinMaxScaler in
  '(min_max_scaler1, Xtrain1_minmax) <-
     fit_transform min_max_scaler1 Xtrain1 ;;
  Xtest1_minmax <- transform min_max_scaler1 Xtest1 ;;
  let train_dataset := new_BlockChainDataset Xtrain1_minmax Ytrain1 in
  let val_dataset := new_BlockChainDataset Xtest1_minmax Ytest1 in
  let test_dataset := new_BlockChainDataset Xtest1_minmax Ytest1 in
  train_loader <- new_DataLoader train_dataset (batch_size args) None ;;
  val_loader <- new_DataLoader val_dataset (Z.of_nat (length Ytest1))
                               (Some false) ;;
  test_loader <- new_DataLoader test_dataset (Z.of_nat (length Xtest1))
                                (Some false) ;;
  Ok {| Xtrain1 := Xtrain1; Xtest1 := Xtest1;
        Ytrain1 := Ytrain1; Ytest1 := Ytest1;
        min_max_scaler1 := min_max_scaler1;
        Xtrain1_minmax := Xtrain1_minmax;
        Xtest1_minmax := Xtest1_minmax;
        train_dataset := train_dataset;
        val_dataset := val_dataset;
        test_dataset := test_dataset;
        train_loader := train_loader;
        val_loader := val_loader;
        test_loader := test_loader |}.

(* ================================================================= *)
(** ** cli_main *)

Fixpoint foldM {A B} (f : B -> A -> result B) (l : list A) (b : B)
  : result B :=
  match l with
  | [] => Ok b
  | a :: l' => b' <- f b a ;; foldM f l' b'
  end.

(** The metrics of an epoch: the mean over its batches of every logged
    key. *)
Definition epoch_metrics (per_batch : list Log) : result Log :=
  match per_batch with
  | [] => Ok []
  | l0 :: _ =>
      mapM (fun '(k, _) =>
              v <- mean (flat_map (fun l => match dict_get k l with
                                            | Some v => [v]
                                            | None => []
                                            end) per_batch) ;;
              Ok (k, v)) l0
  end.

Section Cli.
Variable read_csv : string -> result ndarray.
Variable rng_shuffle : Z -> list nat -> list nat.
Variable randperm : nat -> nat -> list nat.
Variable sqrt : Q -> Q.
(** Initial weights of the model of a fold. *)
Variable init : nat -> initializer.
(** Dropout masks of a training step (epoch, batch). *)
Variable keep : nat -> nat -> nat -> nat -> bool.
(** One Adam update from the loss of a batch. *)
Variable optimizer_step :
  LitClassifier -> matrix * matrix -> Q -> LitClassifier.

Definition lit_training_epoch (loader : DataLoader) (epoch : nat)
  (model : LitClassifier) : result LitClassifier :=
  bs <- batches randperm loader epoch ;;
  foldM (fun model '(batch_idx, batch) =>
           loss <- training_step model (keep epoch batch_idx) batch ;;
           Ok (optimizer_step model batch loss))
        (combine (seq 0 (length bs)) bs) model.

Definition lit_validation_epoch (loader : DataLoader)
  (model : LitClassifier) : result Log :=
  bs <- batches randperm loader 0 ;;
  logs <- mapM (fun batch => validation_step sqrt model batch []) bs ;;
  epoch_metrics logs.

(** [trainer.test(model, test_loader)]: a list with one dict. *)
Definition trainer_test (model : LitClassifier) (loader : DataLoader)
  : result (list Log) :=
  bs <- batches randperm loader 0 ;;
  logs <- mapM (fun batch =>
                  '(_, logs) <- test_step sqrt model batch [] ;; Ok logs)
               bs ;;
  metrics <- epoch_metrics logs ;;
  Ok [metrics].

Definition run_fold (args : Args) (X Y1 : matrix) (i : nat)
  (indices : list nat * list nat) : result (list Q) :=
  let '(train_index, test_index) := indices in
  fd <- prepare_fold args X Y1 train_index test_index ;;
  let MLP := new_Backbone (init i) in
  let model := {| lit_learning_rate := learning_rate args;
                  backbone := MLP |} in
  st <- trainer_fit (lit_training_epoch (train_loader fd))
                    (lit_validation_epoch (val_loader fd))
                    cli_trainer model ;;
  result <- trainer_test (module st) (test_loader fd) ;;
  match result with
  | r0 :: _ => Ok (tl (dict_values r0))
  | [] => Raise IndexError
  end.

Definition cli_main (args : Args) : result CsvFile :=
  raw_data <- read_csv ("../data/" ++ dataset args ++ ".csv") ;;
  bound <- select_columns args raw_data ;;
  X <- read_local (option_map fst bound) ;;
  folds <- split rng_shuffle KF (length X) ;;
  results <- mapM (fun '(i, indices) =>
                     Y1 <- read_local (option_map snd bound) ;;
                     run_fold args X Y1 i indices)
                  (combine (seq 1 (length folds)) folds) ;;
  aggregate sqrt args results.
End Cli.

(* ================================================================= *)
(** ** Definitions that follow the specification's words *)

(** Arithmetic mean of a column: the sum of its entries over their
    number. *)
Definition arithmetic_mean (col : list Q) : Q :=
  sumQ col / Qnat (length col).

(** Population standard deviation of a column: the root of the mean
    squared deviation from the arithmetic mean, the divisor being the
    number of entries (not that number less one). *)
Definition population_std (sqrt : Q -> Q) (col : list Q) : Q :=
  sqrt (sumQ (map (fun x => (x - arithmetic_mean col)
                            * (x - arithmetic_mean col)) col)
        / Qnat (length col)).

(** Column [j] of a table. *)
Definition column (j : nat) (a : matrix) : list Q :=
  map (fun r => nth j r 0) a.

Definition lower_ascii (c : ascii) : ascii :=
  let n := nat_of_ascii c in
  if (65 <=? n)%nat && (n <=? 90)%nat then ascii_of_nat (n + 32) else c.

Fixpoint lower (s : string) : string :=
  match s with
  | EmptyString => EmptyString
  | String c s' => String (lower_ascii c) (lower s')
  end.

(** The three metric columns, prefixed by the task in lower case. *)
Definition metric_columns (task : string) : list string :=
  map (fun m => (lower task ++ "_" ++ m)%string)
      ["MAE"; "RMSE"; "MAPE"]%string.

(* ================================================================= *)
(** ** Auxiliary definitions of the statements *)

(** The same command line with another task name. *)
Definition with_task (args : Args) (t : string) : Args :=
  {| batch_size := batch_size args;
     learning_rate := learning_rate args;
     dataset := dataset args;
     task := t |}.

(** The state [fit] stores for a train matrix with first row [r0], every
    quotient written as the plain division it is shown to be. *)
Definition fitted_state (r0 : row) (rest : matrix) : ScalerState :=
  let data_min := column_min r0 rest in
  let data_max := column_max r0 rest in
  let data_range := zip_with Qminus data_max data_min in
  let scale := map (fun e => (1 - 0) / e)
                   (handle_zeros_in_scale data_range) in
  {| n_features_in_ := length r0;
     data_min_ := data_min;
     data_max_ := data_max;
     data_range_ := data_range;
     scale_ := scale;
     min_ := map (fun p => 0 - p) (zip_with Qmult data_min scale) |}.

(** An array of shape (n, 1). *)
Definition is_column (a : matrix) : Prop :=
  Forall (fun r => length r = 1%nat) a.

(** The layer widths [Backbone()] builds; training changes the weights
    only. *)
Definition cli_dims : list (nat * nat) :=
  [(2, 128); (128, 64); (64, 8); (8, 1)]%nat.

(** The absolute percentage error of one row, as sklearn computes it. *)
Definition ape (t p : Q) : Q := Qabs (p - t) / Qmax (Qabs t) float_eps.

(** All weights and biases zero. *)
Definition zero_init : initializer := fun _ => (fun _ _ => 0, fun _ => 0).

(** The best score and the wait count as functions of the values the
    callback has seen, with the settings of [early_stop_callback]. *)
Definition es_step (s : option Q * nat) (v : Q) : option Q * nat :=
  if monitor_op mode_min (v - min_delta early_stop_callback) (fst s)
  then (Some v, 0%nat)
  else (fst s, S (snd s)).

(** Best score and wait count after the checks on the values [ms]. *)
Definition replay (ms : list Q) : option Q * nat :=
  fold_left es_step ms (None, 0%nat).

(** The settings of [early_stop_callback], which no check changes. *)
Definition es_settings (es : EarlyStopping) : Prop :=
  monitor es = "val_MAE"%string
  /\ min_delta es = min_delta early_stop_callback
  /\ patience es = 10%nat
  /\ mode es = mode_min.

(** The callback state agrees with the replay of the values seen. *)
Definition tracks (es : EarlyStopping) (ms : list Q) : Prop :=
  es_settings es /\ (best_score es, wait_count es) = replay ms.

(* ================================================================= *)
(** ** Directories and checkpoints (cli_main, lines 149-150, 184, 190)

    [os.makedirs] is given [model/<dataset>/<task>] before the loop; fold
    [i], counted from 1, saves its weights under the name
    [Ensemble<i>.ckpt] in it. *)

(** [str(i)] of a natural number. *)
Definition str_nat (i : nat) : string :=
  NilZero.string_of_uint (Nat.to_uint i).

Definition model_dir (args : Args) : string :=
  path_join "model" [dataset args; task args].

Definition checkpoint_path (args : Args) (i : nat) : string :=
  path_join "model"
            [dataset args; task args;
             ("Ensemble" ++ str_nat i ++ ".ckpt")%string].

(** The files the loop saves over [n] folds: [i = 1], then [i = i + 1]. *)
Definition checkpoints (args : Args) (n : nat) : list string :=
  map (checkpoint_path args) (seq 1 n).

(** The least number of CSV columns with which the branch of
    [select_columns] that the arguments take finds its target column. *)
Definition columns_needed (args : Args) : nat :=
  if String.eqb (dataset args) "BPD-1" then
    if String.eqb (task args) "Latency" then 3 else 4
  else if String.eqb (dataset args) "HFBTP" then
    if String.eqb (task args) "Latency" then 5 else 4
  else if String.eqb (dataset args) "MMBPD" then
    if String.eqb (task args) "Latency" then 5 else 2
  else 0.

(** The number of feature columns of a dataset. *)
Definition feature_width (args : Args) : nat :=
  if String.eqb (dataset args) "HFBTP" then 3 else 2.

(* ================================================================= *)
(** * Properties *)

(** ** The error monad *)

Lemma bind_Ok_inv {A B} (m : result A) (k : A -> result B) (b : B) :
  bind m k = Ok b -> exists a, m = Ok a /\ k a = Ok b.
Proof.
  destruct m as [a | e]; simpl; intros H; [eauto | discriminate].
Qed.

Ltac inv_bind H :=
  let a := fresh "a" in
  let Ha := fresh "Ha" in
  apply bind_Ok_inv in H; destruct H as (a & Ha & H).

Lemma mapM_length {A B} (f : A -> result B) (l : list A) (bs : list B) :
  mapM f l = Ok bs -> length bs = length l.
Proof.
  revert bs; induction l as [| a l IH]; simpl; intros bs H.
  - now inversion H.
  - inv_bind H. inv_bind H. inversion H; subst; simpl.
    f_equal; eauto.
Qed.

Lemma mapM_total {A B} (f : A -> result B) (l : list A) :
  (forall a, In a l -> succeeds (f a)) -> succeeds (mapM f l).
Proof.
  induction l as [| a l IH]; simpl; intros H.
  - now exists [].
  - destruct (H a (or_introl eq_refl)) as [b ->].
    destruct IH as [bs ->]; [intros; apply H; now right |].
    simpl. now exists (b :: bs).
Qed.

Lemma mapM_Ok_map {A B} (f : A -> result B) (g : A -> B) (l : list A) :
  (forall a, In a l -> f a = Ok (g a)) -> mapM f l = Ok (map g l).
Proof.
  induction l as [| a l IH]; simpl; intros H; [reflexivity |].
  rewrite (H a (or_introl eq_refl)); simpl.
  rewrite IH by (intros; apply H; now right). reflexivity.
Qed.

Lemma mapM_ext_in {A B} (f g : A -> result B) (l : list A) :
  (forall a, In a l -> f a = g a) -> mapM f l = mapM g l.
Proof.
  induction l as [| a l IH]; simpl; intros H; [reflexivity |].
  rewrite (H a (or_introl eq_refl)), IH; auto.
Qed.

(* ----------------------------------------------------------------- *)
(** ** Column selection *)

Lemma select_columns_unrecognized (args : Args) (raw_data : ndarray) :
  ~ recognized_dataset (dataset args) ->
  select_columns args raw_data = Ok None.
Proof.
  intros Hd. unfold select_columns, recognized_dataset in *.
  destruct (String.eqb_spec (dataset args) "BPD-1"); [tauto |].
  destruct (String.eqb_spec (dataset args) "HFBTP"); [tauto |].
  destruct (String.eqb_spec (dataset args) "MMBPD"); [tauto |].
  reflexivity.
Qed.

Lemma select_columns_else_branch (args : Args) (raw_data : ndarray) :
  task args <> "Latency"%string ->
  select_columns args raw_data
  = select_columns (with_task args "Throughput") raw_data.
Proof.
  intros Ht. unfold select_columns, with_task; simpl.
  destruct (String.eqb_spec (task args) "Latency"); [contradiction |].
  reflexivity.
Qed.

(** With the recognized dataset BPD-1 and the task name "Bogus", which no
    branch compares with, column selection raises nothing and returns the
    feature columns 0-1 and the target column 3, the throughput column. *)
Lemma select_columns_defaults_to_throughput :
  select_columns (mk_Args 32 (1 # 1000) "BPD-1" "Bogus")
                 (mk_ndarray 4 [[1; 2; 3; 4]; [5; 6; 7; 8]])
  = Ok (Some ([[1; 2]; [5; 6]], [[4]; [8]])).
Proof. reflexivity. Qed.

(** C3, as stated, fails: a whole run on the recognized dataset BPD-1
    with the task name "Bogus" raises nothing.  Over five records, with
    zero initial weights and an optimiser that leaves them alone, every
    fold stops early and the result table is written, under default column
    labels, to BPD-1/Bogus/Ensemble_result.csv. *)
Lemma unknown_task_run_succeeds :
  ~ (forall read_csv rng_shuffle randperm sqrt init keep optimizer_step args,
        ~ (recognized_dataset (dataset args)
           /\ recognized_task (task args)) ->
        exists e,
          cli_main read_csv rng_shuffle randperm sqrt init keep
                   optimizer_step args = Raise e).
Proof.
  intros H.
  destruct (H (fun _ => Ok (mk_ndarray 4 [[0; 1; 5; 7]; [1; 0; 6; 8];
                                          [0; 1; 5; 9]; [1; 0; 6; 7];
                                          [0; 1; 5; 8]]))
              (fun _ l => rev l) (fun _ n => seq 0 n) (fun q => q)
              (fun _ => zero_init) (fun _ _ _ _ => false)
              (fun m _ _ => m)
              (mk_Args 32 (1 # 1000) "BPD-1" "Bogus")) as [e He].
  - intros [_ [Ht | Ht]]; discriminate Ht.
  - vm_compute in He. discriminate He.
Qed.

(** C3, amended: every task name other than "Latency" takes the else
    branch, so it selects exactly what "Throughput" selects and meets no
    error that "Throughput" would not meet; for a dataset name that no
    branch compares with, no column is bound and the run fails: with an
    unbound-local error where the split first reads X when the CSV file
    could be read, with the reader's error otherwise. *)
Theorem column_selection_fallthrough :
  forall (args : Args),
    (task args <> "Latency"%string ->
     forall raw_data,
       select_columns args raw_data
       = select_columns (with_task args "Throughput") raw_data)
    /\ (~ recognized_dataset (dataset args) ->
        (forall raw_data, select_columns args raw_data = Ok None)
        /\ forall read_csv rng_shuffle randperm sqrt init keep optimizer_step,
            (exists e,
                cli_main read_csv rng_shuffle randperm sqrt init keep
                         optimizer_step args = Raise e)
            /\ forall raw_data,
                read_csv ("../data/" ++ dataset args ++ ".csv")%string
                = Ok raw_data ->
                cli_main read_csv rng_shuffle randperm sqrt init keep
                         optimizer_step args
                = Raise UnboundLocalError).
Proof.
  intros args; split.
  - intros Ht raw_data. now apply select_columns_else_branch.
  - intros Hd. split; [intros; now apply select_columns_unrecognized |].
    intros read_csv rng_shuffle randperm sqrt init keep optimizer_step.
    assert (U : forall raw_data,
               read_csv ("../data/" ++ dataset args ++ ".csv")%string
               = Ok raw_data ->
               cli_main read_csv rng_shuffle randperm sqrt init keep
                        optimizer_step args
               = Raise UnboundLocalError).
    { intros raw_data Hr. unfold cli_main. rewrite Hr; simpl.
      rewrite select_columns_unrecognized by assumption. reflexivity. }
    split; [| exact U].
    destruct (read_csv ("../data/" ++ dataset args ++ ".csv")%string)
      as [raw_data | e] eqn:Hr.
    + exists UnboundLocalError. now apply (U raw_data).
    + exists e. unfold cli_main. rewrite Hr. reflexivity.
Qed.

Lemma column_selection_fallthrough_witness :
  select_columns (mk_Args 32 (1 # 1000) "HFBTP" "throughput")
                 (mk_ndarray 5 [[1; 2; 3; 4; 5]])
  = Ok (Some ([[1; 2; 3]], [[4]]))
  /\ select_columns (mk_Args 32 (1 # 1000) "ETH" "Latency")
                    (mk_ndarray 5 [[1; 2; 3; 4; 5]])
     = Ok None.
Proof.
  split.
  - destruct (column_selection_fallthrough
                (mk_Args 32 (1 # 1000) "HFBTP" "throughput")) as [H _].
    rewrite H; [reflexivity | discriminate].
  - destruct (column_selection_fallthrough
                (mk_Args 32 (1 # 1000) "ETH" "Latency")) as [_ H].
    apply H. intros [H1 | [H1 | H1]]; discriminate H1.
Defined.

(* ----------------------------------------------------------------- *)
(** ** Backbone *)

(** C5 at HFBTP: column selection keeps three feature columns, the first
    layer built by [Backbone()] takes two, and the forward pass on the
    selected features is refused with a shape error, in training and in
    evaluation mode alike; a run on that dataset stops with this error at
    its first forward pass. *)
Theorem backbone_input_width_fixed_at_2 :
  forall (init : initializer) (training : bool) (keep : nat -> nat -> bool),
    let args := mk_Args 32 (1 # 1000) "HFBTP" "Throughput" in
    let raw_data := mk_ndarray 5 [[0; 1; 2; 5; 7]; [1; 0; 3; 6; 8];
                                  [0; 1; 2; 5; 9]; [1; 0; 3; 6; 7];
                                  [0; 1; 2; 5; 8]] in
    select_columns args raw_data
    = Ok (Some ([[0; 1; 2]; [1; 0; 3]; [0; 1; 2]; [1; 0; 3]; [0; 1; 2]],
                [[5]; [6]; [5]; [6]; [5]]))
    /\ layer_dims (new_Backbone init) = cli_dims
    /\ in_features (fc1 (new_Backbone init)) = 2%nat
    /\ forward (new_Backbone init) training keep
               [[0; 1; 2]; [1; 0; 3]; [0; 1; 2]; [1; 0; 3]; [0; 1; 2]]
       = Raise RuntimeError
    /\ cli_main (fun _ => Ok raw_data) (fun _ l => rev l)
                (fun _ n => seq 0 n) (fun q => q) (fun _ => init)
                (fun _ _ => keep) (fun m _ _ => m) args
       = Raise RuntimeError.
Proof.
  intros init training keep args raw_data.
  split; [reflexivity |]. split; [reflexivity |]. split; [reflexivity |].
  split; [reflexivity |].
  unfold cli_main. cbn [bind]. change (select_columns args raw_data)
    with (Ok (Some ([[0; 1; 2]; [1; 0; 3]; [0; 1; 2]; [1; 0; 3]; [0; 1; 2]],
                    [[5]; [6]; [5]; [6]; [5]]))).
  cbn [bind option_map fst snd read_local]. reflexivity.
Qed.

(* ----------------------------------------------------------------- *)
(** ** The fold body *)

Lemma take_rows_length (X : matrix) (index : list nat) (R : matrix) :
  take_rows X index = Ok R -> length R = length index.
Proof. apply mapM_length. Qed.

Lemma transform_length (s : MinMaxScaler) (X R : matrix) :
  transform s X = Ok R -> length R = length X.
Proof.
  unfold transform. destruct (fitted s); [| discriminate].
  destruct X; [discriminate |]. apply mapM_length.
Qed.

Lemma new_DataLoader_inv ds b sh dl :
  new_DataLoader ds b sh = Ok dl ->
  (0 < b)%Z /\ dl_dataset dl = ds /\ dl_batch_size dl = Z.to_nat b
  /\ dl_shuffle dl = sh.
Proof.
  unfold new_DataLoader. destruct (Z.leb_spec b 0) as [Hb | Hb];
    [discriminate |].
  intros E; inversion E; subst; simpl; auto.
Qed.

(** What a successful [prepare_fold] has computed, field by field. *)
Lemma prepare_fold_inv args X Y1 train_index test_index fd :
  prepare_fold args X Y1 train_index test_index = Ok fd ->
  take_rows X train_index = Ok (Xtrain1 fd)
  /\ take_rows X test_index = Ok (Xtest1 fd)
  /\ take_rows Y1 train_index = Ok (Ytrain1 fd)
  /\ take_rows Y1 test_index = Ok (Ytest1 fd)
  /\ fit_transform new_MinMaxScaler (Xtrain1 fd)
     = Ok (min_max_scaler1 fd, Xtrain1_minmax fd)
  /\ transform (min_max_scaler1 fd) (Xtest1 fd) = Ok (Xtest1_minmax fd)
  /\ train_dataset fd
     = new_BlockChainDataset (Xtrain1_minmax fd) (Ytrain1 fd)
  /\ val_dataset fd = new_BlockChainDataset (Xtest1_minmax fd) (Ytest1 fd)
  /\ test_dataset fd = new_BlockChainDataset (Xtest1_minmax fd) (Ytest1 fd)
  /\ new_DataLoader (train_dataset fd) (batch_size args) None
     = Ok (train_loader fd)
  /\ new_DataLoader (val_dataset fd) (Z.of_nat (length (Ytest1 fd)))
                    (Some false)
     = Ok (val_loader fd)
  /\ new_DataLoader (test_dataset fd) (Z.of_nat (length (Xtest1 fd)))
                    (Some false)
     = Ok (test_loader fd).
Proof.
  unfold prepare_fold. intros H.
  inv_bind H. inv_bind H. inv_bind H. inv_bind H. inv_bind H.
  destruct a3 as [s Xtr]. inv_bind H. inv_bind H. inv_bind H. inv_bind H.
  inversion H; subst; clear H; simpl. repeat split; assumption.
Qed.

Lemma prepare_fold_test_rows args X Y1 train_index test_index fd :
  prepare_fold args X Y1 train_index test_index = Ok fd ->
  length (Xtest1 fd) = length test_index
  /\ length (Ytest1 fd) = length test_index
  /\ length (Xtest1_minmax fd) = length test_index
  /\ test_index <> [].
Proof.
  intros H. apply prepare_fold_inv in H.
  destruct H as (_ & Hx & _ & Hy & _ & Ht & _ & _ & _ & _ & Hv & _).
  apply take_rows_length in Hx, Hy. apply transform_length in Ht.
  apply new_DataLoader_inv in Hv. destruct Hv as (Hn & _).
  repeat split; try congruence.
  intros ->. simpl in *. rewrite Hy in Hn. simpl in Hn. lia.
Qed.

(* ----------------------------------------------------------------- *)
(** ** Batches *)

Lemma batch_sampler_concat (b : nat) (l batch : list nat) :
  (0 < b)%nat -> (length batch < b)%nat ->
  concat (batch_sampler b l batch) = batch ++ l.
Proof.
  intros Hb. revert batch.
  induction l as [| i l IH]; simpl; intros batch Hlen.
  - destruct batch; simpl; [reflexivity | now rewrite app_nil_r].
  - destruct (Nat.eqb_spec (length (batch ++ [i])) b) as [E | E]; simpl.
    + rewrite IH by (simpl; lia). simpl. now rewrite <- app_assoc.
    + rewrite IH, <- app_assoc; [reflexivity |].
      rewrite length_app in *; simpl in *; lia.
Qed.

(** Every emitted batch is non-empty and no longer than [b], and every
    batch but the last has exactly [b] indices. *)
Lemma batch_sampler_sizes (b : nat) (l batch : list nat) :
  (0 < b)%nat -> (length batch < b)%nat ->
  Forall (fun bt => 0 < length bt <= b)%nat (batch_sampler b l batch)
  /\ forall k, (S k < length (batch_sampler b l batch))%nat ->
               length (nth k (batch_sampler b l batch) []) = b.
Proof.
  intros Hb. revert batch.
  induction l as [| i l IH]; simpl; intros batch Hlen.
  - destruct batch as [| j batch]; simpl; split.
    + constructor.
    + intros k Hk; lia.
    + constructor; [simpl in *; lia | constructor].
    + intros k Hk; lia.
  - destruct (Nat.eqb_spec (length (batch ++ [i])) b) as [E | E].
    + destruct (IH [] ltac:(simpl; lia)) as [F N]. split.
      * constructor; [lia | exact F].
      * intros [| k] Hk; simpl in *; [exact E | apply N; lia].
    + apply IH. rewrite length_app in *; simpl in *; lia.
Qed.

Lemma batch_sampler_single (b : nat) (l batch : list nat) :
  l <> [] -> (length batch + length l)%nat = b ->
  batch_sampler b l batch = [batch ++ l].
Proof.
  revert batch. induction l as [| i l IH]; intros batch Hne Hlen.
  - contradiction.
  - simpl. destruct l as [| j l'].
    + replace (length (batch ++ [i]) =? b)%nat with true; [reflexivity |].
      symmetry; apply Nat.eqb_eq. rewrite length_app; simpl in *; lia.
    + replace (length (batch ++ [i]) =? b)%nat with false.
      * rewrite IH; [now rewrite <- app_assoc | discriminate |].
        rewrite length_app; simpl in *; lia.
      * symmetry; apply Nat.eqb_neq. rewrite length_app; simpl in *; lia.
Qed.

Lemma map_nth_seq {A} (l : list A) (d : A) :
  map (fun i => nth i l d) (seq 0 (length l)) = l.
Proof.
  induction l as [| a l IH]; simpl; [reflexivity |].
  f_equal. rewrite <- seq_shift, map_map. exact IH.
Qed.

(** Collating every index in order gives back the two arrays. *)
Lemma collate_all (xs ys : matrix) :
  length xs = length ys ->
  collate (new_BlockChainDataset xs ys) (seq 0 (length xs)) = Ok (xs, ys).
Proof.
  intros Hlen. unfold collate.
  rewrite (mapM_Ok_map _ (fun i => (nth i xs [], nth i ys []))).
  - simpl. rewrite !map_map; simpl.
    rewrite map_nth_seq. rewrite Hlen, map_nth_seq. reflexivity.
  - intros i Hi. apply in_seq in Hi. unfold getitem; simpl.
    rewrite (nth_error_nth' xs []) by lia.
    rewrite (nth_error_nth' ys []) by lia. reflexivity.
Qed.

(** A loader without shuffling whose batch size is the length of its
    dataset yields that dataset as its only batch. *)
Lemma batches_whole_split randperm (xs ys : matrix) dl epoch :
  length xs = length ys -> xs <> [] ->
  dl_dataset dl = new_BlockChainDataset xs ys ->
  dl_batch_size dl = length xs ->
  truthy (dl_shuffle dl) = false ->
  batch_indices randperm dl epoch = [seq 0 (length xs)]
  /\ batches randperm dl epoch = Ok [(xs, ys)].
Proof.
  intros Hlen Hne Hds Hb Hsh.
  assert (Hi : batch_indices randperm dl epoch = [seq 0 (length xs)]).
  { unfold batch_indices, sampler. rewrite Hsh, Hds, Hb; simpl.
    apply (batch_sampler_single (length xs) (seq 0 (length xs)) []).
    - destruct xs; [contradiction | discriminate].
    - simpl. apply length_seq. }
  split; [exact Hi |].
  unfold batches. rewrite Hi, Hds; simpl.
  rewrite collate_all by assumption. reflexivity.
Qed.

(* ----------------------------------------------------------------- *)
(** ** Loaders of a fold *)

Lemma fit_transform_length s X s' out :
  fit_transform s X = Ok (s', out) -> length out = length X.
Proof.
  unfold fit_transform. intros H. inv_bind H. inv_bind H.
  inversion H; subst. eapply transform_length; eassumption.
Qed.

Lemma held_out_loaders :
  forall args X Y1 train_index test_index fd,
    prepare_fold args X Y1 train_index test_index = Ok fd ->
    val_dataset fd = test_dataset fd
    /\ x_data (val_dataset fd) = Xtest1_minmax fd
    /\ y_data (val_dataset fd) = Ytest1 fd
    /\ val_loader fd = test_loader fd
    /\ forall randperm epoch epoch',
        batches randperm (val_loader fd) epoch
        = Ok [(Xtest1_minmax fd, Ytest1 fd)]
        /\ batches randperm (test_loader fd) epoch'
           = Ok [(Xtest1_minmax fd, Ytest1 fd)].
Proof.
  intros args X Y1 train_index test_index fd H.
  destruct (prepare_fold_test_rows _ _ _ _ _ _ H) as (Lx & Ly & Lm & Hne).
  apply prepare_fold_inv in H.
  destruct H as (_ & _ & _ & _ & _ & _ & _ & Hv & Ht & _ & Hvl & Htl).
  assert (Hds : val_dataset fd = test_dataset fd) by congruence.
  assert (Hl : val_loader fd = test_loader fd).
  { rewrite Hds, Ly, <- Lx in Hvl. congruence. }
  split; [exact Hds |]. split; [now rewrite Hv |].
  split; [now rewrite Hv |]. split; [exact Hl |].
  assert (B : forall randperm epoch,
             batches randperm (test_loader fd) epoch
             = Ok [(Xtest1_minmax fd, Ytest1 fd)]).
  { intros randperm epoch.
    apply new_DataLoader_inv in Htl. destruct Htl as (_ & D & S & Sh).
    apply batches_whole_split; try congruence.
    - intros E. rewrite E in Lm. destruct test_index; [auto | discriminate].
    - rewrite S, Nat2Z.id. congruence.
    - now rewrite Sh. }
  intros randperm epoch epoch'. rewrite Hl. split; apply B.
Qed.

(** [evaluate] either raises whatever the stage is, or returns the same
    three metrics and logs them, after the loss, under the stage's keys. *)
Lemma evaluate_stage (sqrt : Q -> Q) (self : LitClassifier)
  (batch : matrix * matrix) :
  (exists e, forall stage logs, evaluate sqrt self batch stage logs = Raise e)
  \/ (exists loss MAE RMSE MAPE,
        forall stage logs,
          evaluate sqrt self batch stage logs
          = Ok ((MAE, RMSE, MAPE),
                if String.eqb stage "" then logs
                else dict_set (stage ++ "_MAPE") MAPE
                       (dict_set (stage ++ "_RMSE") RMSE
                          (dict_set (stage ++ "_MAE") MAE
                             (dict_set (stage ++ "_loss") loss logs))))).
Proof.
  destruct batch as [x y]. unfold evaluate.
  destruct (forward (backbone self) false (fun _ _ => true) x)
    as [y0 | e]; [| left; exists e; reflexivity].
  cbn [bind].
  destruct (mean1_column y0) as [y_hat | e]; [| left; exists e; reflexivity].
  cbn [bind].
  destruct (MSELoss y_hat y) as [loss | e]; [| left; exists e; reflexivity].
  cbn [bind].
  destruct (mean_absolute_error y y_hat) as [MAE | e];
    [| left; exists e; reflexivity].
  cbn [bind].
  destruct (mean_squared_error y y_hat) as [mse | e];
    [| left; exists e; reflexivity].
  cbn [bind].
  destruct (mean_absolute_percentage_error y y_hat) as [MAPE | e];
    [| left; exists e; reflexivity].
  cbn [bind]. right. exists loss, MAE, (sqrt mse), MAPE.
  intros stage logs. destruct (String.eqb stage ""); reflexivity.
Qed.

(** Over one batch, the validation pass and the test pass of one model
    raise the same error or log the same values. *)
Lemma validation_and_test_metrics randperm (sqrt : Q -> Q)
  (model : LitClassifier) (vl tl : DataLoader) (batch : matrix * matrix) :
  batches randperm vl 0 = Ok [batch] ->
  batches randperm tl 0 = Ok [batch] ->
  match lit_validation_epoch randperm sqrt vl model,
        trainer_test randperm sqrt model tl with
  | Ok val_metrics, Ok [test_metrics] =>
      dict_values val_metrics = dict_values test_metrics
      /\ map fst val_metrics
         = ["val_loss"; "val_MAE"; "val_RMSE"; "val_MAPE"]%string
      /\ map fst test_metrics
         = ["test_loss"; "test_MAE"; "test_RMSE"; "test_MAPE"]%string
  | Raise e, Raise e' => e = e'
  | _, _ => False
  end.
Proof.
  intros Hv Ht. unfold lit_validation_epoch, trainer_test.
  rewrite Hv, Ht. cbn [bind mapM]. unfold validation_step, test_step.
  destruct (evaluate_stage sqrt model batch)
    as [[e He] | (loss & MAE & RMSE & MAPE & He)]; rewrite !He.
  - reflexivity.
  - cbn [bind String.eqb]. repeat split.
Qed.

(** C10: in every fold the validation dataset and the test dataset are
    built from the same scaled held-out features and the same held-out
    targets; the two loaders are equal, and each yields that data as one
    batch, so that for one model the metrics the validation pass logs for
    the early-stopping monitor and the metrics the test pass reports are
    the same values, computed over the same rows. *)
Theorem validation_and_test_share_data :
  forall args X Y1 train_index test_index fd,
    prepare_fold args X Y1 train_index test_index = Ok fd ->
    val_dataset fd = test_dataset fd
    /\ x_data (val_dataset fd) = Xtest1_minmax fd
    /\ y_data (val_dataset fd) = Ytest1 fd
    /\ val_loader fd = test_loader fd
    /\ (forall randperm epoch epoch',
          batches randperm (val_loader fd) epoch
          = Ok [(Xtest1_minmax fd, Ytest1 fd)]
          /\ batches randperm (test_loader fd) epoch'
             = Ok [(Xtest1_minmax fd, Ytest1 fd)])
    /\ forall randperm sqrt model,
         match lit_validation_epoch randperm sqrt (val_loader fd) model,
               trainer_test randperm sqrt model (test_loader fd) with
         | Ok val_metrics, Ok [test_metrics] =>
             dict_values val_metrics = dict_values test_metrics
             /\ map fst val_metrics
                = ["val_loss"; "val_MAE"; "val_RMSE"; "val_MAPE"]%string
             /\ map fst test_metrics
                = ["test_loss"; "test_MAE"; "test_RMSE"; "test_MAPE"]%string
         | Raise e, Raise e' => e = e'
         | _, _ => False
         end.
Proof.
  intros args X Y1 train_index test_index fd H.
  destruct (held_out_loaders _ _ _ _ _ _ H) as (H1 & H2 & H3 & H4 & H5).
  repeat (split; [assumption |]).
  intros randperm sqrt model.
  destruct (H5 randperm 0%nat 0%nat) as [Bv Bt].
  now apply (validation_and_test_metrics randperm sqrt model _ _ _ Bv Bt).
Qed.

Lemma validation_and_test_share_data_witness :
  exists fd,
    prepare_fold default_args [[1; 2]; [3; 4]; [5; 7]] [[1]; [2]; [3]]
                 [0; 1]%nat [2]%nat = Ok fd
    /\ val_loader fd = test_loader fd.
Proof.
  eexists. split.
  - vm_compute. reflexivity.
  - eapply (validation_and_test_share_data default_args
              [[1; 2]; [3; 4]; [5; 7]] [[1]; [2]; [3]] [0; 1]%nat [2]%nat).
    vm_compute. reflexivity.
Defined.

(** C4, as stated, fails on "with shuffling": the training loader is made
    without a [shuffle] argument, so its batches follow the dataset order
    and not the random permutation.  With two training rows and a
    generator whose permutation is the reversed order, the only training
    batch is [0; 1]. *)
Lemma training_batches_not_shuffled :
  ~ (forall args X Y1 train_index test_index fd randperm epoch,
        prepare_fold args X Y1 train_index test_index = Ok fd ->
        batch_indices randperm (train_loader fd) epoch
        = batch_sampler (Z.to_nat (batch_size args))
                        (randperm epoch (len (train_dataset fd))) []).
Proof.
  intros H.
  assert (P : exists fd,
             prepare_fold default_args [[1; 2]; [3; 4]; [5; 7]]
                          [[1]; [2]; [3]] [0; 1]%nat [2]%nat = Ok fd)
    by (eexists; vm_compute; reflexivity).
  destruct P as [fd P].
  specialize (H _ _ _ _ _ fd (fun _ n => rev (seq 0 n)) 0%nat P).
  vm_compute in P. inversion P; subst; clear P.
  vm_compute in H. discriminate H.
Qed.

(** C4, amended: in every fold the training loader has the configured
    batch size (32 by default) and no shuffling: its batches are the
    training rows in dataset order, cut every [batch_size] rows, the last
    batch possibly shorter.  The validation loader and the test loader do
    not shuffle either, and each yields the whole held-out split as its
    single batch. *)
Theorem loaders_batching :
  forall args X Y1 train_index test_index fd randperm epoch,
    prepare_fold args X Y1 train_index test_index = Ok fd ->
    batch_size default_args = 32%Z
    /\ (0 < batch_size args)%Z
    /\ dl_batch_size (train_loader fd) = Z.to_nat (batch_size args)
    /\ dl_shuffle (train_loader fd) = None
    /\ concat (batch_indices randperm (train_loader fd) epoch)
       = seq 0 (length train_index)
    /\ Forall (fun bt => 0 < length bt <= Z.to_nat (batch_size args))%nat
              (batch_indices randperm (train_loader fd) epoch)
    /\ (forall k,
          (S k < length (batch_indices randperm (train_loader fd) epoch))%nat ->
          length (nth k (batch_indices randperm (train_loader fd) epoch) [])
          = Z.to_nat (batch_size args))
    /\ dl_shuffle (val_loader fd) = Some false
    /\ dl_shuffle (test_loader fd) = Some false
    /\ batch_indices randperm (val_loader fd) epoch
       = [seq 0 (length test_index)]
    /\ batch_indices randperm (test_loader fd) epoch
       = [seq 0 (length test_index)]
    /\ batches randperm (val_loader fd) epoch
       = Ok [(Xtest1_minmax fd, Ytest1 fd)]
    /\ batches randperm (test_loader fd) epoch
       = Ok [(Xtest1_minmax fd, Ytest1 fd)].
Proof.
  intros args X Y1 train_index test_index fd randperm epoch H.
  destruct (held_out_loaders _ _ _ _ _ _ H) as (_ & _ & _ & Hl & B).
  destruct (B randperm epoch epoch) as [Bv Bt].
  destruct (prepare_fold_test_rows _ _ _ _ _ _ H) as (Lx & Ly & Lm & Hne).
  apply prepare_fold_inv in H.
  destruct H as (Hxt & _ & _ & _ & Hft & _ & Htd & _ & Hte & Htr & _ & Htl).
  apply new_DataLoader_inv in Htr. destruct Htr as (Hb & D & S & Sh).
  apply new_DataLoader_inv in Htl. destruct Htl as (Hb' & D' & S' & Sh').
  apply fit_transform_length in Hft. apply take_rows_length in Hxt.
  assert (I : batch_indices randperm (train_loader fd) epoch
              = batch_sampler (Z.to_nat (batch_size args))
                              (seq 0 (length train_index)) []).
  { unfold batch_indices, sampler. rewrite Sh, S, D, Htd; simpl.
    now rewrite Hft, Hxt. }
  assert (It : batch_indices randperm (test_loader fd) epoch
               = [seq 0 (length test_index)]).
  { rewrite <- Lm.
    apply (batches_whole_split randperm (Xtest1_minmax fd) (Ytest1 fd));
      try congruence.
    - intros E. rewrite E in Lm. destruct test_index; [auto | discriminate].
    - rewrite S', Nat2Z.id. congruence.
    - now rewrite Sh'. }
  rewrite I.
  destruct (batch_sampler_sizes (Z.to_nat (batch_size args))
              (seq 0 (length train_index)) []) as [F N];
    [lia | simpl; lia |].
  repeat split; auto.
  - apply (batch_sampler_concat _ _ []); [lia | simpl; lia].
  - rewrite Hl. exact Sh'.
  - rewrite Hl. exact It.
Qed.

Lemma loaders_batching_witness :
  exists fd,
    prepare_fold default_args [[1; 2]; [3; 4]; [5; 7]] [[1]; [2]; [3]]
                 [0; 1]%nat [2]%nat = Ok fd
    /\ dl_shuffle (train_loader fd) = None
    /\ batch_indices (fun _ n => rev (seq 0 n)) (train_loader fd) 0
       = [[0; 1]]%nat.
Proof.
  eexists. split; [vm_compute; reflexivity |].
  destruct (loaders_batching default_args [[1; 2]; [3; 4]; [5; 7]]
              [[1]; [2]; [3]] [0; 1]%nat [2]%nat _
              (fun _ n => rev (seq 0 n)) 0%nat
              ltac:(vm_compute; reflexivity))
    as (_ & _ & _ & Hs & _).
  split; [exact Hs | vm_compute; reflexivity].
Defined.

(* ----------------------------------------------------------------- *)
(** ** The 5-fold split *)

Lemma bool_index_map {A} (f : A -> bool) (l : list A) :
  bool_index l (map f l) = filter f l.
Proof.
  induction l as [| a l IH]; simpl; [reflexivity |].
  rewrite IH. reflexivity.
Qed.

Lemma existsb_eqb_In (i : nat) (t : list nat) :
  existsb (Nat.eqb i) t = true <-> In i t.
Proof.
  rewrite existsb_exists. split.
  - intros (x & Hx & E). apply Nat.eqb_eq in E. now subst.
  - intros H. exists i. split; [exact H | apply Nat.eqb_refl].
Qed.

Lemma slice_empty {A} (l : list A) (a : nat) : slice l a a = [].
Proof. unfold slice. apply skipn_all2, firstn_le_length. Qed.

Lemma slice_app {A} (l : list A) (a b c : nat) :
  (a <= b)%nat -> (b <= c)%nat ->
  slice l a b ++ slice l b c = slice l a c.
Proof.
  intros Hab Hbc. unfold slice.
  replace (firstn b l) with (firstn b (firstn c l))
    by (rewrite firstn_firstn; f_equal; lia).
  set (L := firstn c l).
  rewrite <- (firstn_skipn b L) at 3. rewrite skipn_app. f_equal.
  rewrite length_firstn.
  destruct (Nat.le_gt_cases b (length L)) as [Hl | Hl].
  - replace (a - Nat.min b (length L))%nat with 0%nat by lia. reflexivity.
  - rewrite (skipn_all2 L) by lia. now rewrite skipn_nil.
Qed.

Lemma iter_chunks_concat (indices : list nat) (current : nat)
  (sizes : list nat) :
  concat (iter_chunks indices current sizes)
  = slice indices current (current + list_sum sizes).
Proof.
  revert current. induction sizes as [| s sizes IH]; simpl; intros current.
  - now rewrite Nat.add_0_r, slice_empty.
  - rewrite IH, slice_app by lia. f_equal. lia.
Qed.

Lemma iter_chunks_length (indices : list nat) (current : nat)
  (sizes : list nat) :
  length (iter_chunks indices current sizes) = length sizes.
Proof.
  revert current. induction sizes as [| s sizes IH]; simpl; intros;
    [reflexivity | now rewrite IH].
Qed.

Lemma sum_incremented_sizes (q r k s : nat) :
  list_sum (map (fun i => q + (if i <? r then 1 else 0))%nat (seq s k))
  = (k * q + (Nat.min (s + k) r - Nat.min s r))%nat.
Proof.
  revert s. induction k as [| k IH]; intros s; simpl.
  - rewrite Nat.add_0_r. lia.
  - rewrite IH. destruct (Nat.ltb_spec s r); lia.
Qed.

(** The fold sizes add up to the number of samples. *)
Lemma fold_sizes_sum (k n : nat) :
  (0 < k)%nat -> list_sum (fold_sizes k n) = n.
Proof.
  intros Hk. unfold fold_sizes. rewrite sum_incremented_sizes.
  pose proof (Nat.mod_upper_bound n k ltac:(lia)).
  pose proof (Nat.div_mod_eq n k). simpl. lia.
Qed.

Lemma NoDup_app_disjoint {A} (l1 l2 : list A) (x : A) :
  NoDup (l1 ++ l2) -> In x l1 -> In x l2 -> False.
Proof.
  induction l1 as [| a l1 IH]; simpl; intros N H1 H2; [contradiction |].
  inversion N as [| ? ? Hn N']; subst.
  destruct H1 as [-> | H1].
  - apply Hn, in_or_app. now right.
  - now apply IH.
Qed.

(** An element of a duplicate-free concatenation lies in one chunk. *)
Lemma NoDup_concat_unique {A} (L : list (list A)) (x : A) (k k' : nat) :
  NoDup (concat L) ->
  In x (nth k L []) -> In x (nth k' L []) -> k = k'.
Proof.
  revert k k'. induction L as [| c L IH]; simpl; intros k k' N Hk Hk'.
  - destruct k; contradiction.
  - assert (Sub : forall j, In x (nth j L []) -> In x (concat L)).
    { intros j Hj. apply in_concat. exists (nth j L []). split; [| exact Hj].
      destruct (Nat.lt_ge_cases j (length L)) as [Hl | Hl].
      - now apply nth_In.
      - rewrite nth_overflow in Hj by exact Hl. contradiction. }
    destruct k as [| k], k' as [| k']; try reflexivity.
    + exfalso. eapply NoDup_app_disjoint; eauto.
    + exfalso. eapply NoDup_app_disjoint; eauto.
    + f_equal. apply IH; auto. eapply NoDup_app_remove_l; eassumption.
Qed.

Section SplitFacts.
Variable rng_shuffle : Z -> list nat -> list nat.
Hypothesis rng_shuffle_perm :
  forall s l, Permutation l (rng_shuffle s l).

Let chunks (n : nat) : list (list nat) := iter_test_indices rng_shuffle KF n.

Let fold_of (n : nat) (c : list nat) : list nat * list nat :=
  (filter (fun i => negb (existsb (Nat.eqb i) c)) (seq 0 n),
   filter (fun i => existsb (Nat.eqb i) c) (seq 0 n)).

Lemma split_KF (n : nat) :
  (5 <= n)%nat ->
  split rng_shuffle KF n = Ok (map (fold_of n) (chunks n)).
Proof.
  intros Hn. unfold split, iter_test_masks.
  change (n_splits KF) with 5%nat.
  destruct (Nat.ltb_spec n 5) as [Hlt | _]; [lia |].
  cbv beta zeta. f_equal. rewrite map_map. apply map_ext. intros c.
  unfold fold_of, test_mask. rewrite map_map.
  now rewrite !bool_index_map.
Qed.

Lemma chunks_concat (n : nat) :
  Permutation (seq 0 n) (concat (chunks n)).
Proof.
  unfold chunks, iter_test_indices.
  change (n_splits KF) with 5%nat. change (shuffle KF) with true.
  change (random_state KF) with seed. cbv beta iota zeta.
  rewrite iter_chunks_concat, fold_sizes_sum by lia.
  pose proof (rng_shuffle_perm seed (seq 0 n)) as P.
  unfold slice. rewrite skipn_O, Nat.add_0_l, firstn_all2; [exact P |].
  apply Permutation_length in P. rewrite <- P, length_seq. lia.
Qed.

Lemma chunks_length (n : nat) : length (chunks n) = 5%nat.
Proof.
  unfold chunks, iter_test_indices. rewrite iter_chunks_length.
  unfold fold_sizes. rewrite length_map, length_seq. reflexivity.
Qed.

Lemma fold_of_test (n : nat) (c : list nat) (i : nat) :
  In i (snd (fold_of n c)) <-> (i < n)%nat /\ In i c.
Proof.
  unfold fold_of; simpl. rewrite filter_In, in_seq, existsb_eqb_In.
  intuition lia.
Qed.

Lemma nth_folds (n k : nat) :
  (k < 5)%nat ->
  nth k (map (fold_of n) (chunks n)) ([], []) = fold_of n (nth k (chunks n) []).
Proof.
  intros Hk. rewrite (nth_indep _ _ (fold_of n [])).
  - apply map_nth.
  - now rewrite length_map, chunks_length.
Qed.

Lemma split_partition (n : nat) :
  (5 <= n)%nat ->
  exists folds,
    split rng_shuffle KF n = Ok folds
    /\ length folds = 5%nat
    /\ (forall train test, In (train, test) folds ->
          NoDup train /\ NoDup test
          /\ (forall i, In i train -> In i test -> False)
          /\ (forall i, (i < n)%nat <-> In i train \/ In i test))
    /\ (forall i, (i < n)%nat ->
          exists k, (k < 5)%nat
            /\ In i (snd (nth k folds ([], [])))
            /\ forall k', (k' < 5)%nat ->
                 In i (snd (nth k' folds ([], []))) -> k' = k).
Proof.
  intros Hn. exists (map (fold_of n) (chunks n)).
  split; [now apply split_KF |].
  split; [now rewrite length_map, chunks_length |].
  split.
  - intros train test Hin. apply in_map_iff in Hin.
    destruct Hin as (c & E & _). unfold fold_of in E.
    inversion E; subst; clear E.
    split; [apply NoDup_filter, seq_NoDup |].
    split; [apply NoDup_filter, seq_NoDup |].
    split.
    + intros i H1 H2. apply filter_In in H1, H2.
      destruct H1 as [_ H1], H2 as [_ H2]. rewrite H2 in H1. discriminate.
    + intros i. rewrite !filter_In, in_seq.
      destruct (existsb (Nat.eqb i) c); simpl; intuition lia.
  - intros i Hi.
    assert (Hc : In i (concat (chunks n))).
    { eapply Permutation_in; [apply chunks_concat |]. apply in_seq. lia. }
    apply in_concat in Hc. destruct Hc as (c & Hc & Hic).
    destruct (In_nth _ _ [] Hc) as (k & Hk & Ek).
    rewrite chunks_length in Hk. exists k. split; [exact Hk |]. split.
    + rewrite nth_folds by exact Hk. apply fold_of_test.
      split; [exact Hi | now rewrite Ek].
    + intros k' Hk' Hin. rewrite nth_folds in Hin by exact Hk'.
      apply fold_of_test in Hin. destruct Hin as [_ Hin].
      apply (NoDup_concat_unique (chunks n) i k' k).
      * eapply Permutation_NoDup; [apply chunks_concat | apply seq_NoDup].
      * exact Hin.
      * now rewrite Ek.
Qed.
End SplitFacts.

Lemma slice_incl {A} (l : list A) (start stop : nat) (x : A) :
  In x (slice l start stop) -> In x l.
Proof.
  unfold slice. intros H.
  rewrite <- (firstn_skipn stop l). apply in_or_app. left.
  rewrite <- (firstn_skipn start (firstn stop l)). apply in_or_app.
  now right.
Qed.

Lemma iter_chunks_nth (indices : list nat) (sizes : list nat)
  (current k : nat) :
  (k < length sizes)%nat ->
  nth k (iter_chunks indices current sizes) []
  = slice indices (current + list_sum (firstn k sizes))
                  (current + list_sum (firstn (S k) sizes)).
Proof.
  revert current k. induction sizes as [| s sizes IH]; intros current k Hk;
    simpl in Hk; [lia |].
  destruct k as [| k].
  - simpl. f_equal; lia.
  - cbn [iter_chunks nth]. rewrite IH by lia.
    simpl. f_equal; lia.
Qed.

(** The split reads the generator only at the seed 42 and the indices
    [0 .. n-1]. *)
Lemma split_seeded (rng rng' : Z -> list nat -> list nat) (n : nat) :
  rng' 42%Z (seq 0 n) = rng 42%Z (seq 0 n) ->
  split rng' KF n = split rng KF n.
Proof.
  intros E. unfold split, iter_test_masks, iter_test_indices.
  change (shuffle KF) with true. change (random_state KF) with 42%Z.
  cbv beta iota zeta. now rewrite E.
Qed.

Lemma test_fold_is_shuffled_chunk (rng_shuffle : Z -> list nat -> list nat)
  (n : nat) :
  (forall s l, Permutation l (rng_shuffle s l)) -> (5 <= n)%nat ->
  exists folds,
    split rng_shuffle KF n = Ok folds
    /\ forall k, (k < 5)%nat ->
         forall i,
           In i (snd (nth k folds ([], [])))
           <-> In i (slice (rng_shuffle 42%Z (seq 0 n))
                           (list_sum (firstn k (fold_sizes 5 n)))
                           (list_sum (firstn (S k) (fold_sizes 5 n)))).
Proof.
  intros Hperm Hn. eexists. split; [now apply split_KF |].
  intros k Hk i. rewrite nth_folds by exact Hk. rewrite (fold_of_test rng_shuffle).
  unfold iter_test_indices.
  change (shuffle KF) with true. change (random_state KF) with 42%Z.
  change (n_splits KF) with 5%nat. cbv beta iota zeta.
  rewrite iter_chunks_nth
    by (unfold fold_sizes; now rewrite length_map, length_seq).
  cbn [Nat.add]. split; [tauto |]. intros H. split; [| exact H].
  apply slice_incl in H.
  apply (Permutation_in _ (Permutation_sym (Hperm 42%Z (seq 0 n)))) in H.
  apply in_seq in H. lia.
Qed.

(** C1: when the dataset has at least the 5 records the splitter asks
    for, [KF.split(X)] yields 5 folds; in each fold the train and the test
    indices are duplicate-free, disjoint, and together exactly the indices
    below the number of records; every index lies in the test indices of
    exactly one fold.  The folds are those of the shuffled split: the test
    indices of fold [k] are exactly the members of the [k]-th consecutive
    chunk, of the sizes of [fold_sizes], of the index array as the
    generator seeded with 42 shuffles it.  The split reads the generator
    at that seed and that array only, so two runs over as many records
    whose generators shuffle alike there yield the same folds. *)
Theorem kfold_split_partition :
  forall rng_shuffle : Z -> list nat -> list nat,
    (forall s l, Permutation l (rng_shuffle s l)) ->
    forall X : matrix,
      (5 <= length X)%nat ->
      exists folds,
        split rng_shuffle KF (length X) = Ok folds
        /\ length folds = 5%nat
        /\ (forall train test, In (train, test) folds ->
              NoDup train /\ NoDup test
              /\ (forall i, In i train -> In i test -> False)
              /\ (forall i, (i < length X)%nat <-> In i train \/ In i test))
        /\ (forall i, (i < length X)%nat ->
              exists k, (k < 5)%nat
                /\ In i (snd (nth k folds ([], [])))
                /\ forall k', (k' < 5)%nat ->
                     In i (snd (nth k' folds ([], []))) -> k' = k)
        /\ (forall k, (k < 5)%nat ->
              forall i,
                In i (snd (nth k folds ([], [])))
                <-> In i (slice (rng_shuffle 42%Z (seq 0 (length X)))
                                (list_sum (firstn k
                                             (fold_sizes 5 (length X))))
                                (list_sum (firstn (S k)
                                             (fold_sizes 5 (length X))))))
        /\ (forall (rng_shuffle' : Z -> list nat -> list nat)
                   (X' : matrix),
              length X' = length X ->
              rng_shuffle' 42%Z (seq 0 (length X))
              = rng_shuffle 42%Z (seq 0 (length X)) ->
              split rng_shuffle' KF (length X') = Ok folds).
Proof.
  intros rng_shuffle Hperm X Hn.
  destruct (split_partition rng_shuffle Hperm (length X) Hn)
    as (folds & Hs & Hl & Hf & Hu).
  destruct (test_fold_is_shuffled_chunk rng_shuffle (length X) Hperm Hn)
    as (folds' & Hs' & Hc).
  assert (folds' = folds) by congruence. subst folds'.
  exists folds.
  split; [exact Hs |]. split; [exact Hl |]. split; [exact Hf |].
  split; [exact Hu |]. split; [exact Hc |].
  intros rng_shuffle' X' EX E. rewrite EX, <- Hs.
  now apply split_seeded.
Qed.

Lemma kfold_split_partition_witness :
  exists folds,
    split (fun _ l => rev l) KF 7 = Ok folds
    /\ length folds = 5%nat
    /\ In 6%nat (snd (nth 0 folds ([], []))).
Proof.
  destruct (kfold_split_partition (fun _ l => rev l)
              (fun _ l => Permutation_rev l)
              [[1; 2]; [3; 4]; [5; 6]; [7; 8]; [9; 10]; [11; 12]; [13; 14]]
              ltac:(simpl; lia))
    as (folds & Hs & Hl & _ & _ & Hc & _).
  exists folds. split; [exact Hs |]. split; [exact Hl |].
  apply (Hc 0%nat ltac:(lia)). vm_compute. auto.
Defined.

(* ----------------------------------------------------------------- *)
(** ** Rows and elementwise operations *)

Lemma length_zip_with {A B C} (f : A -> B -> C) (a : list A) (b : list B) :
  length (zip_with f a b) = Nat.min (length a) (length b).
Proof.
  revert b. induction a as [| x a IH]; intros [| y b]; simpl; auto.
Qed.

Lemma nth_zip_with {A B C} (f : A -> B -> C) (a : list A) (b : list B)
  (j : nat) (da : A) (db : B) (dc : C) :
  (j < length a)%nat -> (j < length b)%nat ->
  nth j (zip_with f a b) dc = f (nth j a da) (nth j b db).
Proof.
  revert b j. induction a as [| x a IH]; intros [| y b] [| j]; simpl;
    intros Ha Hb; try lia; auto.
  apply IH; lia.
Qed.

Lemma mapM_nth {A B} (f : A -> result B) (l : list A) (bs : list B)
  (j : nat) (da : A) (db : B) :
  mapM f l = Ok bs -> (j < length l)%nat ->
  f (nth j l da) = Ok (nth j bs db).
Proof.
  revert bs j. induction l as [| a l IH]; simpl; intros bs j H Hj; [lia |].
  inv_bind H. inv_bind H. inversion H; subst.
  destruct j as [| j]; simpl; [assumption | apply IH; [assumption | lia]].
Qed.

(** A reduction of rows of width [w] along axis 0 has width [w], and its
    entry [j] stays in any set of values closed under the operation. *)
Lemma reduce0_nth (f : Q -> Q -> Q) (P : Q -> Prop) (w j : nat)
  (rest : matrix) (r0 : row) :
  (forall a b, P a -> P b -> P (f a b)) ->
  (j < w)%nat ->
  Forall (fun r => length r = w) (r0 :: rest) ->
  (forall r, In r (r0 :: rest) -> P (nth j r 0)) ->
  length (fold_left (zip_with f) rest r0) = w
  /\ P (nth j (fold_left (zip_with f) rest r0) 0).
Proof.
  intros Hf Hj. revert r0.
  induction rest as [| r rest IH]; intros r0 Hw HP; simpl.
  - inversion Hw; subst. split; [reflexivity | apply HP; now left].
  - inversion Hw as [| ? ? Hr0 Hw']; subst.
    inversion Hw' as [| ? ? Hr Hw'']; subst. apply IH.
    + constructor; [| assumption]. rewrite length_zip_with. lia.
    + intros r' [<- | Hin].
      * rewrite (nth_zip_with _ _ _ _ 0 0) by lia.
        apply Hf; apply HP; simpl; auto.
      * apply HP. simpl; auto.
Qed.

(* ----------------------------------------------------------------- *)
(** ** MinMaxScaler *)

Lemma ten_eps_positive : 0 < 10 * float_eps.
Proof. reflexivity. Qed.

Lemma handle_zeros_nonzero (scale : row) (e : Q) :
  In e (handle_zeros_in_scale scale) -> Qeq_bool e 0 = false.
Proof.
  unfold handle_zeros_in_scale. intros H. apply in_map_iff in H.
  destruct H as (s & <- & _).
  destruct (Qle_bool (10 * float_eps) s) eqn:E; [| reflexivity].
  apply Qle_bool_iff in E.
  destruct (Qeq_bool s 0) eqn:Z; [| reflexivity].
  apply Qeq_bool_iff in Z. rewrite Z in E.
  exfalso. revert E. apply Qlt_not_le, ten_eps_positive.
Qed.

(** The quotients of [fit] are all defined: no divisor is zero. *)
Lemma scale_defined (data_range : row) :
  mapM (checked_div (1 - 0)) (handle_zeros_in_scale data_range)
  = Ok (map (fun e => (1 - 0) / e) (handle_zeros_in_scale data_range)).
Proof.
  apply mapM_Ok_map. intros e He. unfold checked_div.
  now rewrite (handle_zeros_nonzero _ _ He).
Qed.

Lemma fit_new (r0 : row) (rest : matrix) :
  r0 <> [] ->
  fit new_MinMaxScaler (r0 :: rest)
  = Ok {| feature_range := (0, 1);
          fitted := Some (fitted_state r0 rest) |}.
Proof.
  intros Hr. unfold fit; simpl.
  destruct r0 as [| x r0]; [contradiction |]. simpl length.
  cbv beta iota zeta. simpl Nat.eqb. cbv iota.
  rewrite scale_defined. reflexivity.
Qed.

Lemma transform_rows (s : MinMaxScaler) (st : ScalerState) (X : matrix) :
  fitted s = Some st -> X <> [] ->
  Forall (fun r => length r = n_features_in_ st) X ->
  transform s X
  = Ok (map (fun r => zip_with Qplus (zip_with Qmult r (scale_ st))
                                (min_ st)) X).
Proof.
  intros Hs Hne Hw. unfold transform. rewrite Hs.
  destruct X as [| r X']; [contradiction |].
  apply mapM_Ok_map. intros r' Hin.
  rewrite Forall_forall in Hw. rewrite (Hw r' Hin), Nat.eqb_refl.
  reflexivity.
Qed.

Lemma fit_transform_fit s X s' out :
  fit_transform s X = Ok (s', out) ->
  fit s X = Ok s' /\ transform s' X = Ok out.
Proof.
  unfold fit_transform. intros H. inv_bind H. inv_bind H.
  inversion H; subst. auto.
Qed.

Lemma fit_transform_new (r0 : row) (rest : matrix) :
  r0 <> [] ->
  Forall (fun r => length r = length r0) (r0 :: rest) ->
  fit_transform new_MinMaxScaler (r0 :: rest)
  = Ok ({| feature_range := (0, 1);
           fitted := Some (fitted_state r0 rest) |},
        map (fun r => zip_with Qplus
                        (zip_with Qmult r (scale_ (fitted_state r0 rest)))
                        (min_ (fitted_state r0 rest))) (r0 :: rest)).
Proof.
  intros Hr Hw. unfold fit_transform. rewrite fit_new by assumption.
  cbn [bind].
  rewrite (transform_rows _ (fitted_state r0 rest)); auto; discriminate.
Qed.

(** [X[index]] is the rows of [X] at the indices, in their order. *)
Lemma take_rows_map (X : matrix) (index : list nat) (R : matrix) :
  take_rows X index = Ok R ->
  R = map (fun i => nth i X []) index
  /\ Forall (fun i => (i < length X)%nat) index.
Proof.
  unfold take_rows. revert R.
  induction index as [| i index IH]; intros R H; simpl in H.
  - inversion H. split; [reflexivity | constructor].
  - destruct (nth_error X i) as [r |] eqn:N; [| discriminate].
    cbn [bind] in H. inv_bind H. inversion H; subst R; clear H.
    destruct (IH _ Ha) as [E F]. split.
    + cbn [map]. f_equal; [| exact E].
      symmetry. now apply nth_error_nth.
    + constructor; [| exact F]. apply nth_error_Some. congruence.
Qed.

(** What [fit] stores as per-feature minimum and maximum. *)
Lemma fit_new_extremes (X : matrix) (s : MinMaxScaler) :
  fit new_MinMaxScaler X = Ok s ->
  exists r0 rest st,
    X = r0 :: rest /\ fitted s = Some st
    /\ data_min_ st = column_min r0 rest
    /\ data_max_ st = column_max r0 rest.
Proof.
  unfold fit. cbn [feature_range new_MinMaxScaler].
  change (Qle_bool 1 0) with false. cbv iota.
  destruct X as [| r0 rest]; [discriminate |].
  destruct (length r0 =? 0)%nat; [discriminate |].
  intros H. inv_bind H. inversion H; subst s; clear H.
  eexists r0, rest, _. cbn [fitted data_min_ data_max_]. auto.
Qed.

(** C2: [fit_transform] returns the state that [fit] computes from its
    argument and the output that [transform] computes from that state, so
    transforming the same matrix with the returned state gives the same
    output again; it succeeds on every non-empty matrix with rows of one
    positive width.  In a fold the scaler is the one [fit] returns for the
    rows of [X] at the train indices, its per-feature minimum and maximum
    being the column minimum and maximum of those rows; the rows of [X]
    at the test indices are transformed with that very state; and the
    state does not depend on any other row: whatever the rows of [X]
    outside the train indices, the targets and the test indices are, the
    fold has the same scaler. *)
Theorem scaler_fitted_on_train_only :
  (forall s X s' out,
      fit_transform s X = Ok (s', out) ->
      fit s X = Ok s' /\ transform s' X = Ok out)
  /\ (forall r0 rest,
        r0 <> [] -> Forall (fun r => length r = length r0) (r0 :: rest) ->
        succeeds (fit_transform new_MinMaxScaler (r0 :: rest)))
  /\ (forall args X Y1 train_index test_index fd,
        prepare_fold args X Y1 train_index test_index = Ok fd ->
        Xtrain1 fd = map (fun i => nth i X []) train_index
        /\ Xtest1 fd = map (fun i => nth i X []) test_index
        /\ fit new_MinMaxScaler (map (fun i => nth i X []) train_index)
           = Ok (min_max_scaler1 fd)
        /\ (exists r0 rest st,
              map (fun i => nth i X []) train_index = r0 :: rest
              /\ fitted (min_max_scaler1 fd) = Some st
              /\ data_min_ st = column_min r0 rest
              /\ data_max_ st = column_max r0 rest)
        /\ transform (min_max_scaler1 fd)
                     (map (fun i => nth i X []) train_index)
           = Ok (Xtrain1_minmax fd)
        /\ transform (min_max_scaler1 fd)
                     (map (fun i => nth i X []) test_index)
           = Ok (Xtest1_minmax fd)
        /\ forall args' X' Y1' test_index' fd',
            prepare_fold args' X' Y1' train_index test_index' = Ok fd' ->
            (forall i, In i train_index -> nth i X' [] = nth i X []) ->
            min_max_scaler1 fd' = min_max_scaler1 fd).
Proof.
  split; [exact fit_transform_fit |]. split.
  - intros r0 rest Hr Hw. rewrite fit_transform_new by assumption.
    eexists; reflexivity.
  - intros args X Y1 train_index test_index fd H.
    apply prepare_fold_inv in H.
    destruct H as (Htr & Hte & _ & _ & Hft & Ht & _).
    apply fit_transform_fit in Hft. destruct Hft as [Hf Htm].
    apply take_rows_map in Htr, Hte.
    destruct Htr as [Etr _], Hte as [Ete _].
    rewrite Etr in Hf, Htm. rewrite Ete in Ht.
    split; [exact Etr |]. split; [exact Ete |]. split; [exact Hf |].
    split; [exact (fit_new_extremes _ _ Hf) |].
    split; [exact Htm |]. split; [exact Ht |].
    intros args' X' Y1' test_index' fd' H' Hrows.
    apply prepare_fold_inv in H'.
    destruct H' as (Htr' & _ & _ & _ & Hft' & _).
    apply fit_transform_fit in Hft'. destruct Hft' as [Hf' _].
    apply take_rows_map in Htr'. destruct Htr' as [Etr' _].
    rewrite Etr' in Hf'.
    rewrite (map_ext_in _ (fun i => nth i X []) train_index Hrows) in Hf'.
    congruence.
Qed.

Lemma scaler_fitted_on_train_only_witness :
  exists fd fd',
    prepare_fold default_args [[1; 2]; [3; 4]; [5; 7]] [[1]; [2]; [3]]
                 [0; 1]%nat [2]%nat = Ok fd
    /\ prepare_fold default_args [[1; 2]; [3; 4]; [900; -7]]
                    [[1]; [2]; [3]] [0; 1]%nat [2]%nat = Ok fd'
    /\ min_max_scaler1 fd' = min_max_scaler1 fd.
Proof.
  eexists _, _. split; [vm_compute; reflexivity |].
  split; [vm_compute; reflexivity |].
  destruct scaler_fitted_on_train_only as (_ & _ & H).
  eapply (proj2 (proj2 (proj2 (proj2 (proj2 (proj2
            (H default_args [[1; 2]; [3; 4]; [5; 7]] [[1]; [2]; [3]]
               [0; 1]%nat [2]%nat _ ltac:(vm_compute; reflexivity))))))))
    with (args' := default_args) (Y1' := [[1]; [2]; [3]])
         (test_index' := [2]%nat) (X' := [[1; 2]; [3; 4]; [900; -7]]).
  - vm_compute. reflexivity.
  - intros i [<- | [<- | []]]; reflexivity.
Defined.

Lemma nth_map_lt {A B} (f : A -> B) (l : list A) (j : nat) (d : B) (d' : A) :
  (j < length l)%nat -> nth j (map f l) d = f (nth j l d').
Proof.
  intros Hj. rewrite (nth_indep _ d (f d')) by now rewrite length_map.
  apply map_nth.
Qed.

Lemma Qle_bool_small (x : Q) :
  x == 0 -> Qle_bool (10 * float_eps) x = false.
Proof.
  intros Hx. destruct (Qle_bool (10 * float_eps) x) eqn:E; [| reflexivity].
  apply Qle_bool_iff in E. rewrite Hx in E.
  exfalso. revert E. apply Qlt_not_le, ten_eps_positive.
Qed.

Section ConstantColumn.
Variables (r0 : row) (rest : matrix) (j : nat) (c : Q).
Hypothesis rectangular :
  Forall (fun r => length r = length r0) (r0 :: rest).
Hypothesis in_range : (j < length r0)%nat.
Hypothesis constant : forall r, In r (r0 :: rest) -> nth j r 0 == c.

Let st := fitted_state r0 rest.

Lemma constant_min :
  length (data_min_ st) = length r0 /\ nth j (data_min_ st) 0 == c.
Proof.
  apply (reduce0_nth Qmin (fun q => q == c) (length r0)); auto.
  intros a b Ha Hb. rewrite Ha, Hb. apply Q.min_id.
Qed.

Lemma constant_max :
  length (data_max_ st) = length r0 /\ nth j (data_max_ st) 0 == c.
Proof.
  apply (reduce0_nth Qmax (fun q => q == c) (length r0)); auto.
  intros a b Ha Hb. rewrite Ha, Hb. apply Q.max_id.
Qed.

Lemma constant_range :
  length (data_range_ st) = length r0 /\ nth j (data_range_ st) 0 == 0.
Proof.
  destruct constant_min as [Lm Hm], constant_max as [LM HM].
  unfold st in *; simpl in *. split.
  - rewrite length_zip_with. lia.
  - rewrite (nth_zip_with _ _ _ _ 0 0) by lia. rewrite Hm, HM. ring.
Qed.

Lemma constant_scale :
  length (scale_ st) = length r0 /\ nth j (scale_ st) 0 == 1.
Proof.
  destruct constant_range as [Lr Hr]. unfold st in *; simpl in *.
  unfold handle_zeros_in_scale. split.
  - rewrite !length_map. exact Lr.
  - rewrite (nth_map_lt _ _ _ _ 0) by (rewrite length_map; lia).
    rewrite (nth_map_lt _ _ _ _ 0) by lia.
    rewrite (Qle_bool_small _ Hr). reflexivity.
Qed.

Lemma constant_offset :
  length (min_ st) = length r0 /\ nth j (min_ st) 0 == - c.
Proof.
  destruct constant_min as [Lm Hm], constant_scale as [Ls Hs].
  unfold st in *; simpl in *. split.
  - rewrite length_map, length_zip_with. lia.
  - rewrite (nth_map_lt _ _ _ _ 0) by (rewrite length_zip_with; lia).
    rewrite (nth_zip_with _ _ _ _ 0 0) by lia. rewrite Hm, Hs. ring.
Qed.

(** Entry [j] of a transformed row is the entry less the constant. *)
Lemma constant_transformed (r : row) :
  length r = length r0 ->
  nth j (zip_with Qplus (zip_with Qmult r (scale_ st)) (min_ st)) 0
  == nth j r 0 - c.
Proof.
  intros Lr. destruct constant_scale as [Ls Hs], constant_offset as [Lo Ho].
  rewrite (nth_zip_with _ _ _ _ 0 0) by (rewrite ?length_zip_with; lia).
  rewrite (nth_zip_with _ _ _ _ 0 0) by lia. rewrite Hs, Ho. ring.
Qed.

Lemma constant_column_scaled :
  exists s st' out,
    fit_transform new_MinMaxScaler (r0 :: rest) = Ok (s, out)
    /\ fitted s = Some st'
    /\ nth j (data_min_ st') 0 == c
    /\ nth j (data_max_ st') 0 == c
    /\ nth j (scale_ st') 0 == 1
    /\ nth j (min_ st') 0 == - c
    /\ (forall r, In r out -> nth j r 0 == 0)
    /\ (forall Xt, Xt <> [] ->
          Forall (fun r => length r = length r0) Xt ->
          exists outt,
            transform s Xt = Ok outt
            /\ length outt = length Xt
            /\ forall i, (i < length Xt)%nat ->
                 nth j (nth i outt []) 0 == nth j (nth i Xt []) 0 - c).
Proof.
  assert (Hr0 : r0 <> []).
  { intros E. pose proof in_range as I. rewrite E in I. inversion I. }
  eexists _, st, _. split; [apply fit_transform_new; assumption |].
  split; [reflexivity |].
  split; [apply constant_min |]. split; [apply constant_max |].
  split; [apply constant_scale |]. split; [apply constant_offset |].
  split.
  - intros r Hin. apply in_map_iff in Hin. destruct Hin as (r' & <- & Hin).
    pose proof rectangular as R. rewrite Forall_forall in R.
    fold st. rewrite constant_transformed by now apply R.
    rewrite (constant r' Hin). ring.
  - intros Xt Hne Hw. eexists. split; [| split].
    + apply (transform_rows _ st); auto.
    + now rewrite length_map.
    + intros i Hi. rewrite (nth_map_lt _ _ _ _ []) by exact Hi.
      apply constant_transformed.
      rewrite Forall_forall in Hw. apply Hw, nth_In, Hi.
Qed.
End ConstantColumn.

(** C8: when a feature column is constant over the train split (its
    maximum equals its minimum), fitting and transforming raise nothing,
    no quotient having a zero divisor: the range of that column is
    replaced by 1, so its scale is 1 and its offset minus the constant;
    the column is 0 throughout the scaled train split, and a held-out
    entry [x] of that column becomes [x - c]. *)
Theorem constant_column_no_division_by_zero :
  forall (r0 : row) (rest : matrix) (j : nat) (c : Q),
    Forall (fun r => length r = length r0) (r0 :: rest) ->
    (j < length r0)%nat ->
    (forall r, In r (r0 :: rest) -> nth j r 0 == c) ->
    exists s st out,
      fit_transform new_MinMaxScaler (r0 :: rest) = Ok (s, out)
      /\ fitted s = Some st
      /\ nth j (data_min_ st) 0 == c
      /\ nth j (data_max_ st) 0 == c
      /\ nth j (scale_ st) 0 == 1
      /\ nth j (min_ st) 0 == - c
      /\ (forall r, In r out -> nth j r 0 == 0)
      /\ (forall Xt, Xt <> [] ->
            Forall (fun r => length r = length r0) Xt ->
            exists outt,
              transform s Xt = Ok outt
              /\ length outt = length Xt
              /\ forall i, (i < length Xt)%nat ->
                   nth j (nth i outt []) 0 == nth j (nth i Xt []) 0 - c).
Proof. exact constant_column_scaled. Qed.

Lemma constant_column_no_division_by_zero_witness :
  exists s st out,
    fit_transform new_MinMaxScaler [[1; 5]; [3; 5]; [2; 5]] = Ok (s, out)
    /\ fitted s = Some st
    /\ nth 1 (scale_ st) 0 == 1
    /\ (forall r, In r out -> nth 1 r 0 == 0).
Proof.
  destruct (constant_column_no_division_by_zero [1; 5] [[3; 5]; [2; 5]]
              1%nat 5)
    as (s & st & out & H1 & H2 & _ & _ & H3 & _ & H4 & _).
  - repeat constructor.
  - simpl. lia.
  - intros r [<- | [<- | [<- | []]]]; reflexivity.
  - exists s, st, out. auto.
Defined.

(* ----------------------------------------------------------------- *)
(** ** Sums and means *)

Lemma fold_left_Qplus (l : list Q) (a : Q) :
  fold_left Qplus l a == a + sumQ l.
Proof.
  unfold sumQ. revert a. induction l as [| x l IH]; intros a; simpl.
  - ring.
  - rewrite IH, (IH (0 + x)). ring.
Qed.

Lemma sumQ_cons (x : Q) (l : list Q) : sumQ (x :: l) == x + sumQ l.
Proof. unfold sumQ at 1. simpl. rewrite fold_left_Qplus. ring. Qed.

Lemma Qnat_nonzero (n : nat) : n <> 0%nat -> Qeq_bool (Qnat n) 0 = false.
Proof.
  intros Hn. destruct (Qeq_bool (Qnat n) 0) eqn:E; [| reflexivity].
  apply Qeq_bool_iff in E. unfold Qnat in E.
  change 0 with (inject_Z 0) in E.
  apply (proj1 (inject_Z_injective _ _)) in E. lia.
Qed.

Lemma mean_defined (a : row) :
  a <> [] -> mean a = Ok (sumQ a / Qnat (length a)).
Proof.
  intros Ha. unfold mean, checked_div. rewrite Qnat_nonzero; [reflexivity |].
  destruct a; [contradiction | discriminate].
Qed.

Lemma mean0_defined (r0 : row) (rest : matrix) :
  mean0 (r0 :: rest)
  = Ok (map (fun s => s / Qnat (S (length rest))) (sum0 r0 rest)).
Proof.
  unfold mean0. apply mapM_Ok_map. intros s _. unfold checked_div.
  simpl length. now rewrite Qnat_nonzero.
Qed.

(** Entry [j] of the sum along axis 0 is the sum of column [j]. *)
Lemma sum0_nth (w j : nat) (rest : matrix) (r0 : row) :
  (j < w)%nat -> Forall (fun r => length r = w) (r0 :: rest) ->
  length (sum0 r0 rest) = w
  /\ nth j (sum0 r0 rest) 0 == sumQ (column j (r0 :: rest)).
Proof.
  intros Hj. unfold sum0. revert r0.
  induction rest as [| r rest IH]; intros r0 Hw.
  - inversion Hw; subst. simpl. split; [reflexivity |].
    unfold sumQ; simpl. ring.
  - inversion Hw as [| ? ? Hr0 Hw']; subst.
    inversion Hw' as [| ? ? Hr Hw'']; subst. simpl fold_left.
    destruct (IH (zip_with Qplus r0 r)) as [L E].
    { constructor; [| assumption]. rewrite length_zip_with. lia. }
    split; [exact L |]. rewrite E. unfold column; simpl map.
    rewrite (nth_zip_with _ _ _ _ 0 0) by lia.
    rewrite !sumQ_cons. ring.
Qed.

(* ----------------------------------------------------------------- *)
(** ** Metrics on column arrays *)

Lemma elementwise_column (err : Q -> Q -> result Q) (g : Q -> Q -> Q)
  (a b : matrix) :
  (forall t p, err t p = Ok (g t p)) ->
  length a = length b -> is_column a -> is_column b ->
  elementwise err a b
  = Ok (map (fun '(ra, rb) => [g (nth 0 ra 0) (nth 0 rb 0)]) (combine a b)).
Proof.
  intros Herr Hlen Ha Hb. unfold elementwise.
  rewrite Hlen, Nat.eqb_refl. apply mapM_Ok_map.
  intros [ra rb] Hin. unfold is_column in *. rewrite Forall_forall in Ha, Hb.
  pose proof (Ha _ (in_combine_l _ _ _ _ Hin)) as La.
  pose proof (Hb _ (in_combine_r _ _ _ _ Hin)) as Lb.
  destruct ra as [| t [| ? ?]]; try discriminate.
  destruct rb as [| p [| ? ?]]; try discriminate.
  simpl. rewrite Herr. reflexivity.
Qed.

(** On two columns of one length a regression metric is defined and is
    the arithmetic mean of the errors of the rows. *)
Lemma regression_metric_column (err : Q -> Q -> result Q)
  (g : Q -> Q -> Q) (a b : matrix) :
  (forall t p, err t p = Ok (g t p)) ->
  a <> [] -> length a = length b -> is_column a -> is_column b ->
  exists v,
    regression_metric err a b = Ok v
    /\ v == arithmetic_mean
              (map (fun '(ra, rb) => g (nth 0 ra 0) (nth 0 rb 0))
                   (combine a b)).
Proof.
  intros Herr Hne Hlen Ha Hb. unfold regression_metric.
  rewrite (elementwise_column err g) by assumption.
  destruct a as [| ra a']; [contradiction |].
  destruct b as [| rb b']; [discriminate |].
  cbn [combine map bind]. rewrite mean0_defined. cbn [bind].
  set (e0 := [g (nth 0 ra 0) (nth 0 rb 0)]).
  set (E := map (fun '(ra0, rb0) => [g (nth 0 ra0 0) (nth 0 rb0 0)])
                (combine a' b')).
  destruct (sum0_nth 1 0 E e0) as [HL HS]; [lia | |].
  { constructor; [reflexivity |]. unfold E. apply Forall_forall.
    intros r Hr. apply in_map_iff in Hr. destruct Hr as ([? ?] & <- & _).
    reflexivity. }
  destruct (sum0 e0 E) as [| s [| ? ?]]; try discriminate.
  cbn [map bind]. rewrite mean_defined by discriminate.
  eexists. split; [reflexivity |].
  simpl in HS. unfold arithmetic_mean.
  assert (C : column 0 E
              = map (fun '(ra0, rb0) => g (nth 0 ra0 0) (nth 0 rb0 0))
                    (combine a' b')).
  { unfold column, E. rewrite map_map. apply map_ext. now intros [? ?]. }
  rewrite <- C. cbn [length]. unfold column at 2. rewrite length_map.
  unfold sumQ at 1. cbn [fold_left]. change (Qnat 1) with 1.
  rewrite HS. unfold row.
  assert (Hn : ~ Qnat (S (length E)) == 0).
  { intros Z. apply Qeq_bool_iff in Z. now rewrite Qnat_nonzero in Z. }
  revert Hn.
  generalize (Qnat (S (length E)))
             (sumQ (g (nth 0 ra 0) (nth 0 rb 0) :: column 0 E)).
  intros n x Hn. field. exact Hn.
Qed.

Lemma mape_error_defined (t p : Q) :
  checked_div (Qabs (p - t)) (Qmax (Qabs t) float_eps)
  = Ok (Qabs (p - t) / Qmax (Qabs t) float_eps).
Proof.
  unfold checked_div.
  destruct (Qeq_bool (Qmax (Qabs t) float_eps) 0) eqn:E; [| reflexivity].
  apply Qeq_bool_iff in E.
  pose proof (Q.le_max_r (Qabs t) float_eps) as H. rewrite E in H.
  exfalso. revert H. apply Qlt_not_le. reflexivity.
Qed.

Lemma mape_zero_target (t p : Q) :
  t == 0 ->
  Qabs (p - t) / Qmax (Qabs t) float_eps == Qabs p / float_eps.
Proof.
  intros Ht. rewrite Ht. change (Qabs 0) with 0.
  rewrite Q.max_r by discriminate.
  assert (E : p - 0 == p) by ring. now rewrite E.
Qed.

(* ----------------------------------------------------------------- *)
(** ** The forward pass and [evaluate] *)

Lemma mapM_Forall {A B} (f : A -> result B) (P : B -> Prop) (l : list A) :
  (forall a, In a l -> exists b, f a = Ok b /\ P b) ->
  exists bs, mapM f l = Ok bs /\ length bs = length l /\ Forall P bs.
Proof.
  induction l as [| a l IH]; simpl; intros H.
  - exists []. auto.
  - destruct (H a (or_introl eq_refl)) as (b & -> & Pb).
    destruct IH as (bs & -> & Hl & HP); [intros; apply H; now right |].
    exists (b :: bs). simpl. auto.
Qed.

Lemma linear_defined (l : Linear) (x : row) :
  length x = in_features l ->
  exists out, linear l x = Ok out /\ length out = out_features l.
Proof.
  intros H. unfold linear. rewrite H, Nat.eqb_refl.
  eexists. split; [reflexivity |]. now rewrite length_map, length_seq.
Qed.

Lemma relu_length (x : row) : length (relu x) = length x.
Proof. apply length_map. Qed.

Lemma dropout_layer_length p training keep (x : row) :
  length (dropout_layer p training keep x) = length x.
Proof.
  unfold dropout_layer. destruct training; [| reflexivity].
  rewrite length_map, length_combine, length_seq. lia.
Qed.

Lemma forward_row_defined (self : Backbone) training keep (x : row) :
  layer_dims self = cli_dims -> length x = 2%nat ->
  exists out,
    forward_row self training keep x = Ok out /\ length out = 1%nat.
Proof.
  intros D Hx. unfold layer_dims, cli_dims in D. cbn [map] in D.
  injection D as I1 O1 I2 O2 I3 O3 I4 O4. unfold forward_row.
  destruct (linear_defined (fc1 self) x) as (o1 & -> & L1); [congruence |].
  cbn [bind].
  destruct (linear_defined (fc2 self)
              (relu (dropout_layer (dropout self) training (keep 1%nat) o1)))
    as (o2 & -> & L2);
    [rewrite relu_length, dropout_layer_length; congruence |].
  cbn [bind].
  destruct (linear_defined (fc3 self)
              (relu (dropout_layer (dropout self) training (keep 2%nat) o2)))
    as (o3 & -> & L3);
    [rewrite relu_length, dropout_layer_length; congruence |].
  cbn [bind].
  destruct (linear_defined (fc4 self)
              (relu (dropout_layer (dropout self) training (keep 3%nat) o3)))
    as (o4 & -> & L4);
    [rewrite relu_length, dropout_layer_length; congruence |].
  cbn [bind]. exists o4. split; [reflexivity | congruence].
Qed.

Lemma forward_defined (self : Backbone) training keep (x : matrix) :
  layer_dims self = cli_dims ->
  Forall (fun r => length r = 2%nat) x ->
  exists y_hat,
    forward self training keep x = Ok y_hat
    /\ length y_hat = length x /\ is_column y_hat.
Proof.
  intros D Hx. apply mapM_Forall. intros r Hr.
  apply forward_row_defined; [exact D |].
  rewrite Forall_forall in Hx. now apply Hx.
Qed.

Lemma mean1_column_defined (a : matrix) :
  is_column a ->
  exists c, mean1_column a = Ok c /\ length c = length a /\ is_column c.
Proof.
  intros Ha. apply mapM_Forall. intros r Hr.
  unfold is_column in Ha. rewrite Forall_forall in Ha.
  rewrite mean_defined.
  - cbn [bind]. eexists. split; reflexivity.
  - specialize (Ha r Hr). destruct r; [discriminate | discriminate].
Qed.

Lemma MSELoss_defined (a b : matrix) :
  a <> [] -> length a = length b -> is_column a -> is_column b ->
  succeeds (MSELoss a b).
Proof.
  intros Hne Hlen Ha Hb. unfold MSELoss.
  rewrite (elementwise_column _ (fun x y => (x - y) * (x - y)))
    by auto.
  cbn [bind]. rewrite mean_defined; [eexists; reflexivity |].
  destruct a as [| ra a']; [contradiction |].
  destruct b as [| rb b']; discriminate.
Qed.

(** C9: on a batch of rows with two features and one target each,
    [evaluate] raises nothing, whatever the targets are, zero included:
    every absolute error is divided by the larger of the absolute target
    and the float epsilon, a divisor that is never zero, so that a zero
    target contributes [|prediction| / epsilon], and the MAPE is the
    arithmetic mean of these quotients. *)
Theorem evaluate_defined_with_zero_targets :
  forall (sqrt : Q -> Q) (self : LitClassifier) (x y : matrix)
         (stage : string) (logs : Log),
    layer_dims (backbone self) = cli_dims ->
    x <> [] -> length x = length y ->
    Forall (fun r => length r = 2%nat) x -> is_column y ->
    exists MAE RMSE MAPE logs' y_hat,
      evaluate sqrt self (x, y) stage logs = Ok ((MAE, RMSE, MAPE), logs')
      /\ length y_hat = length y
      /\ mean_absolute_percentage_error y y_hat = Ok MAPE
      /\ MAPE == arithmetic_mean
                   (map (fun '(t, p) => ape (nth 0 t 0) (nth 0 p 0))
                        (combine y y_hat))
      /\ forall t p, t == 0 -> ape t p == Qabs p / float_eps.
Proof.
  intros sqrt self x y stage logs D Hne Hlen Hx Hy. unfold evaluate.
  destruct (forward_defined (backbone self) false (fun _ _ => true) x D Hx)
    as (y0 & -> & L0 & C0).
  cbn [bind].
  destruct (mean1_column_defined y0 C0) as (y_hat & -> & L1 & C1).
  cbn [bind].
  assert (Hy_ne : y <> []).
  { intros E. rewrite E in Hlen. destruct x; [contradiction | discriminate]. }
  assert (Hh_ne : y_hat <> []).
  { intros E. rewrite E in L1. simpl in L1.
    destruct x; [contradiction |]. rewrite <- L1 in L0. discriminate. }
  assert (Hl : length y = length y_hat) by congruence.
  destruct (MSELoss_defined y_hat y) as [loss ->]; auto.
  cbn [bind].
  destruct (regression_metric_column (fun t p => Ok (Qabs (p - t)))
              (fun t p => Qabs (p - t)) y y_hat)
    as (MAE & EMAE & _); auto.
  destruct (regression_metric_column (fun t p => Ok ((t - p) * (t - p)))
              (fun t p => (t - p) * (t - p)) y y_hat)
    as (mse & EMSE & _); auto.
  destruct (regression_metric_column
              (fun t p => checked_div (Qabs (p - t))
                                      (Qmax (Qabs t) float_eps))
              ape y y_hat)
    as (MAPE & EMAPE & VMAPE); auto using mape_error_defined.
  unfold mean_absolute_error, mean_squared_error,
    mean_absolute_percentage_error.
  rewrite EMAE. cbn [bind]. rewrite EMSE. cbn [bind].
  rewrite EMAPE. cbn [bind].
  eexists MAE, (sqrt mse), MAPE, _, y_hat.
  split; [reflexivity |]. split; [congruence |].
  split; [exact EMAPE |]. split; [exact VMAPE |].
  intros t p Ht. apply mape_zero_target, Ht.
Qed.

Lemma evaluate_defined_with_zero_targets_witness :
  exists MAE RMSE MAPE logs',
    evaluate (fun q => q)
             {| lit_learning_rate := 1 # 1000;
                backbone := new_Backbone zero_init |}
             ([[0; 1]], [[0]]) "val" []
    = Ok ((MAE, RMSE, MAPE), logs').
Proof.
  destruct (evaluate_defined_with_zero_targets (fun q => q)
              {| lit_learning_rate := 1 # 1000;
                 backbone := new_Backbone zero_init |}
              [[0; 1]] [[0]] "val" [])
    as (MAE & RMSE & MAPE & logs' & _ & H & _).
  - reflexivity.
  - discriminate.
  - reflexivity.
  - repeat constructor.
  - repeat constructor.
  - exists MAE, RMSE, MAPE, logs'. exact H.
Defined.

(* ----------------------------------------------------------------- *)
(** ** Aggregation of the fold metrics *)

Lemma sumQ_map_ext {A} (f g : A -> Q) (l : list A) :
  (forall a, In a l -> f a == g a) -> sumQ (map f l) == sumQ (map g l).
Proof.
  induction l as [| a l IH]; intros H; simpl map; [reflexivity |].
  rewrite !sumQ_cons. rewrite (H a) by (simpl; auto).
  rewrite IH by (intros; apply H; simpl; auto). reflexivity.
Qed.

Lemma column_length (j : nat) (a : matrix) : length (column j a) = length a.
Proof. apply length_map. Qed.

Section Aggregate.
Variable sqrt : Q -> Q.
Hypothesis sqrt_compat : forall a b, a == b -> sqrt a == sqrt b.
Variables (w : nat) (r0 : row) (rest : matrix).
Hypothesis rectangular : Forall (fun r => length r = w) (r0 :: rest).

Let results := r0 :: rest.
Let n := Qnat (length results).

Lemma n_nonzero : ~ n == 0.
Proof.
  intros Z. apply Qeq_bool_iff in Z. unfold n, results in Z.
  now rewrite Qnat_nonzero in Z.
Qed.

Lemma mean0_row :
  exists M,
    mean0 results = Ok M /\ length M = w
    /\ forall j, (j < w)%nat ->
         nth j M 0 == arithmetic_mean (column j results).
Proof.
  unfold results. rewrite mean0_defined. eexists. split; [reflexivity |].
  split.
  - rewrite length_map. unfold sum0.
    destruct w as [| w'].
    + clear - rectangular. revert rectangular. generalize r0.
      induction rest as [| r l IH]; intros r1 H; inversion H; subst.
      * assumption.
      * simpl. apply IH. inversion H3; subst.
        constructor; [| assumption]. rewrite length_zip_with. lia.
    + apply (sum0_nth (S w') 0); [lia | exact rectangular].
  - intros j Hj. destruct (sum0_nth w j rest r0 Hj rectangular) as [L E].
    rewrite (nth_map_lt _ _ _ _ 0) by lia. rewrite E.
    unfold arithmetic_mean. rewrite column_length. reflexivity.
Qed.

Lemma std0_row :
  exists S,
    std0 sqrt results = Ok S /\ length S = w
    /\ forall j, (j < w)%nat ->
         nth j S 0 == population_std sqrt (column j results).
Proof.
  destruct mean0_row as (M & EM & LM & HM). unfold std0. rewrite EM.
  cbn [bind]. unfold results at 1. cbn [map].
  set (sq := fun r : row => map (fun d => d * d) (zip_with Qminus r M)).
  assert (Hx : Forall (fun r => length r = w) (map sq results)).
  { apply Forall_forall. intros x Hx. apply in_map_iff in Hx.
    destruct Hx as (r & <- & Hr). unfold sq.
    rewrite length_map, length_zip_with.
    pose proof rectangular as R. rewrite Forall_forall in R.
    rewrite (R r Hr). lia. }
  rewrite map_map.
  change (sum0 _ _) with (sum0 (sq r0) (map sq rest)).
  rewrite (mapM_Ok_map _ (fun s => s / Qnat (length results - 0))).
  2:{ intros s _. unfold checked_div. rewrite Qnat_nonzero; [reflexivity |].
      unfold results. simpl. lia. }
  cbn [bind]. eexists. split; [reflexivity |]. split.
  - rewrite !length_map. destruct w as [| w'].
    + clear - Hx. unfold results in Hx. cbn [map] in Hx. unfold sum0.
      revert Hx. generalize (sq r0). generalize (map sq rest).
      induction l as [| r l IH]; intros r1 H; inversion H; subst.
      * assumption.
      * simpl. apply IH. inversion H3; subst.
        constructor; [| assumption]. rewrite length_zip_with. lia.
    + apply (sum0_nth (Datatypes.S w') 0); [lia | exact Hx].
  - intros j Hj.
    destruct (sum0_nth w j (map sq rest) (sq r0) Hj Hx) as [L E].
    rewrite (nth_map_lt _ _ _ _ 0) by (rewrite length_map; lia).
    rewrite (nth_map_lt _ _ _ _ 0) by lia.
    unfold population_std. apply sqrt_compat.
    rewrite E, Nat.sub_0_r, column_length.
    change (sq r0 :: map sq rest) with (map sq results).
    pose proof (HM j Hj) as Hm. unfold column in *. rewrite !map_map.
    apply Qdiv_comp; [| reflexivity]. apply sumQ_map_ext.
    intros r Hr. unfold sq.
    pose proof rectangular as R. rewrite Forall_forall in R.
    rewrite (nth_map_lt _ _ _ _ 0)
      by (rewrite length_zip_with, (R r Hr); lia).
    rewrite (nth_zip_with _ _ _ _ 0 0) by (rewrite ?(R r Hr); lia).
    rewrite Hm. reflexivity.
Qed.
End Aggregate.

Lemma result_path (d t : string) :
  recognized_dataset d -> recognized_task t ->
  path_join d [t; "Ensemble_result.csv"%string]
  = (d ++ "/" ++ t ++ "/Ensemble_result.csv")%string.
Proof.
  intros [-> | [-> | ->]] [-> | ->]; reflexivity.
Qed.

Lemma labelled_frame {A} (t : string) (table : matrix) (r : row)
  (rest : matrix) (k : DataFrame -> result A) :
  recognized_task t -> table = r :: rest -> length r = 3%nat ->
  (resultpd <- (if String.eqb t "Latency"
                then set_columns (new_DataFrame table)
                       ["latency_MAE"; "latency_RMSE"; "latency_MAPE"]%string
                else Ok (new_DataFrame table)) ;;
   resultpd <- (if String.eqb t "Throughput"
                then set_columns resultpd
                       ["throughput_MAE"; "throughput_RMSE";
                        "throughput_MAPE"]%string
                else Ok resultpd) ;;
   k resultpd)
  = k {| columns := Names (metric_columns t); frame := table |}.
Proof.
  intros [-> | ->] -> Hr.
  - change (String.eqb "Latency" "Latency") with true.
    change (String.eqb "Latency" "Throughput") with false.
    cbv iota. unfold set_columns, new_DataFrame. cbn [frame].
    rewrite Hr. reflexivity.
  - change (String.eqb "Throughput" "Latency") with false.
    change (String.eqb "Throughput" "Throughput") with true.
    cbv iota. cbn [bind]. cbv iota.
    unfold set_columns, new_DataFrame. cbn [frame].
    rewrite Hr. reflexivity.
Qed.

(** C7: for a task and a dataset the command line knows and any table of
    5 fold rows of 3 metrics, the table handed to [to_csv] is the 5 rows
    followed by the row of the arithmetic means of the columns and by the
    row of their population standard deviations (divisor 5, not 4); its
    three columns are named [<task>_MAE], [<task>_RMSE], [<task>_MAPE]
    with the task in lower case, and the path is
    [<dataset>/<task>/Ensemble_result.csv]. *)
Theorem aggregate_appends_mean_and_std :
  forall (sqrt : Q -> Q) (args : Args) (results : matrix),
    (forall a b, a == b -> sqrt a == sqrt b) ->
    recognized_dataset (dataset args) -> recognized_task (task args) ->
    length results = 5%nat -> Forall (fun r => length r = 3%nat) results ->
    exists mean_row std_row,
      aggregate sqrt args results
      = Ok ((dataset args ++ "/" ++ task args ++ "/Ensemble_result.csv")%string,
            {| columns := Names (metric_columns (task args));
               frame := results ++ [mean_row; std_row] |})
      /\ length mean_row = 3%nat /\ length std_row = 3%nat
      /\ forall j, (j < 3)%nat ->
           nth j mean_row 0 == arithmetic_mean (column j results)
           /\ nth j std_row 0 == population_std sqrt (column j results).
Proof.
  intros sqrt args results Hsqrt Hd Ht Hlen Hw.
  destruct results as [| r0 rest]; [discriminate |].
  destruct (mean0_row 3 r0 rest Hw) as (M & EM & LM & HM).
  destruct (std0_row sqrt Hsqrt 3 r0 rest Hw) as (S & ES & LS & HS).
  assert (Hr0 : length r0 = 3%nat) by now inversion Hw.
  exists M, S. unfold aggregate. rewrite EM. cbn [bind].
  unfold vstack at 1. rewrite Hr0, LM. cbn [Nat.eqb bind].
  rewrite ES. cbn [bind app]. unfold vstack.
  rewrite Hr0, LS. cbn [Nat.eqb bind app].
  rewrite (labelled_frame (task args) _ r0 ((rest ++ [M]) ++ [S]) _ Ht);
    [| reflexivity | exact Hr0].
  rewrite result_path by assumption. rewrite <- app_assoc.
  split; [reflexivity |]. split; [reflexivity |]. split; [reflexivity |].
  intros j Hj. split; [now apply HM | now apply HS].
Qed.

Lemma aggregate_appends_mean_and_std_witness :
  exists mean_row std_row,
    aggregate (fun q => q) default_args
              [[1; 2; 3]; [1; 2; 3]; [1; 2; 3]; [1; 2; 3]; [6; 2; 3]]
    = Ok ("MMBPD/Throughput/Ensemble_result.csv"%string,
          {| columns := Names ["throughput_MAE"; "throughput_RMSE";
                               "throughput_MAPE"]%string;
             frame := [[1; 2; 3]; [1; 2; 3]; [1; 2; 3]; [1; 2; 3];
                       [6; 2; 3]; mean_row; std_row] |})
    /\ nth 0 mean_row 0 == 2.
Proof.
  destruct (aggregate_appends_mean_and_std (fun q => q) default_args
              [[1; 2; 3]; [1; 2; 3]; [1; 2; 3]; [1; 2; 3]; [6; 2; 3]])
    as (m & s & E & _ & _ & H).
  - intros a b H; exact H.
  - right; right; reflexivity.
  - right; reflexivity.
  - reflexivity.
  - repeat constructor.
  - exists m, s. split; [exact E |].
    destruct (H 0%nat ltac:(lia)) as [Hm _]. rewrite Hm. reflexivity.
Defined.

(* ----------------------------------------------------------------- *)
(** ** Early stopping *)

Lemma replay_snoc (ms : list Q) (v : Q) :
  replay (ms ++ [v]) = es_step (replay ms) v.
Proof. unfold replay. now rewrite fold_left_app. Qed.

Lemma minus_min_delta (v : Q) : v - min_delta early_stop_callback == v.
Proof. change (min_delta early_stop_callback) with (0 # 1). ring. Qed.

(** The best score is a lower bound of every value seen. *)
Lemma replay_best_lower (ms : list Q) (x : Q) :
  In x ms -> exists b, fst (replay ms) = Some b /\ b <= x.
Proof.
  revert x. induction ms as [| v ms IH] using rev_ind; intros x Hx.
  - contradiction.
  - rewrite replay_snoc. unfold es_step.
    apply in_app_or in Hx.
    destruct (fst (replay ms)) as [b |] eqn:Eb; unfold monitor_op.
    + destruct (Qle_bool b (v - min_delta early_stop_callback)) eqn:E;
        simpl.
      * exists b. split; [reflexivity |]. destruct Hx as [Hx | [<- | []]].
        -- destruct (IH x Hx) as (b' & Eb' & Hb').
           assert (b' = b) by congruence. now subst b'.
        -- apply Qle_bool_iff in E. now rewrite minus_min_delta in E.
      * exists v. split; [reflexivity |]. destruct Hx as [Hx | [<- | []]].
        -- destruct (IH x Hx) as (b' & Eb' & Hb').
           assert (b' = b) by congruence. subst b'.
           assert (L : ~ b <= v).
           { intros L. rewrite <- (minus_min_delta v) in L.
             apply Qle_bool_iff in L. congruence. }
           apply Qnot_le_lt in L. apply Qlt_le_weak.
           eapply Qlt_le_trans; eassumption.
        -- apply Qle_refl.
    + exists v. split; [reflexivity |]. destruct Hx as [Hx | [<- | []]].
      * destruct (IH x Hx) as (b' & Eb' & _). discriminate.
      * apply Qle_refl.
Qed.

Lemma firstn_snoc {A} (l : list A) (k : nat) (d : A) :
  (k < length l)%nat -> firstn (S k) l = firstn k l ++ [nth k l d].
Proof.
  revert k. induction l as [| a l IH]; intros k Hk; simpl in Hk; [lia |].
  destruct k as [| k]; simpl; [reflexivity |].
  f_equal. apply IH. lia.
Qed.

(** Once no value improves on the first [N], the wait count grows by one
    at every check. *)
Lemma wait_grows (ms : list Q) (N d : nat) :
  (N + d <= length ms)%nat ->
  (forall k, (N <= k < N + d)%nat ->
     exists i, (i < N)%nat /\ nth i ms 0 <= nth k ms 0) ->
  snd (replay (firstn (N + d) ms)) = (snd (replay (firstn N ms)) + d)%nat.
Proof.
  induction d as [| d IH]; intros Hlen Hno.
  - now rewrite !Nat.add_0_r.
  - replace (N + S d)%nat with (S (N + d)) by lia.
    rewrite (firstn_snoc ms (N + d) 0) by lia. rewrite replay_snoc.
    destruct (Hno (N + d)%nat ltac:(lia)) as (i & Hi & Hle).
    destruct (replay_best_lower (firstn (N + d) ms) (nth i ms 0))
      as (b & Eb & Hb).
    { assert (E : nth i (firstn (N + d) ms) 0 = nth i ms 0).
      { rewrite nth_firstn.
        now replace (i <? N + d)%nat with true
          by (symmetry; apply Nat.ltb_lt; lia). }
      rewrite <- E. apply nth_In. rewrite length_firstn. lia. }
    unfold es_step. rewrite Eb. unfold monitor_op.
    replace (Qle_bool b (nth (N + d) ms 0 - min_delta early_stop_callback))
      with true.
    + cbn [negb snd]. rewrite IH; [lia | lia |].
      intros k Hk. apply Hno. lia.
    + symmetry. apply Qle_bool_iff. rewrite minus_min_delta.
      eapply Qle_trans; eassumption.
Qed.

Lemma criteria_tracks (es : EarlyStopping) (ms : list Q) (v : Q) :
  tracks es ms ->
  tracks (fst (evaluate_stopping_criteria es v)) (ms ++ [v])
  /\ snd (evaluate_stopping_criteria es v)
     = (10 <=? wait_count (fst (evaluate_stopping_criteria es v)))%nat.
Proof.
  intros [(Hm & Hd & Hp & Hmo) Hr]. unfold tracks, es_settings.
  rewrite replay_snoc, <- Hr. unfold es_step, evaluate_stopping_criteria.
  cbn [fst snd]. rewrite Hmo, Hd, Hp.
  destruct (monitor_op mode_min (v - min_delta early_stop_callback)
                       (best_score es)); cbn; repeat split; auto.
Qed.

Lemma check_tracks (es : EarlyStopping) (ms : list Q) (metrics : Log)
  (epoch : nat) (es' : EarlyStopping) (stop : bool) :
  tracks es ms ->
  run_early_stopping_check es metrics epoch = Ok (es', stop) ->
  exists v,
    dict_get "val_MAE" metrics = Some v
    /\ tracks es' (ms ++ [v])
    /\ stop = (10 <=? wait_count es')%nat.
Proof.
  intros T H. unfold run_early_stopping_check in H.
  destruct T as [(Hm & Hd & Hp & Hmo) Hr]. rewrite Hm in H.
  destruct (dict_get "val_MAE" metrics) as [v |]; [| discriminate].
  exists v. split; [reflexivity |].
  destruct (criteria_tracks es ms v) as [[S R] B];
    [split; [split |]; auto |].
  destruct (evaluate_stopping_criteria es v) as [es1 stop1].
  cbn [fst snd] in *.
  destruct stop1; inversion H; subst; clear H;
    (split; [split; [exact S | exact R] | exact B]).
Qed.

Lemma monitored_snoc (key : string) (history : list (nat * Log))
  (epoch : nat) (metrics : Log) (v : Q) :
  dict_get key metrics = Some v ->
  monitored key (history ++ [(epoch, metrics)])
  = monitored key history ++ [v].
Proof.
  intros H. unfold monitored. rewrite flat_map_app. simpl.
  now rewrite H.
Qed.

Lemma div10_step (e : nat) :
  ((S e) mod 10 = 0 -> S e / 10 = e / 10 + 1 /\ S e = 10 * (S e / 10))%nat
  /\ ((S e) mod 10 <> 0 -> S e / 10 = e / 10)%nat.
Proof.
  pose proof (Nat.div_mod_eq e 10). pose proof (Nat.div_mod_eq (S e) 10).
  pose proof (Nat.mod_upper_bound e 10 ltac:(lia)).
  pose proof (Nat.mod_upper_bound (S e) 10 ltac:(lia)). lia.
Qed.

Section FitInvariant.
Context {M : Type}.
Variable training_epoch : nat -> M -> result M.
Variable validation_epoch : M -> result Log.

Let values (st : FitState M) : list Q := monitored "val_MAE" (logged st).

(** What holds before every pass of the loop. *)
Let before (st : FitState M) : Prop :=
  tracks (early_stopping st) (values st)
  /\ length (values st) = (current_epoch st / 10)%nat
  /\ forall p, (p <= length (values st))%nat ->
       (snd (replay (firstn p (values st))) < 10)%nat.

(** What holds when the loop is left. *)
Let after (st : FitState M) : Prop :=
  tracks (early_stopping st) (values st)
  /\ current_epoch st = (10 * length (values st))%nat
  /\ (current_epoch st <= 500)%nat
  /\ (forall p, (p < length (values st))%nat ->
        (snd (replay (firstn p (values st))) < 10)%nat)
  /\ (should_stop st = false -> current_epoch st = 500%nat)
  /\ (should_stop st = true -> (10 <= wait_count (early_stopping st))%nat).

Lemma fit_loop_invariant (remaining : nat) (st st' : FitState M) :
  fit_loop training_epoch validation_epoch cli_trainer remaining st = Ok st' ->
  should_stop st = false -> before st ->
  (current_epoch st + remaining = 500)%nat ->
  after st'.
Proof.
  revert st. induction remaining as [| r IH]; intros st H Hs B Hb.
  - simpl in H. inversion H; subst; clear H.
    destruct B as (T & L & W). unfold after.
    rewrite Nat.add_0_r in Hb. rewrite Hb in *.
    change (500 / 10)%nat with 50%nat in L.
    split; [exact T |]. split; [lia |]. split; [lia |].
    split; [intros p Hp; apply W; lia |].
    split; [auto | congruence].
  - cbn [fit_loop] in H. inv_bind H. rename a into st1.
    unfold run_epoch in Ha. inv_bind Ha. rename a into m.
    change (check_val_every_n_epoch cli_trainer) with 10%nat in Ha.
    destruct B as (T & L & W).
    destruct (div10_step (current_epoch st)) as [Dv Dn].
    destruct (Nat.eqb_spec (S (current_epoch st) mod 10) 0) as [E | E].
    + inv_bind Ha. rename a into metrics. inv_bind Ha.
      destruct a as [es1 stop]. inversion Ha; subst st1; clear Ha.
      destruct (check_tracks _ _ _ _ _ _ T Ha2) as (v & Hv & T1 & Hstop).
      destruct (Dv E) as [D1 D2].
      assert (V1 : forall s1 : FitState M,
                   logged s1 = logged st ++ [(current_epoch st, metrics)] ->
                   values s1 = values st ++ [v]).
      { intros s1 E1. unfold values. rewrite E1. now apply monitored_snoc. }
      assert (Pre : forall p, (p <= length (values st))%nat ->
                (snd (replay (firstn p (values st ++ [v]))) < 10)%nat).
      { intros p Hp. rewrite firstn_app.
        replace (p - length (values st))%nat with 0%nat by lia.
        rewrite firstn_O, app_nil_r. now apply W. }
      cbn [should_stop] in H. rewrite Hs in H. cbn [orb] in H.
      destruct stop.
      * inversion H; subst st'; clear H. unfold after.
        match goal with |- context [values ?s] => rewrite (V1 s eq_refl) end.
        cbn [early_stopping current_epoch should_stop].
        rewrite length_app. cbn [length].
        split; [exact T1 |]. split; [lia |]. split; [lia |].
        split; [intros p Hp; apply Pre; lia |].
        split; [discriminate |].
        intros _. symmetry in Hstop. apply Nat.leb_le in Hstop. exact Hstop.
      * apply (IH _ H).
        -- reflexivity.
        -- unfold before. match goal with |- context [values ?s] => rewrite (V1 s eq_refl) end.
           cbn [early_stopping current_epoch].
           rewrite length_app. cbn [length].
           split; [exact T1 |]. split; [lia |].
           intros p Hp.
           destruct (Nat.eq_dec p (length (values st) + 1)) as [-> | Np].
           ++ rewrite firstn_all2 by (rewrite length_app; simpl; lia).
              destruct T1 as [_ R]. rewrite <- R. cbn [snd].
              symmetry in Hstop. apply Nat.leb_gt in Hstop. exact Hstop.
           ++ apply Pre. lia.
        -- cbn [current_epoch]. lia.
    + inversion Ha; subst st1; clear Ha.
      cbn [should_stop] in H. rewrite Hs in H.
      apply (IH _ H).
      * reflexivity.
      * unfold before, values. cbn [early_stopping current_epoch logged].
        fold (values st). split; [exact T |]. split; [| exact W].
        rewrite (Dn E). exact L.
      * cbn [current_epoch]. lia.
Qed.

Lemma trainer_fit_after (model : M) (st : FitState M) :
  trainer_fit training_epoch validation_epoch cli_trainer model = Ok st ->
  after st.
Proof.
  unfold trainer_fit. intros H. inv_bind H.
  change (max_epochs cli_trainer) with 500%nat in H.
  apply (fit_loop_invariant _ _ _ H); [reflexivity | | reflexivity].
  unfold before, values. cbn.
  split; [| split; [reflexivity |]].
  - split; [repeat split | reflexivity].
  - intros p Hp. replace p with 0%nat by lia. cbn. lia.
Qed.

Lemma trainer_fit_halts (model : M) (st : FitState M) :
  trainer_fit training_epoch validation_epoch cli_trainer model = Ok st ->
  current_epoch st = (10 * length (values st))%nat
  /\ (current_epoch st <= 500)%nat
  /\ (should_stop st = false -> current_epoch st = 500%nat)
  /\ (should_stop st = true -> (10 <= wait_count (early_stopping st))%nat)
  /\ forall N,
       (forall k, (N <= k < length (values st))%nat ->
          exists i, (i < N)%nat /\ nth i (values st) 0 <= nth k (values st) 0) ->
       (length (values st) <= N + 10)%nat
       /\ (current_epoch st <= 10 * (N + 10))%nat.
Proof.
  intros H. apply trainer_fit_after in H.
  destruct H as (T & E & B & W & S0 & S1).
  repeat split; auto.
  - destruct (Nat.le_gt_cases (length (values st)) (N + 10)) as [Hle | Hgt];
      [exact Hle | exfalso].
    pose proof (W (N + 10)%nat Hgt) as Hw.
    rewrite (wait_grows (values st) N 10) in Hw; [lia | lia |].
    intros k Hk. apply H. lia.
  - destruct (Nat.le_gt_cases (length (values st)) (N + 10)) as [Hle | Hgt];
      [lia | exfalso].
    pose proof (W (N + 10)%nat Hgt) as Hw.
    rewrite (wait_grows (values st) N 10) in Hw; [lia | lia |].
    intros k Hk. apply H. lia.
Qed.
End FitInvariant.

(** C6: a fit run under the trainer and the callback of [cli_main]
    monitors [val_MAE] in minimization mode with a zero minimum delta and
    a patience of 10, checks it every 10 epochs and runs at most 500
    epochs.  It ends before the budget only when the callback asks for it,
    its wait count having reached the patience; and when no check after
    the first [N] brings a value below all of the first [N] values, the
    run makes at most [N + 10] checks, that is at most [10 * (N + 10)]
    epochs. *)
Theorem early_stopping_halts_within_patience :
  forall (M : Type) (training_epoch : nat -> M -> result M)
         (validation_epoch : M -> result Log) (model : M) (st : FitState M),
    trainer_fit training_epoch validation_epoch cli_trainer model = Ok st ->
    monitor early_stop_callback = "val_MAE"%string
    /\ mode early_stop_callback = mode_min
    /\ min_delta early_stop_callback == 0
    /\ patience early_stop_callback = 10%nat
    /\ max_epochs cli_trainer = 500%nat
    /\ check_val_every_n_epoch cli_trainer = 10%nat
    /\ current_epoch st
       = (10 * length (monitored "val_MAE" (logged st)))%nat
    /\ (current_epoch st <= 500)%nat
    /\ (should_stop st = false -> current_epoch st = 500%nat)
    /\ (should_stop st = true ->
        (10 <= wait_count (early_stopping st))%nat)
    /\ forall N,
         (forall k,
            (N <= k < length (monitored "val_MAE" (logged st)))%nat ->
            exists i, (i < N)%nat
              /\ nth i (monitored "val_MAE" (logged st)) 0
                 <= nth k (monitored "val_MAE" (logged st)) 0) ->
         (length (monitored "val_MAE" (logged st)) <= N + 10)%nat
         /\ (current_epoch st <= 10 * (N + 10))%nat.
Proof.
  intros M training_epoch validation_epoch model st H.
  do 6 (split; [reflexivity |]).
  exact (trainer_fit_halts training_epoch validation_epoch model st H).
Qed.

Lemma early_stopping_halts_within_patience_witness :
  exists st : FitState unit,
    trainer_fit (fun _ m => Ok m)
                (fun _ => Ok [("val_MAE"%string, 1)])
                cli_trainer tt = Ok st
    /\ (current_epoch st <= 110)%nat.
Proof.
  eexists. split; [vm_compute; reflexivity |].
  eapply (proj2 (proj2 (proj2 (proj2 (proj2 (proj2 (proj2 (proj2 (proj2
            (proj2 (early_stopping_halts_within_patience unit
                      (fun _ m => Ok m)
                      (fun _ => Ok [("val_MAE"%string, 1)])
                      tt _ ltac:(vm_compute; reflexivity))))))))))) 1%nat).
  intros k Hk. exists 0%nat. split; [lia |].
  do 11 (destruct k as [| k]; [simpl; try lia; apply Qle_refl |]).
  simpl in Hk. lia.
Defined.

(* ================================================================= *)
(** * Further properties of the script *)

(* ----------------------------------------------------------------- *)
(** ** Loading: the columns a dataset needs *)

Lemma normalize_index_nat (i n : nat) :
  normalize_index (Z.of_nat i) n
  = if (i <? n)%nat then Ok i else Raise IndexError.
Proof.
  unfold normalize_index.
  destruct (Nat.ltb_spec i n) as [H | H].
  - replace (0 <=? Z.of_nat i)%Z with true by (symmetry; apply Z.leb_le; lia).
    replace (Z.of_nat i <? Z.of_nat n)%Z with true
      by (symmetry; apply Z.ltb_lt; lia).
    cbn [andb]. now rewrite Nat2Z.id.
  - replace (Z.of_nat i <? Z.of_nat n)%Z with false
      by (symmetry; apply Z.ltb_ge; lia).
    replace (Z.of_nat i <? 0)%Z with false
      by (symmetry; apply Z.ltb_ge; lia).
    now rewrite !andb_false_r.
Qed.

Lemma normalize_index_minus_2 (n : nat) :
  normalize_index (-2) n
  = if (2 <=? n)%nat then Ok (n - 2)%nat else Raise IndexError.
Proof.
  unfold normalize_index. cbn [Z.leb Z.compare andb].
  destruct (Nat.leb_spec 2 n) as [H | H].
  - replace (- Z.of_nat n <=? -2)%Z with true
      by (symmetry; apply Z.leb_le; lia).
    cbn. f_equal. lia.
  - replace (- Z.of_nat n <=? -2)%Z with false
      by (symmetry; apply Z.leb_gt; lia).
    reflexivity.
Qed.

Lemma column_reshaped_nat (raw_data : ndarray) (i : nat) :
  column_reshaped raw_data (Z.of_nat i)
  = if (i <? shape1 raw_data)%nat
    then Ok (map (fun r => [nth i r 0]) (values raw_data))
    else Raise IndexError.
Proof.
  unfold column_reshaped. rewrite normalize_index_nat.
  now destruct (i <? shape1 raw_data)%nat.
Qed.

Lemma column_reshaped_minus_2 (raw_data : ndarray) :
  column_reshaped raw_data (-2)
  = if (2 <=? shape1 raw_data)%nat
    then Ok (map (fun r => [nth (shape1 raw_data - 2) r 0])
                 (values raw_data))
    else Raise IndexError.
Proof.
  unfold column_reshaped. rewrite normalize_index_minus_2.
  now destruct (2 <=? shape1 raw_data)%nat.
Qed.

Lemma column_slice_width (raw_data : ndarray) (lo hi : nat) :
  well_shaped raw_data ->
  Forall (fun r => length r = (Nat.min hi (shape1 raw_data) - lo)%nat)
         (column_slice raw_data lo hi).
Proof.
  intros W. unfold column_slice. apply Forall_forall. intros r Hr.
  apply in_map_iff in Hr. destruct Hr as (r' & <- & Hr').
  unfold well_shaped in W. rewrite Forall_forall in W.
  rewrite length_skipn, length_firstn, (W r' Hr'). reflexivity.
Qed.

Lemma singleton_rows_column {A} (f : A -> Q) (l : list A) :
  is_column (map (fun a => [f a]) l).
Proof.
  apply Forall_forall. intros r Hr. apply in_map_iff in Hr.
  destruct Hr as (a & <- & _). reflexivity.
Qed.

(** What column selection does on a CSV array, for a recognized dataset. *)
Lemma select_columns_cases (args : Args) (raw_data : ndarray) :
  recognized_dataset (dataset args) -> well_shaped raw_data ->
  ((shape1 raw_data < columns_needed args)%nat /\
   select_columns args raw_data = Raise IndexError)
  \/ ((columns_needed args <= shape1 raw_data)%nat /\
      exists X Y1,
        select_columns args raw_data = Ok (Some (X, Y1))
        /\ length X = length (values raw_data)
        /\ length Y1 = length (values raw_data)
        /\ is_column Y1
        /\ ((3 <= shape1 raw_data)%nat ->
            Forall (fun r => length r = feature_width args) X)).
Proof.
  intros Hd W. unfold select_columns, columns_needed, feature_width.
  pose proof (column_slice_width raw_data 0 2 W) as W02.
  pose proof (column_slice_width raw_data 0 3 W) as W03.
  pose proof (column_slice_width raw_data 1 3 W) as W13.
  change 2%Z with (Z.of_nat 2). change 3%Z with (Z.of_nat 3).
  change 4%Z with (Z.of_nat 4).
  rewrite !column_reshaped_nat, column_reshaped_minus_2.
  destruct Hd as [-> | [-> | ->]]; cbn [String.eqb Ascii.eqb Bool.eqb];
    destruct (String.eqb (task args) "Latency");
    match goal with
    | |- context [(?i <? shape1 raw_data)%nat] =>
        destruct (Nat.ltb_spec i (shape1 raw_data)) as [L | L]
    | |- context [(?i <=? shape1 raw_data)%nat] =>
        destruct (Nat.leb_spec i (shape1 raw_data)) as [L | L]
    end;
    cbn [bind];
    try (left; split; [lia | reflexivity]);
    (right; split; [lia |]; eexists _, _; split; [reflexivity |];
     unfold column_slice; rewrite !length_map;
     split; [reflexivity |]; split; [reflexivity |];
     split; [apply singleton_rows_column |];
     intros H3; eapply Forall_impl; [| eassumption];
     cbv beta; intros r Hr; rewrite Hr; lia).
Qed.

(** X1: for a recognized dataset and a CSV array whose rows have its
    column count, column selection raises [IndexError] exactly when the
    array has fewer columns than the target of the chosen branch needs;
    the MMBPD throughput target is counted from the end, so two columns
    are enough for it.  Otherwise it returns the features and the target,
    one row per record, the target a single column, and, with at least
    three columns, 3 features for HFBTP and 2 for the others. *)
Theorem select_columns_target_column :
  forall (args : Args) (raw_data : ndarray),
    recognized_dataset (dataset args) -> well_shaped raw_data ->
    ((shape1 raw_data < columns_needed args)%nat ->
     select_columns args raw_data = Raise IndexError)
    /\ ((columns_needed args <= shape1 raw_data)%nat ->
        exists X Y1,
          select_columns args raw_data = Ok (Some (X, Y1))
          /\ length X = length (values raw_data)
          /\ length Y1 = length (values raw_data)
          /\ is_column Y1
          /\ ((3 <= shape1 raw_data)%nat ->
              Forall (fun r => length r = feature_width args) X)).
Proof.
  intros args raw_data Hd W.
  destruct (select_columns_cases args raw_data Hd W) as [[L E] | [L E]];
    split; intros H; try lia; assumption.
Qed.

Lemma select_columns_target_column_witness :
  select_columns (mk_Args 32 (1 # 1000) "HFBTP" "Latency")
                 (mk_ndarray 4 [[1; 2; 3; 4]])
  = Raise IndexError
  /\ exists X Y1,
       select_columns (mk_Args 32 (1 # 1000) "MMBPD" "Throughput")
                      (mk_ndarray 4 [[1; 2; 3; 4]; [5; 6; 7; 8]])
       = Ok (Some (X, Y1))
       /\ length X = 2%nat.
Proof.
  split.
  - apply (select_columns_target_column
             (mk_Args 32 (1 # 1000) "HFBTP" "Latency")
             (mk_ndarray 4 [[1; 2; 3; 4]])).
    + right; left; reflexivity.
    + repeat constructor.
    + vm_compute. lia.
  - destruct (select_columns_target_column
                (mk_Args 32 (1 # 1000) "MMBPD" "Throughput")
                (mk_ndarray 4 [[1; 2; 3; 4]; [5; 6; 7; 8]]))
      as [_ H].
    + right; right; reflexivity.
    + repeat constructor.
    + destruct H as (X & Y1 & E & LX & _); [vm_compute; lia |].
      exists X, Y1. split; [exact E | exact LX].
Defined.

(** X2: when the CSV of a recognized dataset could be read, a run stops
    with [IndexError] if the array lacks the target column of the chosen
    branch, and with the splitter's [ValueError] if it has the column but
    fewer than five records; in both cases before any model is built. *)
Theorem run_aborts_on_small_csv :
  forall read_csv rng_shuffle randperm sqrt init keep optimizer_step
         (args : Args) (raw_data : ndarray),
    read_csv ("../data/" ++ dataset args ++ ".csv")%string = Ok raw_data ->
    recognized_dataset (dataset args) -> well_shaped raw_data ->
    ((shape1 raw_data < columns_needed args)%nat ->
     cli_main read_csv rng_shuffle randperm sqrt init keep optimizer_step
              args = Raise IndexError)
    /\ ((columns_needed args <= shape1 raw_data)%nat ->
        (length (values raw_data) < 5)%nat ->
        cli_main read_csv rng_shuffle randperm sqrt init keep optimizer_step
                 args = Raise ValueError).
Proof.
  intros read_csv rng_shuffle randperm sqrt init keep optimizer_step
         args raw_data Hr Hd W.
  unfold cli_main. rewrite Hr. cbn [bind].
  destruct (select_columns_cases args raw_data Hd W)
    as [[L E] | [L (X & Y1 & E & LX & _)]]; rewrite E; cbn [bind];
    split; intros H; try lia; try reflexivity.
  intros H5. cbn [option_map fst read_local bind]. unfold split.
  change (n_splits KF) with 5%nat. rewrite LX.
  destruct (Nat.ltb_spec (length (values raw_data)) 5); [reflexivity | lia].
Qed.

Lemma run_aborts_on_small_csv_witness :
  cli_main (fun _ => Ok (mk_ndarray 2 [[1; 2]; [3; 4]]))
           (fun _ l => l) (fun _ n => seq 0 n) (fun q => q)
           (fun _ => zero_init) (fun _ _ _ _ => true) (fun m _ _ => m)
           (mk_Args 32 (1 # 1000) "BPD-1" "Latency")
  = Raise IndexError
  /\ cli_main (fun _ => Ok (mk_ndarray 4 [[1; 2; 3; 4]; [5; 6; 7; 8]]))
              (fun _ l => l) (fun _ n => seq 0 n) (fun q => q)
              (fun _ => zero_init) (fun _ _ _ _ => true) (fun m _ _ => m)
              (mk_Args 32 (1 # 1000) "BPD-1" "Latency")
     = Raise ValueError.
Proof.
  split.
  - apply (run_aborts_on_small_csv _ _ _ _ _ _ _
             (mk_Args 32 (1 # 1000) "BPD-1" "Latency")
             (mk_ndarray 2 [[1; 2]; [3; 4]])).
    + reflexivity.
    + left; reflexivity.
    + repeat constructor.
    + vm_compute. lia.
  - apply (run_aborts_on_small_csv _ _ _ _ _ _ _
             (mk_Args 32 (1 # 1000) "BPD-1" "Latency")
             (mk_ndarray 4 [[1; 2; 3; 4]; [5; 6; 7; 8]])).
    + reflexivity.
    + left; reflexivity.
    + repeat constructor.
    + vm_compute. lia.
    + vm_compute. lia.
Defined.

(* ----------------------------------------------------------------- *)
(** ** The split: sizes and order of the folds *)

Lemma slice_length {A} (l : list A) (start stop : nat) :
  (stop <= length l)%nat ->
  length (slice l start stop) = (stop - start)%nat.
Proof.
  intros H. unfold slice. rewrite length_skipn, length_firstn. lia.
Qed.

Lemma slice_NoDup {A} (l : list A) (start stop : nat) :
  NoDup l -> NoDup (slice l start stop).
Proof.
  unfold slice. intros N.
  rewrite <- (firstn_skipn stop l) in N. apply NoDup_app_remove_r in N.
  rewrite <- (firstn_skipn start (firstn stop l)) in N.
  now apply NoDup_app_remove_l in N.
Qed.

Lemma iter_chunks_lengths (indices : list nat) (current : nat)
  (sizes : list nat) :
  (current + list_sum sizes <= length indices)%nat ->
  map (@length nat) (iter_chunks indices current sizes) = sizes.
Proof.
  revert current. induction sizes as [| s sizes IH]; intros current H;
    simpl in *; [reflexivity |].
  rewrite slice_length by lia. rewrite IH by lia. f_equal. lia.
Qed.

Lemma iter_chunks_slices (indices : list nat) (current : nat)
  (sizes : list nat) (c : list nat) :
  In c (iter_chunks indices current sizes) ->
  exists start stop, c = slice indices start stop.
Proof.
  revert current. induction sizes as [| s sizes IH]; intros current H;
    simpl in H; [contradiction |].
  destruct H as [<- | H]; [eauto | eapply IH; eassumption].
Qed.

Lemma filter_StronglySorted {A} (R : A -> A -> Prop) (f : A -> bool)
  (l : list A) :
  StronglySorted R l -> StronglySorted R (filter f l).
Proof.
  induction 1 as [| a l S IH F]; simpl; [constructor |].
  destruct (f a); [| exact IH]. constructor; [exact IH |].
  rewrite Forall_forall in *. intros x Hx. apply filter_In in Hx.
  now apply F.
Qed.

Lemma seq_StronglySorted (start len : nat) :
  StronglySorted lt (seq start len).
Proof.
  revert start. induction len as [| len IH]; intros start; simpl;
    constructor; [apply IH |].
  apply Forall_forall. intros x Hx. apply in_seq in Hx. lia.
Qed.

(** A mask built from distinct indices below [n] selects as many entries
    of [0 .. n-1] as there are indices. *)
Lemma mask_selects_all (n : nat) (c : list nat) :
  NoDup c -> (forall i, In i c -> (i < n)%nat) ->
  length (filter (fun i => existsb (Nat.eqb i) c) (seq 0 n)) = length c.
Proof.
  intros N B. apply Permutation_length. apply NoDup_Permutation.
  - apply NoDup_filter, seq_NoDup.
  - exact N.
  - intros i. rewrite filter_In, in_seq, existsb_eqb_In.
    split; [tauto |]. intros H. specialize (B i H). split; [lia | exact H].
Qed.

Lemma split_fold_sizes :
  forall rng_shuffle : Z -> list nat -> list nat,
    (forall s l, Permutation l (rng_shuffle s l)) ->
    forall n : nat,
      (5 <= n)%nat ->
      exists folds,
        split rng_shuffle KF n = Ok folds
        /\ map (fun f => length (snd f)) folds = fold_sizes 5 n
        /\ Forall (fun f => (n / 5 <= length (snd f) <= n / 5 + 1)%nat
                            /\ (length (fst f) + length (snd f))%nat = n
                            /\ StronglySorted lt (fst f)
                            /\ StronglySorted lt (snd f)) folds.
Proof.
  intros rng_shuffle Hperm n Hn. eexists. split; [now apply split_KF |].
  pose proof (Hperm seed (seq 0 n)) as P.
  assert (Li : length (rng_shuffle seed (seq 0 n)) = n).
  { apply Permutation_length in P. now rewrite <- P, length_seq. }
  assert (Lc : map (@length nat) (iter_test_indices rng_shuffle KF n)
               = fold_sizes 5 n).
  { unfold iter_test_indices. change (n_splits KF) with 5%nat.
    change (shuffle KF) with true. change (random_state KF) with seed.
    cbv beta iota zeta. apply iter_chunks_lengths.
    rewrite fold_sizes_sum, Li by lia. lia. }
  assert (Sel : forall c, In c (iter_test_indices rng_shuffle KF n) ->
            length (filter (fun i => existsb (Nat.eqb i) c) (seq 0 n))
            = length c).
  { intros c Hc. unfold iter_test_indices in Hc.
    change (shuffle KF) with true in Hc.
    change (random_state KF) with seed in Hc. cbv beta iota zeta in Hc.
    apply iter_chunks_slices in Hc. destruct Hc as (a & b & ->).
    apply mask_selects_all.
    - apply slice_NoDup. eapply Permutation_NoDup; [exact P |].
      apply seq_NoDup.
    - intros i Hi. apply slice_incl in Hi.
      apply (Permutation_in _ (Permutation_sym P)) in Hi.
      apply in_seq in Hi. lia. }
  split.
  - rewrite map_map. cbn [snd]. rewrite <- Lc. apply map_ext_in. exact Sel.
  - apply Forall_forall. intros f Hf. apply in_map_iff in Hf.
    destruct Hf as (c & <- & Hc). cbn [fst snd].
    rewrite (Sel c Hc).
    split; [| split; [| split]].
    + assert (Hs : In (length c) (fold_sizes 5 n)).
      { rewrite <- Lc. now apply in_map. }
      unfold fold_sizes in Hs. apply in_map_iff in Hs.
      destruct Hs as (i & <- & _). destruct (i <? n mod 5)%nat; lia.
    + rewrite <- (Sel c Hc), Nat.add_comm.
      rewrite (filter_length (fun i => existsb (Nat.eqb i) c) (seq 0 n)).
      apply length_seq.
    + apply filter_StronglySorted, seq_StronglySorted.
    + apply filter_StronglySorted, seq_StronglySorted.
Qed.

(** X3: with at least five records the five test index arrays have the
    sizes of [fold_sizes]: [n / 5] each, one more for the first [n mod 5]
    folds; a fold's train and test arrays together have [n] indices; and
    both arrays are in increasing order whatever the shuffle was, so the
    rows of a split keep the order of the CSV file. *)
Theorem kfold_fold_sizes :
  forall rng_shuffle : Z -> list nat -> list nat,
    (forall s l, Permutation l (rng_shuffle s l)) ->
    forall n : nat,
      (5 <= n)%nat ->
      exists folds,
        split rng_shuffle KF n = Ok folds
        /\ map (fun f => length (snd f)) folds = fold_sizes 5 n
        /\ Forall (fun f => (n / 5 <= length (snd f) <= n / 5 + 1)%nat
                            /\ (length (fst f) + length (snd f))%nat = n
                            /\ StronglySorted lt (fst f)
                            /\ StronglySorted lt (snd f)) folds.
Proof. exact split_fold_sizes. Qed.

Lemma kfold_fold_sizes_witness :
  exists folds,
    split (fun _ l => rev l) KF 7 = Ok folds
    /\ map (fun f => length (snd f)) folds = [2; 2; 1; 1; 1]%nat.
Proof.
  destruct (kfold_fold_sizes (fun _ l => rev l)
              (fun _ l => Permutation_rev l) 7 ltac:(lia))
    as (folds & Hs & Hl & _).
  exists folds. split; [exact Hs | exact Hl].
Defined.

(* ----------------------------------------------------------------- *)
(** ** The datasets of a fold *)

Lemma take_rows_nth (X : matrix) (index : list nat) (R : matrix) (i : nat) :
  take_rows X index = Ok R -> (i < length index)%nat ->
  (nth i index 0 < length X)%nat
  /\ nth i R [] = nth (nth i index 0%nat) X [].
Proof.
  intros H Hi. unfold take_rows in H.
  pose proof (mapM_nth _ _ _ i 0%nat [] H Hi) as E. cbv beta in E.
  destruct (nth_error X (nth i index 0%nat)) as [r |] eqn:N;
    [| discriminate].
  inversion E; subst. split.
  - apply nth_error_Some. congruence.
  - symmetry. now apply nth_error_nth.
Qed.

Lemma transform_row (s : MinMaxScaler) (X out : matrix) (i : nat) :
  transform s X = Ok out -> (i < length X)%nat ->
  transform s [nth i X []] = Ok [nth i out []].
Proof.
  unfold transform. destruct (fitted s) as [st |]; [| discriminate].
  intros H Hi. destruct X as [| r0 X']; [simpl in Hi; lia |].
  pose proof (mapM_nth _ _ _ i [] [] H Hi) as E. cbv beta in E.
  unfold row in *. revert E. generalize (nth i (r0 :: X') []).
  intros r E. simpl. rewrite E. reflexivity.
Qed.

Lemma getitem_new (data label : matrix) (i : nat) :
  (i < length data)%nat -> (i < length label)%nat ->
  getitem (new_BlockChainDataset data label) i
  = Ok (nth i data [], nth i label []).
Proof.
  intros Hd Hl. unfold getitem. cbn [x_data y_data new_BlockChainDataset].
  rewrite (nth_error_nth' data []) by exact Hd.
  rewrite (nth_error_nth' label []) by exact Hl. reflexivity.
Qed.

Lemma getitem_out_of_range (data label : matrix) (i : nat) :
  (length data <= i)%nat ->
  getitem (new_BlockChainDataset data label) i = Raise IndexError.
Proof.
  intros H. unfold getitem. cbn [x_data y_data new_BlockChainDataset].
  apply nth_error_None in H. now rewrite H.
Qed.

(** Item [i] of a dataset built from the rows that [index] selects: the
    scaled features and the target of record [index[i]]. *)
Lemma dataset_item (s : MinMaxScaler) (X Y1 Xs Xm Ys : matrix)
  (index : list nat) (i : nat) :
  take_rows X index = Ok Xs -> take_rows Y1 index = Ok Ys ->
  transform s Xs = Ok Xm -> (i < length index)%nat ->
  (nth i index 0 < length X)%nat /\ (nth i index 0 < length Y1)%nat
  /\ exists x,
       getitem (new_BlockChainDataset Xm Ys) i
       = Ok (x, nth (nth i index 0%nat) Y1 [])
       /\ transform s [nth (nth i index 0%nat) X []] = Ok [x].
Proof.
  intros HX HY HT Hi.
  destruct (take_rows_nth _ _ _ i HX Hi) as [BX EX].
  destruct (take_rows_nth _ _ _ i HY Hi) as [BY EY].
  pose proof (take_rows_length _ _ _ HX) as LX.
  pose proof (take_rows_length _ _ _ HY) as LY.
  pose proof (transform_length _ _ _ HT) as LT.
  split; [exact BX |]. split; [exact BY |].
  exists (nth i Xm []). split.
  - rewrite getitem_new by lia. now rewrite EY.
  - rewrite <- EX. apply transform_row; [exact HT | lia].
Qed.

(** X4: in every fold the train dataset has one item per train index and
    the test dataset one per test index; item [i] pairs the features of
    record [index[i]] of the CSV, scaled with the fold's scaler, with the
    target of that same record, so features and targets stay aligned
    through the split and the scaling; an index at or beyond the length is
    an [IndexError]. *)
Theorem fold_datasets_pair_records :
  forall args X Y1 train_index test_index fd,
    prepare_fold args X Y1 train_index test_index = Ok fd ->
    len (train_dataset fd) = length train_index
    /\ len (test_dataset fd) = length test_index
    /\ (forall i, (i < length train_index)%nat ->
          (nth i train_index 0 < length X)%nat
          /\ (nth i train_index 0 < length Y1)%nat
          /\ exists x,
               getitem (train_dataset fd) i
               = Ok (x, nth (nth i train_index 0%nat) Y1 [])
               /\ transform (min_max_scaler1 fd)
                            [nth (nth i train_index 0%nat) X []]
                  = Ok [x])
    /\ (forall i, (i < length test_index)%nat ->
          (nth i test_index 0 < length X)%nat
          /\ (nth i test_index 0 < length Y1)%nat
          /\ exists x,
               getitem (test_dataset fd) i
               = Ok (x, nth (nth i test_index 0%nat) Y1 [])
               /\ transform (min_max_scaler1 fd)
                            [nth (nth i test_index 0%nat) X []]
                  = Ok [x])
    /\ (forall i, (length train_index <= i)%nat ->
          getitem (train_dataset fd) i = Raise IndexError)
    /\ (forall i, (length test_index <= i)%nat ->
          getitem (test_dataset fd) i = Raise IndexError).
Proof.
  intros args X Y1 train_index test_index fd H.
  apply prepare_fold_inv in H.
  destruct H as (HXtr & HXte & HYtr & HYte & Hft & Ht & Dtr & _ & Dte & _).
  pose proof (fit_transform_length _ _ _ _ Hft) as Lft.
  apply fit_transform_fit in Hft. destruct Hft as [_ Htr].
  pose proof (take_rows_length _ _ _ HXtr) as L1.
  pose proof (take_rows_length _ _ _ HXte) as L2.
  pose proof (transform_length _ _ _ Ht) as L3.
  rewrite Dtr, Dte. cbn [len new_BlockChainDataset].
  split; [congruence |]. split; [congruence |].
  split; [intros i Hi; now apply (dataset_item _ _ _ _ _ _ _ i HXtr HYtr Htr) |].
  split; [intros i Hi; now apply (dataset_item _ _ _ _ _ _ _ i HXte HYte Ht) |].
  split; intros i Hi; apply getitem_out_of_range; lia.
Qed.

Lemma fold_datasets_pair_records_witness :
  exists fd,
    prepare_fold default_args [[1; 2]; [3; 4]; [5; 7]] [[1]; [2]; [3]]
                 [0; 1]%nat [2]%nat = Ok fd
    /\ len (train_dataset fd) = 2%nat
    /\ getitem (test_dataset fd) 1 = Raise IndexError.
Proof.
  eexists. split; [vm_compute; reflexivity |].
  destruct (fold_datasets_pair_records default_args
              [[1; 2]; [3; 4]; [5; 7]] [[1]; [2]; [3]] [0; 1]%nat [2]%nat _
              ltac:(vm_compute; reflexivity))
    as (H1 & _ & _ & _ & _ & H2).
  split; [exact H1 | apply H2; simpl; lia].
Defined.

(* ----------------------------------------------------------------- *)
(** ** The scaled train split: sign, anchor and order *)

Lemma mapM_In {A B} (f : A -> result B) (l : list A) (bs : list B) (b : B) :
  mapM f l = Ok bs -> In b bs -> exists a, In a l /\ f a = Ok b.
Proof.
  revert bs. induction l as [| a l IH]; simpl; intros bs H Hb.
  - inversion H; subst. contradiction.
  - inv_bind H. inv_bind H. inversion H; subst. destruct Hb as [<- | Hb].
    + exists a. auto.
    + destruct (IH _ Ha0 Hb) as (a' & Ha' & E). exists a'. auto.
Qed.

Lemma take_rows_incl (X : matrix) (index : list nat) (R : matrix) (r : row) :
  take_rows X index = Ok R -> In r R -> In r X.
Proof.
  intros H Hr. destruct (mapM_In _ _ _ _ H Hr) as (i & _ & E).
  destruct (nth_error X i) as [r' |] eqn:N; [| discriminate].
  inversion E; subst. eapply nth_error_In; eassumption.
Qed.

(** The column minimum is below every entry of the column. *)
Lemma fold_min_lower (w j : nat) (rest : matrix) (r0 : row) :
  (j < w)%nat -> Forall (fun r => length r = w) (r0 :: rest) ->
  forall r, In r (r0 :: rest) ->
    nth j (fold_left (zip_with Qmin) rest r0) 0 <= nth j r 0.
Proof.
  intros Hj. revert r0.
  induction rest as [| r1 rest IH]; intros r0 Hw r Hr.
  - destruct Hr as [<- | []]. apply Qle_refl.
  - inversion Hw as [| ? ? L0 Hw']; subst.
    inversion Hw' as [| ? ? L1 Hw'']; subst. cbn [fold_left].
    assert (Hz : Forall (fun r => length r = length r0)
                        (zip_with Qmin r0 r1 :: rest)).
    { constructor; [| assumption]. rewrite length_zip_with. lia. }
    assert (Ez : nth j (zip_with Qmin r0 r1) 0
                 = Qmin (nth j r0 0) (nth j r1 0))
      by (apply nth_zip_with; lia).
    destruct Hr as [<- | [<- | Hr]].
    + eapply Qle_trans; [apply (IH _ Hz _ (or_introl eq_refl)) |].
      rewrite Ez. apply Q.le_min_l.
    + eapply Qle_trans; [apply (IH _ Hz _ (or_introl eq_refl)) |].
      rewrite Ez. apply Q.le_min_r.
    + apply (IH _ Hz). now right.
Qed.

(** The column maximum is above every entry of the column. *)
Lemma fold_max_upper (w j : nat) (rest : matrix) (r0 : row) :
  (j < w)%nat -> Forall (fun r => length r = w) (r0 :: rest) ->
  forall r, In r (r0 :: rest) ->
    nth j r 0 <= nth j (fold_left (zip_with Qmax) rest r0) 0.
Proof.
  intros Hj. revert r0.
  induction rest as [| r1 rest IH]; intros r0 Hw r Hr.
  - destruct Hr as [<- | []]. apply Qle_refl.
  - inversion Hw as [| ? ? L0 Hw']; subst.
    inversion Hw' as [| ? ? L1 Hw'']; subst. cbn [fold_left].
    assert (Hz : Forall (fun r => length r = length r0)
                        (zip_with Qmax r0 r1 :: rest)).
    { constructor; [| assumption]. rewrite length_zip_with. lia. }
    assert (Ez : nth j (zip_with Qmax r0 r1) 0
                 = Qmax (nth j r0 0) (nth j r1 0))
      by (apply nth_zip_with; lia).
    destruct Hr as [<- | [<- | Hr]].
    + eapply Qle_trans; [| apply (IH _ Hz _ (or_introl eq_refl))].
      rewrite Ez. apply Q.le_max_l.
    + eapply Qle_trans; [| apply (IH _ Hz _ (or_introl eq_refl))].
      rewrite Ez. apply Q.le_max_r.
    + apply (IH _ Hz). now right.
Qed.

Section ScaledRange.
Variables (r0 : row) (rest : matrix) (j : nat).
Hypothesis rectangular :
  Forall (fun r => length r = length r0) (r0 :: rest).
Hypothesis in_range : (j < length r0)%nat.

Let st := fitted_state r0 rest.
Let lo := nth j (data_min_ st) 0.
Let hi := nth j (data_max_ st) 0.
Let scaled (r : row) : row :=
  zip_with Qplus (zip_with Qmult r (scale_ st)) (min_ st).

Lemma state_widths :
  length (data_min_ st) = length r0 /\ length (data_max_ st) = length r0
  /\ length (data_range_ st) = length r0
  /\ length (scale_ st) = length r0 /\ length (min_ st) = length r0.
Proof.
  destruct (reduce0_nth Qmin (fun _ => True) (length r0) j rest r0)
    as [Lm _]; auto.
  destruct (reduce0_nth Qmax (fun _ => True) (length r0) j rest r0)
    as [LM _]; auto.
  fold (column_min r0 rest) in Lm. fold (column_max r0 rest) in LM.
  unfold st in *. cbn [data_min_ data_max_ data_range_ scale_ min_
                       fitted_state] in *.
  unfold handle_zeros_in_scale.
  repeat split; rewrite ?length_map, ?length_zip_with, ?length_map,
                  ?length_zip_with; lia.
Qed.

Lemma column_bounds (r : row) :
  In r (r0 :: rest) -> lo <= nth j r 0 <= hi.
Proof.
  intros Hr. split.
  - apply (fold_min_lower (length r0)); assumption.
  - apply (fold_max_upper (length r0)); assumption.
Qed.

Lemma range_entry : nth j (data_range_ st) 0 = hi - lo.
Proof.
  destruct state_widths as (Lm & LM & _). unfold hi, lo.
  change (data_range_ st)
    with (zip_with Qminus (data_max_ st) (data_min_ st)).
  apply nth_zip_with; lia.
Qed.

Lemma scale_entry :
  nth j (scale_ st) 0
  = (1 - 0) / (if Qle_bool (10 * float_eps) (hi - lo) then hi - lo else 1).
Proof.
  destruct state_widths as (_ & _ & Lr & _). rewrite <- range_entry.
  change (scale_ st)
    with (map (fun e => (1 - 0) / e)
              (map (fun s => if Qle_bool (10 * float_eps) s then s else 1)
                   (data_range_ st))).
  rewrite (nth_map_lt _ _ _ _ 0) by (rewrite length_map; lia).
  now rewrite (nth_map_lt _ _ _ _ 0) by lia.
Qed.

Lemma scaled_entry (r : row) :
  length r = length r0 ->
  nth j (scaled r) 0 == (nth j r 0 - lo) * nth j (scale_ st) 0.
Proof.
  intros Lr. destruct state_widths as (Lm & _ & _ & Ls & Lo).
  unfold scaled.
  rewrite (nth_zip_with _ _ _ _ 0 0) by (rewrite ?length_zip_with; lia).
  rewrite (nth_zip_with _ _ _ _ 0 0) by lia.
  assert (E : nth j (min_ st) 0 = 0 - lo * nth j (scale_ st) 0).
  { unfold lo.
    change (min_ st)
      with (map (fun p => 0 - p)
                (zip_with Qmult (data_min_ st) (scale_ st))).
    rewrite (nth_map_lt _ _ _ _ 0) by (rewrite length_zip_with; lia).
    f_equal. apply nth_zip_with; lia. }
  rewrite E. ring.
Qed.

Lemma scale_nonneg : 0 <= nth j (scale_ st) 0.
Proof.
  rewrite scale_entry.
  destruct (Qle_bool (10 * float_eps) (hi - lo)) eqn:E.
  - apply Qle_bool_iff in E.
    assert (P : 0 < hi - lo).
    { eapply Qlt_le_trans; [apply ten_eps_positive | exact E]. }
    apply Qle_shift_div_l; [exact P |]. rewrite Qmult_0_l.
    apply Qle_bool_iff. reflexivity.
  - apply Qle_bool_iff. reflexivity.
Qed.

(** No scaled train entry is negative. *)
Lemma scaled_nonneg (r : row) :
  In r (r0 :: rest) -> 0 <= nth j (scaled r) 0.
Proof.
  intros Hr. destruct (column_bounds r Hr) as [B1 _].
  pose proof rectangular as R. rewrite Forall_forall in R.
  rewrite (scaled_entry r (R r Hr)).
  apply Qmult_le_0_compat; [| exact scale_nonneg].
  exact (proj1 (Qle_minus_iff lo (nth j r 0)) B1).
Qed.

(** Scaling keeps the order of the values of a column. *)
Lemma scaled_monotone (r r' : row) :
  length r = length r0 -> length r' = length r0 ->
  nth j r 0 <= nth j r' 0 -> nth j (scaled r) 0 <= nth j (scaled r') 0.
Proof.
  intros L L' H. rewrite (scaled_entry r L), (scaled_entry r' L').
  apply Qmult_le_compat_r; [| exact scale_nonneg].
  apply Qplus_le_compat; [exact H | apply Qle_refl].
Qed.

(** Some row holds the column minimum, and some row the maximum. *)
Lemma column_extremes_attained :
  (exists r, In r (r0 :: rest) /\ nth j r 0 == lo)
  /\ (exists r, In r (r0 :: rest) /\ nth j r 0 == hi).
Proof.
  split.
  - apply (reduce0_nth Qmin
             (fun q => exists r, In r (r0 :: rest) /\ nth j r 0 == q)
             (length r0) j); auto.
    + intros a b (ra & Ia & Ea) (rb & Ib & Eb).
      destruct (Q.min_spec a b) as [[_ E] | [_ E]];
        [exists ra | exists rb]; split; auto; now rewrite E.
    + intros r Hr. exists r. split; [exact Hr | reflexivity].
  - apply (reduce0_nth Qmax
             (fun q => exists r, In r (r0 :: rest) /\ nth j r 0 == q)
             (length r0) j); auto.
    + intros a b (ra & Ia & Ea) (rb & Ib & Eb).
      destruct (Q.max_spec a b) as [[_ E] | [_ E]];
        [exists rb | exists ra]; split; auto; now rewrite E.
    + intros r Hr. exists r. split; [exact Hr | reflexivity].
Qed.

(** A row that holds the column minimum is scaled to 0 there. *)
Lemma scaled_zero_at_minimum :
  exists r,
    In r (r0 :: rest)
    /\ (forall r', In r' (r0 :: rest) -> nth j r 0 <= nth j r' 0)
    /\ nth j (scaled r) 0 == 0.
Proof.
  pose proof rectangular as R. rewrite Forall_forall in R.
  destruct column_extremes_attained as [(rl & Il & El) _].
  exists rl. split; [exact Il |]. split.
  - intros r' Hr'. rewrite El. now apply column_bounds.
  - rewrite (scaled_entry rl (R rl Il)), El. ring.
Qed.
End ScaledRange.

(** The scaler and the scaled train split of a fold, in closed form. *)
Lemma fold_scaler (args : Args) (X Y1 : matrix) (train_index test_index : list nat)
  (fd : FoldData) (w j : nat) :
  prepare_fold args X Y1 train_index test_index = Ok fd ->
  Forall (fun r => length r = w) X -> (j < w)%nat ->
  exists r0 rest,
    Xtrain1 fd = r0 :: rest
    /\ Forall (fun r => length r = length r0) (r0 :: rest)
    /\ length r0 = w
    /\ min_max_scaler1 fd
       = {| feature_range := (0, 1);
            fitted := Some (fitted_state r0 rest) |}
    /\ Xtrain1_minmax fd
       = map (fun r => zip_with Qplus
                         (zip_with Qmult r (scale_ (fitted_state r0 rest)))
                         (min_ (fitted_state r0 rest))) (r0 :: rest).
Proof.
  intros H Hw Hj. apply prepare_fold_inv in H.
  destruct H as (HX & _ & _ & _ & Hft & _).
  assert (R : Forall (fun r => length r = w) (Xtrain1 fd)).
  { apply Forall_forall. intros r Hr. rewrite Forall_forall in Hw.
    apply Hw. eapply take_rows_incl; eassumption. }
  destruct (Xtrain1 fd) as [| r0 rest]; [discriminate Hft |].
  assert (L0 : length r0 = w) by now inversion R.
  assert (R0 : Forall (fun r => length r = length r0) (r0 :: rest))
    by now rewrite L0.
  rewrite fit_transform_new in Hft; auto.
  - inversion Hft; subst. exists r0, rest. auto.
  - intros E. rewrite E in L0. simpl in L0. lia.
Qed.

(** X5: when the feature rows all have [w] columns, no entry of a
    fold's scaled train split is negative; in every column the train
    record with the least value, of the records of [X] at the train
    indices, is scaled to 0; and scaling keeps the order of the train
    records within a column.  Nothing is said of an upper bound, which
    the exact quotient would give but a rounded one need not. *)
Theorem scaled_train_anchored_at_zero :
  forall args X Y1 train_index test_index fd w,
    prepare_fold args X Y1 train_index test_index = Ok fd ->
    Forall (fun r => length r = w) X ->
    length (Xtrain1_minmax fd) = length train_index
    /\ (forall row j, In row (Xtrain1_minmax fd) -> (j < w)%nat ->
          0 <= nth j row 0)
    /\ (forall j, (j < w)%nat ->
          exists a,
            (a < length train_index)%nat
            /\ (forall b, (b < length train_index)%nat ->
                  nth j (nth (nth a train_index 0%nat) X []) 0
                  <= nth j (nth (nth b train_index 0%nat) X []) 0)
            /\ nth j (nth a (Xtrain1_minmax fd) []) 0 == 0)
    /\ (forall j a b,
          (j < w)%nat ->
          (a < length train_index)%nat -> (b < length train_index)%nat ->
          nth j (nth (nth a train_index 0%nat) X []) 0
          <= nth j (nth (nth b train_index 0%nat) X []) 0 ->
          nth j (nth a (Xtrain1_minmax fd) []) 0
          <= nth j (nth b (Xtrain1_minmax fd) []) 0).
Proof.
  intros args X Y1 train_index test_index fd w H Hw.
  pose proof (prepare_fold_inv _ _ _ _ _ _ H) as (Htr & _).
  apply take_rows_map in Htr. destruct Htr as [Etr _].
  unfold matrix, row in *.
  assert (Len : length (Xtrain1 fd) = length train_index)
    by now rewrite Etr, length_map.
  assert (Row : forall a, (a < length train_index)%nat ->
            nth a (Xtrain1 fd) [] = nth (nth a train_index 0%nat) X []).
  { intros a Ha. rewrite Etr.
    exact (nth_map_lt (fun i => nth i X []) train_index a [] 0%nat Ha). }
  split; [| split; [| split]].
  - pose proof (prepare_fold_inv _ _ _ _ _ _ H) as (_ & _ & _ & _ & Hft & _).
    apply fit_transform_length in Hft. unfold matrix, row in *.
    rewrite Hft. exact Len.
  - intros row j Hrow Hj.
    destruct (fold_scaler _ _ _ _ _ _ w j H Hw Hj)
      as (r0 & rest & _ & R & L0 & _ & Em).
    rewrite Em in Hrow. apply in_map_iff in Hrow.
    destruct Hrow as (r & <- & Hr).
    apply (scaled_nonneg r0 rest j R); [lia | exact Hr].
  - intros j Hj.
    destruct (fold_scaler _ _ _ _ _ _ w j H Hw Hj)
      as (r0 & rest & E1 & R & L0 & _ & Em).
    destruct (scaled_zero_at_minimum r0 rest j R ltac:(lia))
      as (r & Hr & Hmin & Hz).
    destruct (In_nth _ _ [] Hr) as (a & Ha & Ea).
    unfold matrix, row in *. rewrite <- E1, Len in Ha. exists a. split; [exact Ha |]. split.
    + intros b Hb. rewrite <- !Row by assumption.
      rewrite E1, Ea. apply Hmin. apply nth_In. rewrite <- E1. lia.
    + rewrite Em, (nth_map_lt _ _ _ _ []) by (rewrite <- E1; lia).
      rewrite Ea. exact Hz.
  - intros j a b Hj Ha Hb Hle.
    destruct (fold_scaler _ _ _ _ _ _ w j H Hw Hj)
      as (r0 & rest & E1 & R & L0 & _ & Em).
    unfold matrix, row in *.
    rewrite <- !Row in Hle by assumption. rewrite E1 in Hle.
    rewrite Em, !(nth_map_lt _ _ _ _ []) by (rewrite <- E1; lia).
    pose proof R as R'. rewrite Forall_forall in R'.
    apply (scaled_monotone r0 rest j R); [lia | | | exact Hle];
      apply R', nth_In; rewrite <- E1; lia.
Qed.

Lemma scaled_train_anchored_at_zero_witness :
  exists fd,
    prepare_fold default_args [[1; 2]; [3; 4]; [5; 7]] [[1]; [2]; [3]]
                 [0; 1]%nat [2]%nat = Ok fd
    /\ forall row j, In row (Xtrain1_minmax fd) -> (j < 2)%nat ->
         0 <= nth j row 0.
Proof.
  eexists. split; [vm_compute; reflexivity |].
  apply (scaled_train_anchored_at_zero default_args
           [[1; 2]; [3; 4]; [5; 7]] [[1]; [2]; [3]] [0; 1]%nat [2]%nat _ 2%nat).
  - vm_compute. reflexivity.
  - repeat constructor.
Defined.

(* ----------------------------------------------------------------- *)
(** ** The training batches of an epoch *)

Lemma collate_selected (xs ys : matrix) (idxs : list nat) :
  length xs = length ys ->
  (forall i, In i idxs -> (i < length xs)%nat) ->
  collate (new_BlockChainDataset xs ys) idxs
  = Ok (map (fun i => nth i xs []) idxs, map (fun i => nth i ys []) idxs).
Proof.
  intros Hlen Hin. unfold collate.
  rewrite (mapM_Ok_map _ (fun i => (nth i xs [], nth i ys []))).
  - cbn [bind]. now rewrite !map_map.
  - intros i Hi. apply getitem_new; [| rewrite <- Hlen]; now apply Hin.
Qed.

Lemma train_batch_indices args X Y1 train_index test_index fd randperm epoch :
  prepare_fold args X Y1 train_index test_index = Ok fd ->
  (0 < Z.to_nat (batch_size args))%nat
  /\ dl_dataset (train_loader fd)
     = new_BlockChainDataset (Xtrain1_minmax fd) (Ytrain1 fd)
  /\ length (Xtrain1_minmax fd) = length train_index
  /\ length (Ytrain1 fd) = length train_index
  /\ batch_indices randperm (train_loader fd) epoch
     = batch_sampler (Z.to_nat (batch_size args))
                     (seq 0 (length train_index)) [].
Proof.
  intros H. apply prepare_fold_inv in H.
  destruct H as (HX & _ & HY & _ & Hft & _ & Dtr & _ & _ & Htr & _).
  apply new_DataLoader_inv in Htr. destruct Htr as (Hb & D & S & Sh).
  apply fit_transform_length in Hft.
  apply take_rows_length in HX, HY.
  split; [lia |]. split; [congruence |]. split; [congruence |].
  split; [exact HY |].
  unfold batch_indices, sampler. rewrite Sh, S, D, Dtr.
  cbn [truthy len new_BlockChainDataset]. congruence.
Qed.

Lemma train_batches_cover :
  forall args X Y1 train_index test_index fd randperm epoch,
    prepare_fold args X Y1 train_index test_index = Ok fd ->
    exists bs,
      batches randperm (train_loader fd) epoch = Ok bs
      /\ concat (map fst bs) = Xtrain1_minmax fd
      /\ concat (map snd bs) = Ytrain1 fd
      /\ Forall (fun b => length (fst b) = length (snd b)
                          /\ (0 < length (fst b)
                              <= Z.to_nat (batch_size args))%nat) bs.
Proof.
  intros args X Y1 train_index test_index fd randperm epoch H.
  destruct (train_batch_indices _ _ _ _ _ _ randperm epoch H)
    as (Hb & D & Lx & Ly & I).
  set (B := Z.to_nat (batch_size args)) in *.
  set (L := batch_sampler B (seq 0 (length train_index)) []) in *.
  assert (C : concat L = seq 0 (length train_index)).
  { apply (batch_sampler_concat B _ []); [exact Hb | simpl; lia]. }
  destruct (batch_sampler_sizes B (seq 0 (length train_index)) [])
    as [F _]; [exact Hb | simpl; lia |]. fold L in F.
  assert (R : forall idxs i, In idxs L -> In i idxs ->
                (i < length (Xtrain1_minmax fd))%nat).
  { intros idxs i Hi Hii.
    assert (Hc : In i (concat L)) by (apply in_concat; eauto).
    rewrite C in Hc. apply in_seq in Hc. lia. }
  exists (map (fun idxs => (map (fun i => nth i (Xtrain1_minmax fd) []) idxs,
                            map (fun i => nth i (Ytrain1 fd) []) idxs)) L).
  split; [| split; [| split]].
  - unfold batches. rewrite I, D. apply mapM_Ok_map.
    intros idxs Hi. apply collate_selected; [congruence |].
    intros i Hii. now apply (R idxs).
  - rewrite map_map. cbn [fst]. rewrite <- concat_map, C, <- Lx.
    apply map_nth_seq.
  - rewrite map_map. cbn [snd]. rewrite <- concat_map, C, <- Ly.
    apply map_nth_seq.
  - apply Forall_forall. intros b Hb'. apply in_map_iff in Hb'.
    destruct Hb' as (idxs & <- & Hi). cbn [fst snd]. rewrite !length_map.
    split; [reflexivity |]. rewrite Forall_forall in F. now apply F.
Qed.

(** X6: in every epoch the batches of a fold's training loader, taken
    together and in order, are exactly the scaled train features and the
    train targets: every training record is used once per epoch, with its
    own target, in batches of at most [batch_size] rows. *)
Theorem training_batches_cover_split :
  forall args X Y1 train_index test_index fd randperm epoch,
    prepare_fold args X Y1 train_index test_index = Ok fd ->
    exists bs,
      batches randperm (train_loader fd) epoch = Ok bs
      /\ concat (map fst bs) = Xtrain1_minmax fd
      /\ concat (map snd bs) = Ytrain1 fd
      /\ Forall (fun b => length (fst b) = length (snd b)
                          /\ (0 < length (fst b)
                              <= Z.to_nat (batch_size args))%nat) bs.
Proof. exact train_batches_cover. Qed.

Lemma training_batches_cover_split_witness :
  exists fd bs,
    prepare_fold (mk_Args 2 (1 # 1000) "BPD-1" "Latency")
                 [[1; 2]; [3; 4]; [5; 7]; [0; 1]] [[1]; [2]; [3]; [4]]
                 [0; 1; 3]%nat [2]%nat = Ok fd
    /\ batches (fun _ n => rev (seq 0 n)) (train_loader fd) 0 = Ok bs
    /\ concat (map snd bs) = [[1]; [2]; [4]].
Proof.
  eexists.
  destruct (training_batches_cover_split
              (mk_Args 2 (1 # 1000) "BPD-1" "Latency")
              [[1; 2]; [3; 4]; [5; 7]; [0; 1]] [[1]; [2]; [3]; [4]]
              [0; 1; 3]%nat [2]%nat _ (fun _ n => rev (seq 0 n)) 0%nat
              ltac:(vm_compute; reflexivity))
    as (bs & Hb & _ & Hy & _).
  exists bs. split; [reflexivity |]. split; [exact Hb | exact Hy].
Defined.

(* ----------------------------------------------------------------- *)
(** ** The forward pass: accepted shapes *)

Lemma forward_row_refused (self : Backbone) training keep (x : row) :
  layer_dims self = cli_dims -> length x <> 2%nat ->
  forward_row self training keep x = Raise RuntimeError.
Proof.
  intros D Hx. unfold layer_dims, cli_dims in D. cbn [map] in D.
  injection D as I1 _ _ _ _ _ _ _. unfold forward_row, linear.
  rewrite I1. destruct (Nat.eqb_spec (length x) 2); [contradiction |].
  reflexivity.
Qed.

Lemma forward_refused (self : Backbone) training keep (x : matrix) :
  layer_dims self = cli_dims ->
  ~ Forall (fun r => length r = 2%nat) x ->
  forward self training keep x = Raise RuntimeError.
Proof.
  intros D. unfold forward. induction x as [| r x IH]; intros H.
  - exfalso. apply H. constructor.
  - cbn [mapM]. destruct (Nat.eq_dec (length r) 2) as [E | E].
    + destruct (forward_row_defined self training keep r D E)
        as (o & -> & _).
      cbn [bind]. rewrite IH; [reflexivity |].
      intros F. apply H. now constructor.
    + now rewrite forward_row_refused.
Qed.

(** X7: a backbone with the layer widths of [Backbone()] accepts exactly
    the batches whose rows all have two features: on such a batch the
    forward pass returns one prediction per row, on any other it raises
    the shape error; and in evaluation mode its result does not depend on
    the dropout masks. *)
Theorem forward_accepts_two_features :
  forall (self : Backbone) (training : bool) (keep : nat -> nat -> bool)
         (x : matrix),
    layer_dims self = cli_dims ->
    (Forall (fun r => length r = 2%nat) x ->
     exists y_hat,
       forward self training keep x = Ok y_hat
       /\ length y_hat = length x /\ is_column y_hat)
    /\ (~ Forall (fun r => length r = 2%nat) x ->
        forward self training keep x = Raise RuntimeError)
    /\ (forall keep', forward self false keep x = forward self false keep' x).
Proof.
  intros self training keep x D. split; [| split].
  - now apply forward_defined.
  - now apply forward_refused.
  - intros keep'. unfold forward. apply mapM_ext_in. intros r _.
    reflexivity.
Qed.

Lemma forward_accepts_two_features_witness :
  forward (new_Backbone zero_init) true (fun _ _ => true) [[1; 2]; [3]]
  = Raise RuntimeError.
Proof.
  destruct (forward_accepts_two_features (new_Backbone zero_init) true
              (fun _ _ => true) [[1; 2]; [3]] eq_refl) as (_ & H & _).
  apply H. intros F. inversion F as [| ? ? _ F']; subst.
  inversion F' as [| ? ? L _]; subst. discriminate L.
Defined.

(* ----------------------------------------------------------------- *)
(** ** [evaluate]: the metrics in terms of the predictions *)

Lemma concat_map_singleton {A B} (f : A -> B) (l : list A) :
  concat (map (fun a => [f a]) l) = map f l.
Proof. induction l as [| a l IH]; simpl; [reflexivity | now rewrite IH]. Qed.

Lemma combine_swap {A B C} (f : A * B -> C) (a : list A) (b : list B) :
  map f (combine a b) = map (fun '(y, x) => f (x, y)) (combine b a).
Proof.
  revert b. induction a as [| x a IH]; intros [| y b]; simpl;
    try reflexivity. now rewrite IH.
Qed.

Lemma MSELoss_value (a b : matrix) :
  a <> [] -> length a = length b -> is_column a -> is_column b ->
  MSELoss a b
  = Ok (arithmetic_mean
          (map (fun '(ra, rb) => (nth 0 ra 0 - nth 0 rb 0)
                                 * (nth 0 ra 0 - nth 0 rb 0))
               (combine a b))).
Proof.
  intros Hne Hlen Ha Hb. unfold MSELoss.
  rewrite (elementwise_column _ (fun x y => (x - y) * (x - y))) by auto.
  cbn [bind].
  assert (E : concat (map (fun '(ra, rb) =>
                             [(nth 0 ra 0 - nth 0 rb 0)
                              * (nth 0 ra 0 - nth 0 rb 0)])
                          (combine a b))
              = map (fun '(ra, rb) => (nth 0 ra 0 - nth 0 rb 0)
                                      * (nth 0 ra 0 - nth 0 rb 0))
                    (combine a b)).
  { rewrite <- (concat_map_singleton
                  (fun '(ra, rb) => (nth 0 ra 0 - nth 0 rb 0)
                                    * (nth 0 ra 0 - nth 0 rb 0))
                  (combine a b)).
    f_equal. apply map_ext. now intros [? ?]. }
  rewrite E. apply mean_defined.
  destruct a as [| ra a']; [contradiction |].
  destruct b as [| rb b']; discriminate.
Qed.

(** The mean over [dim=1] of a column array gives the same values back. *)
Lemma mean1_column_same (a c : matrix) :
  is_column a -> mean1_column a = Ok c ->
  Forall2 (fun rc ra => nth 0 rc 0 == nth 0 ra 0) c a.
Proof.
  unfold mean1_column. revert c.
  induction a as [| r a IH]; intros c Ha H; simpl in H.
  - inversion H; subst. constructor.
  - inversion Ha as [| ? ? Lr Ha']; subst.
    destruct r as [| v [| ? ?]]; try discriminate.
    rewrite mean_defined in H by discriminate. cbn [bind] in H.
    inv_bind H. inversion H; subst; clear H.
    constructor; [| now apply IH].
    cbn [nth]. unfold sumQ. cbn [fold_left length].
    change (Qnat 1) with 1. field.
Qed.

Lemma mean_combine_ext (g : Q -> Q -> Q) (y c a : matrix) :
  (forall t p p', p == p' -> g t p == g t p') ->
  Forall2 (fun rc ra => nth 0 rc 0 == nth 0 ra 0) c a ->
  arithmetic_mean (map (fun '(t, p) => g (nth 0 t 0) (nth 0 p 0))
                       (combine y c))
  == arithmetic_mean (map (fun '(t, p) => g (nth 0 t 0) (nth 0 p 0))
                          (combine y a)).
Proof.
  intros Hg F. unfold arithmetic_mean. unfold matrix, row in *.
  assert (L : length (combine y c) = length (combine y a)).
  { rewrite !length_combine. apply Forall2_length in F.
    f_equal. exact F. }
  rewrite !length_map, L. apply Qdiv_comp; [| reflexivity].
  clear L. revert y. induction F as [| rc ra c a E F IH]; intros y.
  - now destruct y.
  - destruct y as [| t y]; [reflexivity |]. cbn [combine map].
    rewrite !sumQ_cons, IH, (Hg _ _ _ E). reflexivity.
Qed.

Lemma evaluate_predictions :
  forall (sqrt : Q -> Q) (self : LitClassifier) (x y : matrix)
         (stage : string) (logs : Log),
    layer_dims (backbone self) = cli_dims ->
    x <> [] -> length x = length y ->
    Forall (fun r => length r = 2%nat) x -> is_column y ->
    exists y0 loss mse MAE MAPE,
      forward (backbone self) false (fun _ _ => true) x = Ok y0
      /\ evaluate sqrt self (x, y) stage logs
         = Ok ((MAE, sqrt mse, MAPE),
               if String.eqb stage "" then logs
               else dict_set (stage ++ "_MAPE") MAPE
                      (dict_set (stage ++ "_RMSE") (sqrt mse)
                         (dict_set (stage ++ "_MAE") MAE
                            (dict_set (stage ++ "_loss") loss logs))))
      /\ MAE == arithmetic_mean
                  (map (fun '(t, p) => Qabs (nth 0 p 0 - nth 0 t 0))
                       (combine y y0))
      /\ mse == arithmetic_mean
                  (map (fun '(t, p) => (nth 0 t 0 - nth 0 p 0)
                                       * (nth 0 t 0 - nth 0 p 0))
                       (combine y y0))
      /\ MAPE == arithmetic_mean
                   (map (fun '(t, p) => ape (nth 0 t 0) (nth 0 p 0))
                        (combine y y0))
      /\ loss == mse.
Proof.
  intros sqrt self x y stage logs D Hne Hlen Hx Hy.
  destruct (forward_defined (backbone self) false (fun _ _ => true) x D Hx)
    as (y0 & E0 & L0 & C0).
  destruct (mean1_column_defined y0 C0) as (y_hat & E1 & L1 & C1).
  pose proof (mean1_column_same y0 y_hat C0 E1) as F.
  assert (Hy_ne : y <> []).
  { intros E. rewrite E in Hlen. destruct x; [contradiction | discriminate]. }
  assert (Hh_ne : y_hat <> []).
  { intros E. rewrite E in L1. simpl in L1.
    destruct x; [contradiction |]. rewrite <- L1 in L0. discriminate. }
  assert (Hl : length y = length y_hat) by congruence.
  pose proof (MSELoss_value y_hat y Hh_ne (eq_sym Hl) C1 Hy) as EL.
  destruct (regression_metric_column (fun t p => Ok (Qabs (p - t)))
              (fun t p => Qabs (p - t)) y y_hat)
    as (MAE & EMAE & VMAE); auto.
  destruct (regression_metric_column (fun t p => Ok ((t - p) * (t - p)))
              (fun t p => (t - p) * (t - p)) y y_hat)
    as (mse & EMSE & VMSE); auto.
  destruct (regression_metric_column
              (fun t p => checked_div (Qabs (p - t))
                                      (Qmax (Qabs t) float_eps))
              ape y y_hat)
    as (MAPE & EMAPE & VMAPE); auto using mape_error_defined.
  eexists y0, _, mse, MAE, MAPE.
  split; [exact E0 |]. split; [| split; [| split; [| split]]].
  - unfold evaluate. rewrite E0. cbn [bind]. rewrite E1. cbn [bind].
    rewrite EL. cbn [bind].
    unfold mean_absolute_error, mean_squared_error,
      mean_absolute_percentage_error.
    rewrite EMAE. cbn [bind]. rewrite EMSE. cbn [bind].
    rewrite EMAPE. cbn [bind]. reflexivity.
  - rewrite VMAE.
    apply (mean_combine_ext (fun t p => Qabs (p - t))); [| exact F].
    intros t p p' E. now rewrite E.
  - rewrite VMSE.
    apply (mean_combine_ext (fun t p => (t - p) * (t - p))); [| exact F].
    intros t p p' E. now rewrite E.
  - rewrite VMAPE. apply (mean_combine_ext ape); [| exact F].
    intros t p p' E. unfold ape. now rewrite E.
  - rewrite VMSE. unfold arithmetic_mean.
    rewrite (combine_swap _ y_hat y). rewrite !length_map.
    apply Qdiv_comp; [| reflexivity].
    apply sumQ_map_ext. intros [t p] _. ring.
Qed.

(** X8: on a batch of two-feature rows with one target each, [evaluate]
    returns the mean absolute error, the root of the mean squared error
    and the mean absolute percentage error of the backbone's own
    predictions: averaging the single prediction of a row over [dim=1]
    changes no value.  The loss it logs first, which [cli_main] drops from
    the result row, equals the mean squared error under the root. *)
Theorem evaluate_metrics_of_predictions :
  forall (sqrt : Q -> Q) (self : LitClassifier) (x y : matrix)
         (stage : string) (logs : Log),
    layer_dims (backbone self) = cli_dims ->
    x <> [] -> length x = length y ->
    Forall (fun r => length r = 2%nat) x -> is_column y ->
    exists y0 loss mse MAE MAPE,
      forward (backbone self) false (fun _ _ => true) x = Ok y0
      /\ evaluate sqrt self (x, y) stage logs
         = Ok ((MAE, sqrt mse, MAPE),
               if String.eqb stage "" then logs
               else dict_set (stage ++ "_MAPE") MAPE
                      (dict_set (stage ++ "_RMSE") (sqrt mse)
                         (dict_set (stage ++ "_MAE") MAE
                            (dict_set (stage ++ "_loss") loss logs))))
      /\ MAE == arithmetic_mean
                  (map (fun '(t, p) => Qabs (nth 0 p 0 - nth 0 t 0))
                       (combine y y0))
      /\ mse == arithmetic_mean
                  (map (fun '(t, p) => (nth 0 t 0 - nth 0 p 0)
                                       * (nth 0 t 0 - nth 0 p 0))
                       (combine y y0))
      /\ MAPE == arithmetic_mean
                   (map (fun '(t, p) => ape (nth 0 t 0) (nth 0 p 0))
                        (combine y y0))
      /\ loss == mse.
Proof. exact evaluate_predictions. Qed.

Lemma evaluate_metrics_of_predictions_witness :
  exists MAE mse MAPE logs',
    evaluate (fun q => q)
             {| lit_learning_rate := 1 # 1000;
                backbone := new_Backbone zero_init |}
             ([[0; 1]; [1; 0]], [[3]; [5]]) "test" []
    = Ok ((MAE, mse, MAPE), logs')
    /\ MAE == 4.
Proof.
  destruct (evaluate_metrics_of_predictions (fun q => q)
              {| lit_learning_rate := 1 # 1000;
                 backbone := new_Backbone zero_init |}
              [[0; 1]; [1; 0]] [[3]; [5]] "test" [])
    as (y0 & loss & mse & MAE & MAPE & E0 & E & VMAE & _).
  - reflexivity.
  - discriminate.
  - reflexivity.
  - repeat constructor.
  - repeat constructor.
  - exists MAE, mse, MAPE. eexists. split; [exact E |].
    vm_compute in E0. inversion E0; subst y0. rewrite VMAE. reflexivity.
Defined.

(* ----------------------------------------------------------------- *)
(** ** The validation pass, the monitor and the row of a fold *)

Lemma dict_get_In (l : Log) (k : string) (v : Q) :
  NoDup (map fst l) -> In (k, v) l -> dict_get k l = Some v.
Proof.
  induction l as [| [k' v'] l IH]; intros N H; [contradiction |].
  inversion N as [| ? ? Nk N']; subst. simpl.
  destruct H as [H | H].
  - inversion H; subst. now rewrite String.eqb_refl.
  - destruct (String.eqb_spec k k') as [-> | _].
    + exfalso. apply Nk. apply in_map_iff. exists (k', v). auto.
    + now apply IH.
Qed.

(** The metrics of an epoch of one batch: the values that batch logged,
    each the mean of itself. *)
Lemma epoch_metrics_single (l : Log) :
  NoDup (map fst l) ->
  epoch_metrics [l] = Ok (map (fun '(k, v) => (k, sumQ [v] / Qnat 1)) l).
Proof.
  intros N. unfold epoch_metrics. apply mapM_Ok_map.
  intros [k v] H. cbn [flat_map]. rewrite (dict_get_In l k v N H).
  cbn [app]. rewrite mean_defined by discriminate. reflexivity.
Qed.

Lemma mean_single (v : Q) : sumQ [v] / Qnat 1 == v.
Proof.
  unfold sumQ. cbn [fold_left]. change (Qnat 1) with 1. field.
Qed.

(** The held-out arrays of a fold keep the widths of the CSV columns. *)
Lemma fold_held_out_shape (args : Args) (X Y1 : matrix)
  (train_index test_index : list nat) (fd : FoldData) (w : nat) :
  prepare_fold args X Y1 train_index test_index = Ok fd ->
  (0 < w)%nat -> Forall (fun r => length r = w) X -> is_column Y1 ->
  Forall (fun r => length r = w) (Xtest1_minmax fd)
  /\ is_column (Ytest1 fd)
  /\ length (Xtest1_minmax fd) = length (Ytest1 fd)
  /\ Xtest1_minmax fd <> [].
Proof.
  intros H Hw HX HY.
  destruct (fold_scaler args X Y1 train_index test_index fd w 0 H HX Hw)
    as (r0 & rest & Etr & Rect & Lr0 & Es & _).
  destruct (prepare_fold_test_rows _ _ _ _ _ _ H) as (Lx & Ly & Lm & Hne).
  apply prepare_fold_inv in H.
  destruct H as (_ & Hxt & _ & Hyt & _ & Ht & _).
  assert (Wt : Forall (fun r => length r = w) (Xtest1 fd)).
  { apply Forall_forall. intros r Hr. rewrite Forall_forall in HX.
    apply HX. eapply take_rows_incl; eassumption. }
  assert (Hlw : (0 < length r0)%nat) by lia.
  destruct (state_widths r0 rest 0 Rect Hlw) as (_ & _ & _ & Ls & Lmin).
  rewrite (transform_rows _ (fitted_state r0 rest)) in Ht.
  - assert (E : map (fun r => zip_with Qplus
                               (zip_with Qmult r
                                         (scale_ (fitted_state r0 rest)))
                               (min_ (fitted_state r0 rest))) (Xtest1 fd)
               = Xtest1_minmax fd) by congruence.
    clear Ht. rewrite <- E. repeat split.
    + apply Forall_forall. intros r Hr. apply in_map_iff in Hr.
      destruct Hr as (r' & <- & Hr'). rewrite Forall_forall in Wt.
      rewrite !length_zip_with, Ls, Lmin, (Wt r' Hr'). lia.
    + apply Forall_forall. intros r Hr. unfold is_column in HY.
      rewrite Forall_forall in HY. apply HY.
      eapply take_rows_incl; eassumption.
    + rewrite E. congruence.
    + rewrite E. intros E0. rewrite E0 in Lm. destruct test_index;
        [contradiction | discriminate].
  - rewrite Es. reflexivity.
  - intros E. rewrite E in Lx. destruct test_index; [contradiction | discriminate].
  - cbn [n_features_in_ fitted_state]. now rewrite Lr0.
Qed.

Lemma validation_metrics (args : Args) (X Y1 : matrix)
  (train_index test_index : list nat) (fd : FoldData)
  (randperm : nat -> nat -> list nat) (sqrt : Q -> Q)
  (model : LitClassifier) :
  prepare_fold args X Y1 train_index test_index = Ok fd ->
  Forall (fun r => length r = 2%nat) X -> is_column Y1 ->
  layer_dims (backbone model) = cli_dims ->
  exists metrics v MAE RMSE MAPE logs,
    lit_validation_epoch randperm sqrt (val_loader fd) model = Ok metrics
    /\ map fst metrics = ["val_loss"; "val_MAE"; "val_RMSE"; "val_MAPE"]%string
    /\ evaluate sqrt model (Xtest1_minmax fd, Ytest1 fd) "val" []
       = Ok ((MAE, RMSE, MAPE), logs)
    /\ dict_get "val_MAE" metrics = Some v /\ v == MAE
    /\ forall es epoch,
         monitor es = "val_MAE"%string ->
         succeeds (run_early_stopping_check es metrics epoch).
Proof.
  intros H HX HY D.
  destruct (fold_held_out_shape _ _ _ _ _ _ 2 H ltac:(lia) HX HY)
    as (Wx & Cy & L & Hne).
  destruct (held_out_loaders _ _ _ _ _ _ H) as (_ & _ & _ & _ & B).
  destruct (B randperm 0%nat 0%nat) as [Bv _].
  destruct (evaluate_predictions sqrt model _ _ "val" [] D Hne L Wx Cy)
    as (y0 & loss & mse & MAE & MAPE & _ & E & _).
  unfold lit_validation_epoch. rewrite Bv. cbn [bind mapM].
  unfold validation_step. rewrite E. cbn [bind].
  change (String.eqb "val" "") with false. cbv iota.
  change (dict_set ("val" ++ "_MAPE") MAPE
            (dict_set ("val" ++ "_RMSE") (sqrt mse)
               (dict_set ("val" ++ "_MAE") MAE
                  (dict_set ("val" ++ "_loss") loss []))))
    with [("val_loss"%string, loss); ("val_MAE"%string, MAE);
          ("val_RMSE"%string, sqrt mse); ("val_MAPE"%string, MAPE)].
  rewrite epoch_metrics_single.
  - eexists _, _, MAE, (sqrt mse), MAPE, _.
    split; [reflexivity |]. split; [reflexivity |].
    split; [reflexivity |]. split; [reflexivity |].
    split; [apply mean_single |].
    intros es epoch Hm. unfold run_early_stopping_check. rewrite Hm.
    cbn [map dict_get String.eqb Ascii.eqb Bool.eqb].
    destruct (evaluate_stopping_criteria es _) as [es' stop].
    eexists. reflexivity.
  - cbn [map fst]. repeat constructor; simpl; intuition discriminate.
Qed.

(** X9: in a fold over two-feature records, the validation pass of a
    model with the layer widths of [Backbone()] succeeds and logs exactly
    [val_loss], [val_MAE], [val_RMSE] and [val_MAPE]; the value under
    [val_MAE] is the mean absolute error of [evaluate] on the whole scaled
    held-out split, so the early-stopping check, which monitors that key,
    finds it and raises nothing. *)
Theorem validation_logs_monitored_metric :
  forall (args : Args) (X Y1 : matrix) (train_index test_index : list nat)
         (fd : FoldData) (randperm : nat -> nat -> list nat)
         (sqrt : Q -> Q) (model : LitClassifier),
    prepare_fold args X Y1 train_index test_index = Ok fd ->
    Forall (fun r => length r = 2%nat) X -> is_column Y1 ->
    layer_dims (backbone model) = cli_dims ->
    exists metrics v MAE RMSE MAPE logs,
      lit_validation_epoch randperm sqrt (val_loader fd) model = Ok metrics
      /\ map fst metrics
         = ["val_loss"; "val_MAE"; "val_RMSE"; "val_MAPE"]%string
      /\ evaluate sqrt model (Xtest1_minmax fd, Ytest1 fd) "val" []
         = Ok ((MAE, RMSE, MAPE), logs)
      /\ dict_get "val_MAE" metrics = Some v /\ v == MAE
      /\ forall es epoch,
           monitor es = "val_MAE"%string ->
           succeeds (run_early_stopping_check es metrics epoch).
Proof. exact validation_metrics. Qed.

Lemma validation_logs_monitored_metric_witness :
  exists fd metrics v,
    prepare_fold default_args [[1; 2]; [3; 4]; [5; 7]] [[1]; [2]; [3]]
                 [0; 1]%nat [2]%nat = Ok fd
    /\ lit_validation_epoch (fun _ n => seq 0 n) (fun q => q)
         (val_loader fd)
         {| lit_learning_rate := 1 # 1000;
            backbone := new_Backbone zero_init |} = Ok metrics
    /\ dict_get "val_MAE" metrics = Some v.
Proof.
  assert (P : exists fd,
             prepare_fold default_args [[1; 2]; [3; 4]; [5; 7]]
                          [[1]; [2]; [3]] [0; 1]%nat [2]%nat = Ok fd)
    by (eexists; vm_compute; reflexivity).
  destruct P as [fd P].
  destruct (validation_logs_monitored_metric default_args
              [[1; 2]; [3; 4]; [5; 7]] [[1]; [2]; [3]] [0; 1]%nat [2]%nat
              fd (fun _ n => seq 0 n) (fun q => q)
              {| lit_learning_rate := 1 # 1000;
                 backbone := new_Backbone zero_init |} P)
    as (metrics & v & _ & _ & _ & _ & E & _ & _ & G & _).
  - repeat constructor.
  - repeat constructor.
  - reflexivity.
  - exists fd, metrics, v. auto.
Defined.

(** What a successful fold returns. *)
Lemma run_fold_row :
  forall (randperm : nat -> nat -> list nat) (sqrt : Q -> Q)
         (init : nat -> initializer)
         (keep : nat -> nat -> nat -> nat -> bool)
         (optimizer_step : LitClassifier -> matrix * matrix -> Q
                           -> LitClassifier)
         (args : Args) (X Y1 : matrix) (i : nat)
         (train_index test_index : list nat) (result : list Q),
    run_fold randperm sqrt init keep optimizer_step args X Y1 i
             (train_index, test_index) = Ok result ->
    exists fd st MAE RMSE MAPE logs,
      prepare_fold args X Y1 train_index test_index = Ok fd
      /\ trainer_fit
           (lit_training_epoch randperm keep optimizer_step (train_loader fd))
           (lit_validation_epoch randperm sqrt (val_loader fd))
           cli_trainer
           {| lit_learning_rate := learning_rate args;
              backbone := new_Backbone (init i) |} = Ok st
      /\ evaluate sqrt (module st) (Xtest1_minmax fd, Ytest1 fd) "test" []
         = Ok ((MAE, RMSE, MAPE), logs)
      /\ exists m r p,
           result = [m; r; p] /\ m == MAE /\ r == RMSE /\ p == MAPE.
Proof.
  intros randperm sqrt init keep optimizer_step args X Y1 i
         train_index test_index result H.
  unfold run_fold in H. inv_bind H. rename a into fd.
  inv_bind H. rename a into st. inv_bind H. rename a into res.
  destruct (held_out_loaders _ _ _ _ _ _ Ha) as (_ & _ & _ & _ & B).
  destruct (B randperm 0%nat 0%nat) as [_ Bt].
  unfold trainer_test in Ha1. rewrite Bt in Ha1. cbn [bind mapM] in Ha1.
  unfold test_step in Ha1.
  destruct (evaluate_stage sqrt (module st) (Xtest1_minmax fd, Ytest1 fd))
    as [[e He] | (loss & MAE & RMSE & MAPE & He)];
    rewrite He in Ha1; [discriminate |].
  cbn [bind] in Ha1.
  change (String.eqb "test" "") with false in Ha1. cbv iota in Ha1.
  change (dict_set ("test" ++ "_MAPE") MAPE
            (dict_set ("test" ++ "_RMSE") RMSE
               (dict_set ("test" ++ "_MAE") MAE
                  (dict_set ("test" ++ "_loss") loss []))))
    with [("test_loss"%string, loss); ("test_MAE"%string, MAE);
          ("test_RMSE"%string, RMSE); ("test_MAPE"%string, MAPE)] in Ha1.
  rewrite epoch_metrics_single in Ha1
    by (cbn [map fst]; repeat constructor; simpl; intuition discriminate).
  cbn [bind map] in Ha1. inversion Ha1; subst res; clear Ha1.
  cbn [dict_values map snd tl] in H. inversion H; subst result; clear H.
  exists fd, st, MAE, RMSE, MAPE. eexists.
  split; [exact Ha |]. split; [exact Ha0 |].
  split; [rewrite He; reflexivity |].
  eexists _, _, _. split; [reflexivity |].
  split; [| split]; apply mean_single.
Qed.

(** X10: the row a fold contributes to the result table has three
    entries, the mean absolute error, the root of the mean squared error
    and the mean absolute percentage error that [evaluate] computes for
    the fitted model on the whole scaled held-out split of that fold, in
    this order; the loss, logged first, is what [[1:]] drops. *)
Theorem fold_result_is_test_metrics :
  forall (randperm : nat -> nat -> list nat) (sqrt : Q -> Q)
         (init : nat -> initializer)
         (keep : nat -> nat -> nat -> nat -> bool)
         (optimizer_step : LitClassifier -> matrix * matrix -> Q
                           -> LitClassifier)
         (args : Args) (X Y1 : matrix) (i : nat)
         (train_index test_index : list nat) (result : list Q),
    run_fold randperm sqrt init keep optimizer_step args X Y1 i
             (train_index, test_index) = Ok result ->
    exists fd st MAE RMSE MAPE logs,
      prepare_fold args X Y1 train_index test_index = Ok fd
      /\ trainer_fit
           (lit_training_epoch randperm keep optimizer_step (train_loader fd))
           (lit_validation_epoch randperm sqrt (val_loader fd))
           cli_trainer
           {| lit_learning_rate := learning_rate args;
              backbone := new_Backbone (init i) |} = Ok st
      /\ evaluate sqrt (module st) (Xtest1_minmax fd, Ytest1 fd) "test" []
         = Ok ((MAE, RMSE, MAPE), logs)
      /\ exists m r p,
           result = [m; r; p] /\ m == MAE /\ r == RMSE /\ p == MAPE.
Proof. exact run_fold_row. Qed.

Lemma fold_result_is_test_metrics_witness :
  exists m r p,
    run_fold (fun _ n => seq 0 n) (fun q => q) (fun _ => zero_init)
             (fun _ _ _ _ => false) (fun model _ _ => model)
             default_args [[0; 1]; [1; 0]; [1; 1]] [[1]; [2]; [3]] 1%nat
             ([0; 1]%nat, [2]%nat) = Ok [m; r; p]
    /\ m == 3.
Proof.
  assert (R : exists result,
             run_fold (fun _ n => seq 0 n) (fun q => q) (fun _ => zero_init)
                      (fun _ _ _ _ => false) (fun model _ _ => model)
                      default_args [[0; 1]; [1; 0]; [1; 1]] [[1]; [2]; [3]]
                      1%nat ([0; 1]%nat, [2]%nat) = Ok result)
    by (eexists; vm_compute; reflexivity).
  destruct R as [result R].
  destruct (fold_result_is_test_metrics _ _ _ _ _ _ _ _ _ _ _ _ R)
    as (fd & st & MAE & RMSE & MAPE & logs & _ & _ & _ & m & r & p & E & _).
  exists m, r, p. subst result. split; [exact R |].
  vm_compute in R. inversion R. reflexivity.
Defined.


(* ----------------------------------------------------------------- *)
(** ** Early stopping: what a stop means *)

Lemma es_step_wait (s : option Q * nat) (v : Q) :
  (snd (es_step s v) <= S (snd s))%nat.
Proof.
  unfold es_step. destruct (monitor_op _ _ _); cbn [snd]; lia.
Qed.

Lemma replay_nil_wait (ms : list Q) :
  (0 < snd (replay ms))%nat -> ms <> [].
Proof. intros H ->. cbn in H. lia. Qed.

(** After the checks on [ms], the best score is the value of the check
    that was followed by exactly [wait_count] checks, none of which was
    below it. *)
Lemma replay_shape (ms : list Q) :
  ms <> [] ->
  (snd (replay ms) < length ms)%nat
  /\ fst (replay ms) = Some (nth (length ms - 1 - snd (replay ms)) ms 0)
  /\ forall k, (length ms - 1 - snd (replay ms) <= k < length ms)%nat ->
       nth (length ms - 1 - snd (replay ms)) ms 0 <= nth k ms 0.
Proof.
  induction ms as [| v ms IH] using rev_ind; intros Hne; [contradiction |].
  rewrite replay_snoc, length_app. cbn [length].
  unfold es_step.
  destruct (monitor_op mode_min (v - min_delta early_stop_callback)
                       (fst (replay ms))) eqn:Eop; cbn [fst snd].
  - replace (length ms + 1 - 1 - 0)%nat with (length ms) by lia.
    rewrite nth_middle. split; [lia |]. split; [reflexivity |].
    intros k Hk. replace k with (length ms) by lia.
    rewrite nth_middle. apply Qle_refl.
  - destruct ms as [| x ms'] eqn:Ems.
    { cbn in Eop. discriminate. }
    rewrite <- Ems in *. assert (Hms : ms <> []) by (rewrite Ems; discriminate).
    destruct (IH Hms) as (Hw & Hb & Hk). clear IH.
    assert (Hlen : (0 < length ms)%nat) by (rewrite Ems; simpl; lia).
    replace (length ms + 1 - 1 - S (snd (replay ms)))%nat
      with (length ms - 1 - snd (replay ms))%nat by lia.
    rewrite app_nth1 by lia.
    split; [lia |]. split; [exact Hb |].
    intros k Hr.
    destruct (Nat.eq_dec k (length ms)) as [-> | Nk].
    + rewrite nth_middle. rewrite Hb in Eop. unfold monitor_op in Eop.
      apply negb_false_iff, Qle_bool_iff in Eop.
      now rewrite minus_min_delta in Eop.
    + rewrite app_nth1 by lia. apply Hk. lia.
Qed.

Lemma fit_early_stopping {M : Type} (training_epoch : nat -> M -> result M)
  (validation_epoch : M -> result Log) (model : M) (st : FitState M) :
  trainer_fit training_epoch validation_epoch cli_trainer model = Ok st ->
  (best_score (early_stopping st), wait_count (early_stopping st))
  = replay (monitored "val_MAE" (logged st))
  /\ current_epoch st = (10 * length (monitored "val_MAE" (logged st)))%nat
  /\ (current_epoch st <= 500)%nat
  /\ (wait_count (early_stopping st) <= 10)%nat
  /\ (should_stop st = false -> current_epoch st = 500%nat)
  /\ (should_stop st = true -> wait_count (early_stopping st) = 10%nat).
Proof.
  intros H.
  pose proof (trainer_fit_after training_epoch validation_epoch model st H)
    as A. cbv beta zeta in A.
  destruct A as ([_ R] & E & B & W & S0 & S1).
  set (vs := monitored "val_MAE" (logged st)) in *.
  assert (Hw : (wait_count (early_stopping st) <= 10)%nat).
  { destruct (Nat.eq_dec (length vs) 0) as [Z | NZ].
    - apply length_zero_iff_nil in Z. rewrite Z in R. cbn in R.
      inversion R. lia.
    - assert (Ev : vs = firstn (length vs - 1) vs
                        ++ [nth (length vs - 1) vs 0]).
      { rewrite <- firstn_snoc by lia.
        replace (S (length vs - 1)) with (length vs) by lia.
        now rewrite firstn_all. }
      pose proof (W (length vs - 1)%nat ltac:(lia)) as Wp.
      rewrite Ev, replay_snoc in R.
      pose proof (es_step_wait (replay (firstn (length vs - 1) vs))
                               (nth (length vs - 1) vs 0)) as Sw.
      rewrite <- R in Sw. cbn [snd] in Sw. lia. }
  repeat split; auto.
  intros Hs. specialize (S1 Hs). lia.
Qed.

Lemma fit_best_score {M : Type} (training_epoch : nat -> M -> result M)
  (validation_epoch : M -> result Log) (model : M) (st : FitState M) :
  trainer_fit training_epoch validation_epoch cli_trainer model = Ok st ->
  (11 <= length (monitored "val_MAE" (logged st)))%nat
  /\ (should_stop st = true -> wait_count (early_stopping st) = 10%nat)
  /\ best_score (early_stopping st)
     = Some (nth (length (monitored "val_MAE" (logged st)) - 1
                  - wait_count (early_stopping st))
                 (monitored "val_MAE" (logged st)) 0)
  /\ (wait_count (early_stopping st)
      < length (monitored "val_MAE" (logged st)))%nat
  /\ (forall k,
        (length (monitored "val_MAE" (logged st)) - 1
         - wait_count (early_stopping st) <= k
         < length (monitored "val_MAE" (logged st)))%nat ->
        nth (length (monitored "val_MAE" (logged st)) - 1
             - wait_count (early_stopping st))
            (monitored "val_MAE" (logged st)) 0
        <= nth k (monitored "val_MAE" (logged st)) 0)
  /\ forall x b,
       In x (monitored "val_MAE" (logged st)) ->
       best_score (early_stopping st) = Some b -> b <= x.
Proof.
  intros H.
  destruct (fit_early_stopping _ _ _ _ H) as (R & E & B & Hw & S0 & S1).
  set (vs := monitored "val_MAE" (logged st)) in *.
  assert (Hne : vs <> []).
  { destruct (should_stop st) eqn:Hs.
    - apply replay_nil_wait. rewrite <- R. cbn [snd].
      rewrite (S1 eq_refl). lia.
    - intros Z. rewrite Z in E. cbn in E. specialize (S0 eq_refl). lia. }
  destruct (replay_shape vs Hne) as (Hlt & Hb & Hk).
  rewrite <- R in Hlt, Hb, Hk. cbn [fst snd] in Hlt, Hb, Hk.
  split.
  { destruct (should_stop st) eqn:Hs.
    - rewrite (S1 eq_refl) in Hlt. lia.
    - specialize (S0 eq_refl). lia. }
  split; [exact S1 |]. split; [exact Hb |]. split; [exact Hlt |].
  split; [exact Hk |].
  intros x b Hx Eb. destruct (replay_best_lower vs x Hx) as (b' & Eb' & Hle).
  rewrite <- R in Eb'. cbn [fst] in Eb'. congruence.
Qed.

(** X11: when a fit under the trainer of [cli_main] is stopped by the
    callback, at least 11 checks were made, the wait count is exactly the
    patience 10, the best score is the [val_MAE] of the eleventh check
    from the end, and none of the last ten checks logged a value below it:
    the run is never stopped while the monitored error is still
    improving. *)
Theorem early_stop_follows_ten_stale_checks :
  forall (M : Type) (training_epoch : nat -> M -> result M)
         (validation_epoch : M -> result Log) (model : M) (st : FitState M),
    trainer_fit training_epoch validation_epoch cli_trainer model = Ok st ->
    should_stop st = true ->
    (11 <= length (monitored "val_MAE" (logged st)))%nat
    /\ wait_count (early_stopping st) = 10%nat
    /\ best_score (early_stopping st)
       = Some (nth (length (monitored "val_MAE" (logged st)) - 11)
                   (monitored "val_MAE" (logged st)) 0)
    /\ forall k,
         (length (monitored "val_MAE" (logged st)) - 11 <= k
          < length (monitored "val_MAE" (logged st)))%nat ->
         nth (length (monitored "val_MAE" (logged st)) - 11)
             (monitored "val_MAE" (logged st)) 0
         <= nth k (monitored "val_MAE" (logged st)) 0.
Proof.
  intros M training_epoch validation_epoch model st H Hs.
  destruct (fit_best_score _ _ _ _ H) as (L & S1 & Hb & _ & Hk & _).
  rewrite (S1 Hs) in Hb, Hk.
  replace (length (monitored "val_MAE" (logged st)) - 1 - 10)%nat
    with (length (monitored "val_MAE" (logged st)) - 11)%nat in Hb, Hk by lia.
  repeat split; auto.
Qed.

Lemma early_stop_follows_ten_stale_checks_witness :
  exists st : FitState unit,
    trainer_fit (fun _ m => Ok m)
                (fun _ => Ok [("val_MAE"%string, 1)])
                cli_trainer tt = Ok st
    /\ should_stop st = true
    /\ wait_count (early_stopping st) = 10%nat.
Proof.
  eexists. split; [vm_compute; reflexivity |]. split; [reflexivity |].
  eapply (proj1 (proj2 (early_stop_follows_ten_stale_checks unit
                          (fun _ m => Ok m)
                          (fun _ => Ok [("val_MAE"%string, 1)])
                          tt _ ltac:(vm_compute; reflexivity)
                          ltac:(reflexivity)))).
Defined.

(** X12: every fit under the trainer of [cli_main] that returns has run
    at least 110 and at most 500 epochs, 11 validation checks being the
    fewest after which the patience of 10 can be used up; and the best
    score the callback holds at the end is the least [val_MAE] that any
    check logged. *)
Theorem fit_runs_at_least_110_epochs :
  forall (M : Type) (training_epoch : nat -> M -> result M)
         (validation_epoch : M -> result Log) (model : M) (st : FitState M),
    trainer_fit training_epoch validation_epoch cli_trainer model = Ok st ->
    (110 <= current_epoch st <= 500)%nat
    /\ exists b,
         best_score (early_stopping st) = Some b
         /\ In b (monitored "val_MAE" (logged st))
         /\ forall x, In x (monitored "val_MAE" (logged st)) -> b <= x.
Proof.
  intros M training_epoch validation_epoch model st H.
  destruct (fit_early_stopping _ _ _ _ H) as (_ & E & B & _).
  destruct (fit_best_score _ _ _ _ H) as (L & _ & Hb & Hlt & _ & Hmin).
  split; [lia |].
  eexists. split; [exact Hb |]. split.
  - apply nth_In. lia.
  - intros x Hx. now apply (Hmin x).
Qed.

Lemma fit_runs_at_least_110_epochs_witness :
  exists st : FitState unit,
    trainer_fit (fun _ m => Ok m)
                (fun _ => Ok [("val_MAE"%string, 1)])
                cli_trainer tt = Ok st
    /\ (110 <= current_epoch st <= 500)%nat.
Proof.
  eexists. split; [vm_compute; reflexivity |].
  eapply (proj1 (fit_runs_at_least_110_epochs unit
                   (fun _ m => Ok m)
                   (fun _ => Ok [("val_MAE"%string, 1)])
                   tt _ ltac:(vm_compute; reflexivity))).
Defined.

(* ----------------------------------------------------------------- *)
(** ** The row of standard deviations *)

Lemma std0_length (sqrt : Q -> Q) (w : nat) (a : matrix) (s : row) :
  (0 < w)%nat -> Forall (fun r => length r = w) a ->
  std0 sqrt a = Ok s -> length s = w.
Proof.
  intros Hw Ha H. destruct a as [| r0 rest]; [discriminate |].
  destruct (mean0_row w r0 rest Ha) as (M & EM & LM & _).
  unfold std0 in H. rewrite EM in H. cbn [bind map] in H.
  set (sq := fun r : row => map (fun d => d * d) (zip_with Qminus r M)) in *.
  assert (Hx : Forall (fun r => length r = w) (map sq (r0 :: rest))).
  { apply Forall_forall. intros x Hx. apply in_map_iff in Hx.
    destruct Hx as (r & <- & Hr). unfold sq.
    rewrite length_map, length_zip_with.
    rewrite Forall_forall in Ha. rewrite (Ha r Hr). lia. }
  rewrite map_map in H.
  change (sum0 _ _) with (sum0 (sq r0) (map sq rest)) in H.
  inv_bind H. inversion H; subst s; clear H.
  apply mapM_length in Ha0. rewrite length_map, Ha0.
  apply (sum0_nth w 0); [lia | exact Hx].
Qed.

(* ----------------------------------------------------------------- *)
(** ** The checkpoint files of the folds *)

Lemma append_cancel_l (s a b : string) :
  (s ++ a)%string = (s ++ b)%string -> a = b.
Proof.
  induction s as [| c s IH]; simpl; intros H; [exact H |].
  inversion H. auto.
Qed.

Lemma string_length_append (a b : string) :
  String.length (a ++ b) = (String.length a + String.length b)%nat.
Proof. induction a as [| c a IH]; simpl; [reflexivity | now rewrite IH]. Qed.

Lemma append_cancel_r (a b c : string) :
  (a ++ c)%string = (b ++ c)%string -> a = b.
Proof.
  intros H.
  assert (L : String.length a = String.length b).
  { apply (f_equal String.length) in H.
    rewrite !string_length_append in H. lia. }
  revert b H L. induction a as [| x a IH]; intros [| y b] H L;
    simpl in *; try discriminate; [reflexivity |].
  inversion H. f_equal. apply IH; [assumption | lia].
Qed.

Lemma prefix_append (s x : string) : String.prefix s (s ++ x) = true.
Proof.
  induction s as [| c s IH]; simpl; [now destruct x |].
  destruct (ascii_dec c c); [exact IH | contradiction].
Qed.

(** [str] of two different numbers gives two different strings. *)
Lemma str_nat_inj (i j : nat) : str_nat i = str_nat j -> i = j.
Proof.
  unfold str_nat. intros H.
  assert (N : forall n, Nat.to_uint n <> Decimal.Nil).
  { intros n. rewrite <- (DecimalNat.Unsigned.of_to n) at 1.
    rewrite DecimalNat.Unsigned.to_of. apply DecimalFacts.unorm_nonnil. }
  apply (f_equal NilZero.uint_of_string) in H.
  rewrite !NilZero.usu in H by apply N.
  inversion H. now apply DecimalNat.Unsigned.to_uint_inj.
Qed.

(** The file of fold [i] lies directly in the directory made before the
    loop. *)
Lemma checkpoint_in_model_dir (args : Args) (i : nat) :
  checkpoint_path args i
  = (model_dir args
     ++ (if (String.length (model_dir args) =? 0)%nat
            || ends_with_sep (model_dir args)
         then "" else "/")
     ++ "Ensemble" ++ str_nat i ++ ".ckpt")%string.
Proof.
  unfold checkpoint_path, model_dir, path_join. cbn [fold_left].
  unfold join2 at 1. cbn [String.prefix append].
  destruct ((String.length _ =? 0)%nat || ends_with_sep _); reflexivity.
Qed.

Lemma NoDup_map_inj {A B} (f : A -> B) (l : list A) :
  (forall a b, f a = f b -> a = b) -> NoDup l -> NoDup (map f l).
Proof.
  intros Hf. induction 1 as [| a l Hin N IH]; simpl; constructor; auto.
  intros H. apply in_map_iff in H. destruct H as (b & E & Hb).
  apply Hf in E. now subst b.
Qed.

(** X13: the weights of the folds are saved to pairwise different files,
    [Ensemble1.ckpt], [Ensemble2.ckpt], ... counted from 1, all of them
    directly in the directory [model/<dataset>/<task>] that is created
    before the loop: no fold overwrites the checkpoint of another, and no
    file is saved into a directory that was not made. *)
Theorem fold_checkpoints_distinct :
  forall (args : Args) (n : nat),
    length (checkpoints args n) = n
    /\ NoDup (checkpoints args n)
    /\ (forall i j, checkpoint_path args i = checkpoint_path args j -> i = j)
    /\ forall k, (k < n)%nat ->
         exists sep,
           (sep = ""%string \/ sep = "/"%string)
           /\ nth k (checkpoints args n) ""%string
              = (model_dir args ++ sep ++ "Ensemble" ++ str_nat (S k)
                 ++ ".ckpt")%string.
Proof.
  intros args n.
  assert (Inj : forall i j,
             checkpoint_path args i = checkpoint_path args j -> i = j).
  { intros i j H. rewrite !checkpoint_in_model_dir in H.
    apply append_cancel_l, append_cancel_l in H.
    apply (append_cancel_l "Ensemble") in H.
    apply append_cancel_r in H. now apply str_nat_inj. }
  unfold checkpoints. split; [now rewrite length_map, length_seq |].
  split; [apply NoDup_map_inj; [exact Inj | apply seq_NoDup] |].
  split; [exact Inj |].
  intros k Hk.
  rewrite (nth_indep _ ""%string (checkpoint_path args 0))
    by now rewrite length_map, length_seq.
  rewrite map_nth, seq_nth by assumption.
  rewrite checkpoint_in_model_dir. cbn [Nat.add].
  eexists. split; [| reflexivity].
  destruct ((String.length _ =? 0)%nat || ends_with_sep _); auto.
Qed.

(* ----------------------------------------------------------------- *)
(** ** Data preparation on a well-formed CSV file *)

Lemma take_rows_defined (X : matrix) (index : list nat) :
  (forall i, In i index -> (i < length X)%nat) ->
  exists R, take_rows X index = Ok R.
Proof.
  intros H.
  destruct (mapM_Forall
              (fun i => match nth_error X i with
                        | Some r => Ok r
                        | None => Raise IndexError
                        end) (fun _ : row => True) index) as (R & E & _).
  - intros i Hi. destruct (nth_error X i) as [r |] eqn:N.
    + exists r. auto.
    + apply nth_error_None in N. specialize (H i Hi). lia.
  - exists R. exact E.
Qed.

Lemma new_DataLoader_defined (ds : BlockChainDataset) (b : Z)
  (sh : option bool) :
  (0 < b)%Z -> exists dl, new_DataLoader ds b sh = Ok dl.
Proof.
  intros Hb. unfold new_DataLoader.
  destruct (Z.leb_spec b 0); [lia |]. eexists. reflexivity.
Qed.

(** The body of the fold loop raises nothing on a rectangular feature
    array with a target per record, index arrays within its bounds that
    are not empty, and a positive batch size. *)
Lemma prepare_fold_defined (args : Args) (X Y1 : matrix)
  (train_index test_index : list nat) (w : nat) :
  (0 < w)%nat -> Forall (fun r => length r = w) X ->
  length Y1 = length X -> (0 < batch_size args)%Z ->
  train_index <> [] -> test_index <> [] ->
  (forall i, In i train_index \/ In i test_index -> (i < length X)%nat) ->
  exists fd, prepare_fold args X Y1 train_index test_index = Ok fd.
Proof.
  intros Hw HX HY Hb Htr Hte Hin.
  destruct (take_rows_defined X train_index) as (Xtr & EXtr); [auto |].
  destruct (take_rows_defined X test_index) as (Xte & EXte); [auto |].
  destruct (take_rows_defined Y1 train_index) as (Ytr & EYtr);
    [rewrite HY; auto |].
  destruct (take_rows_defined Y1 test_index) as (Yte & EYte);
    [rewrite HY; auto |].
  assert (Wtr : Forall (fun r => length r = w) Xtr).
  { apply Forall_forall. intros r Hr. rewrite Forall_forall in HX.
    apply HX. exact (take_rows_incl _ _ _ _ EXtr Hr). }
  assert (Wte : Forall (fun r => length r = w) Xte).
  { apply Forall_forall. intros r Hr. rewrite Forall_forall in HX.
    apply HX. exact (take_rows_incl _ _ _ _ EXte Hr). }
  pose proof (take_rows_length _ _ _ EXtr) as Ltr.
  pose proof (take_rows_length _ _ _ EXte) as Lte.
  pose proof (take_rows_length _ _ _ EYte) as LYte.
  destruct Xtr as [| r0 rest];
    [destruct train_index; [contradiction | discriminate] |].
  assert (L0 : length r0 = w) by now inversion Wtr.
  assert (Hte' : (0 < length test_index)%nat)
    by (destruct test_index; [contradiction | simpl; lia]).
  unfold prepare_fold. rewrite EXtr, EXte, EYtr, EYte. cbn [bind].
  rewrite fit_transform_new;
    [| intros E; rewrite E in L0; simpl in L0; lia | now rewrite L0].
  cbn [bind].
  rewrite (transform_rows _ (fitted_state r0 rest));
    [| reflexivity
     | intros E; rewrite E in Lte; simpl in Lte; lia
     | cbn [n_features_in_ fitted_state]; now rewrite L0].
  cbn [bind].
  destruct (new_DataLoader_defined
              (new_BlockChainDataset
                 (map (fun r => zip_with Qplus
                                  (zip_with Qmult r
                                     (scale_ (fitted_state r0 rest)))
                                  (min_ (fitted_state r0 rest)))
                      (r0 :: rest)) Ytr)
              (batch_size args) None Hb) as (dl1 & ->).
  cbn [bind].
  destruct (new_DataLoader_defined
              (new_BlockChainDataset
                 (map (fun r => zip_with Qplus
                                  (zip_with Qmult r
                                     (scale_ (fitted_state r0 rest)))
                                  (min_ (fitted_state r0 rest))) Xte) Yte)
              (Z.of_nat (length Yte)) (Some false) ltac:(lia)) as (dl2 & ->).
  cbn [bind].
  destruct (new_DataLoader_defined
              (new_BlockChainDataset
                 (map (fun r => zip_with Qplus
                                  (zip_with Qmult r
                                     (scale_ (fitted_state r0 rest)))
                                  (min_ (fitted_state r0 rest))) Xte) Yte)
              (Z.of_nat (length Xte)) (Some false) ltac:(lia)) as (dl3 & ->).
  cbn [bind]. eexists. reflexivity.
Qed.

(** X14: for each of the three datasets, the part of a run that comes
    before the models raises nothing when the CSV file is read as a
    rectangular array of numbers with at least 5 records, at least 3
    columns and the target column of the task, the batch size is positive
    and the shuffle of the splitter is a permutation: the columns are
    selected, the split yields 5 folds, and in every fold the rows are
    taken, the scaler is fitted and applied, and the datasets and loaders
    are built, the train and the held-out dataset of a fold holding every
    record between them.  Nothing is said of training and evaluation. *)
Theorem data_preparation_returns_on_well_formed_csv :
  forall (rng_shuffle : Z -> list nat -> list nat)
         (args : Args) (raw_data : ndarray),
    (forall s l, Permutation l (rng_shuffle s l)) ->
    recognized_dataset (dataset args) ->
    (0 < batch_size args)%Z ->
    well_shaped raw_data ->
    (5 <= length (values raw_data))%nat ->
    (3 <= shape1 raw_data)%nat ->
    (columns_needed args <= shape1 raw_data)%nat ->
    exists X Y1 folds,
      select_columns args raw_data = Ok (Some (X, Y1))
      /\ split rng_shuffle KF (length X) = Ok folds
      /\ length folds = 5%nat
      /\ forall train_index test_index,
           In (train_index, test_index) folds ->
           exists fd,
             prepare_fold args X Y1 train_index test_index = Ok fd
             /\ (len (train_dataset fd) + len (test_dataset fd))%nat
                = length (values raw_data).
Proof.
  intros rng_shuffle args raw_data Hperm Hrec Hb W Hn H3 Hc.
  destruct (select_columns_cases args raw_data Hrec W)
    as [[Hlt _] | (_ & X & Y1 & E & LX & LY & CY & WX)]; [lia |].
  specialize (WX H3). rewrite <- LX in Hn.
  destruct (split_fold_sizes rng_shuffle Hperm (length X) Hn)
    as (folds & Es & _ & F).
  destruct (split_partition rng_shuffle Hperm (length X) Hn)
    as (folds' & Es' & L5 & Part & _).
  assert (folds' = folds) by congruence. subst folds'.
  exists X, Y1, folds.
  split; [exact E |]. split; [exact Es |]. split; [exact L5 |].
  intros tr te Hin.
  rewrite Forall_forall in F. destruct (F _ Hin) as (Sz & Sum & _).
  cbn [fst snd] in Sz, Sum.
  destruct (Part tr te Hin) as (_ & _ & _ & Cov).
  pose proof (Nat.div_mod_eq (length X) 5) as Dm.
  pose proof (Nat.mod_upper_bound (length X) 5 ltac:(lia)) as Mb.
  assert (Hw : (0 < feature_width args)%nat)
    by (unfold feature_width; destruct (String.eqb _ _); lia).
  destruct (prepare_fold_defined args X Y1 tr te (feature_width args))
    as (fd & P); auto.
  - congruence.
  - intros E0. rewrite E0 in Sum. cbn [length] in Sum. lia.
  - intros E0. rewrite E0 in Sz. cbn [length] in Sz. lia.
  - intros i Hi. now apply Cov.
  - exists fd. split; [exact P |].
    destruct (prepare_fold_test_rows _ _ _ _ _ _ P) as (_ & _ & Lm & _).
    apply prepare_fold_inv in P.
    destruct P as (Htr & _ & _ & _ & Hft & _ & Dtr & _ & Dte & _).
    apply fit_transform_length in Hft. apply take_rows_length in Htr.
    rewrite Dtr, Dte. cbn [len new_BlockChainDataset].
    unfold matrix, row in *. rewrite Hft, Htr, Lm, Sum. exact LX.
Qed.

Lemma data_preparation_returns_on_well_formed_csv_witness :
  exists X Y1 folds,
    select_columns (mk_Args 32 (1 # 1000) "HFBTP" "Latency")
                   (mk_ndarray 5 [[0; 1; 2; 5; 7]; [1; 0; 2; 6; 8];
                                  [0; 1; 3; 5; 9]; [1; 0; 3; 6; 7];
                                  [0; 1; 4; 5; 8]])
    = Ok (Some (X, Y1))
    /\ split (fun _ l => rev l) KF (length X) = Ok folds
    /\ length folds = 5%nat.
Proof.
  destruct (data_preparation_returns_on_well_formed_csv
              (fun _ l => rev l)
              (mk_Args 32 (1 # 1000) "HFBTP" "Latency")
              (mk_ndarray 5 [[0; 1; 2; 5; 7]; [1; 0; 2; 6; 8];
                             [0; 1; 3; 5; 9]; [1; 0; 3; 6; 7];
                             [0; 1; 4; 5; 8]]))
    as (X & Y1 & folds & E & Es & L & _).
  - intros s l. apply Permutation_rev.
  - right. left. reflexivity.
  - reflexivity.
  - repeat constructor.
  - simpl. lia.
  - simpl. lia.
  - vm_compute. lia.
  - exists X, Y1, folds. auto.
Defined.

(* ----------------------------------------------------------------- *)
(** ** What a run that returns has done *)

(** X15: whenever a whole run returns, the dataset is one of the three
    the script names, the file is [Ensemble_result.csv] under
    [<dataset>/<task>], and the table has 7 rows of 3 entries: one row per
    fold, then the means, then the standard deviations.  Its columns carry
    the metric names for the tasks Latency and Throughput and are left
    with the default labels 0, 1, 2 for every other task. *)
Theorem run_writes_seven_by_three_table :
  forall (read_csv : string -> result ndarray)
         (rng_shuffle : Z -> list nat -> list nat)
         (randperm : nat -> nat -> list nat) (sqrt : Q -> Q)
         (init : nat -> initializer)
         (keep : nat -> nat -> nat -> nat -> bool)
         (optimizer_step : LitClassifier -> matrix * matrix -> Q
                           -> LitClassifier)
         (args : Args) (path : string) (df : DataFrame),
    cli_main read_csv rng_shuffle randperm sqrt init keep optimizer_step args
    = Ok (path, df) ->
    recognized_dataset (dataset args)
    /\ path = path_join (dataset args) [task args; "Ensemble_result.csv"%string]
    /\ length (frame df) = 7%nat
    /\ Forall (fun r => length r = 3%nat) (frame df)
    /\ columns df
       = if String.eqb (task args) "Latency"
         then Names ["latency_MAE"; "latency_RMSE"; "latency_MAPE"]%string
         else if String.eqb (task args) "Throughput"
              then Names ["throughput_MAE"; "throughput_RMSE";
                          "throughput_MAPE"]%string
              else RangeIndex 3.
Proof.
  intros read_csv rng_shuffle randperm sqrt init keep optimizer_step
         args path df H.
  unfold cli_main in H. inv_bind H. rename a into raw_data.
  inv_bind H. rename a into bound. inv_bind H. rename a into X.
  inv_bind H. rename a into folds. inv_bind H. rename a into results.
  assert (Hd : recognized_dataset (dataset args)).
  { unfold recognized_dataset.
    destruct (String.eqb_spec (dataset args) "BPD-1"); [auto |].
    destruct (String.eqb_spec (dataset args) "HFBTP"); [auto |].
    destruct (String.eqb_spec (dataset args) "MMBPD"); [auto |].
    rewrite select_columns_unrecognized in Ha0
      by (unfold recognized_dataset; tauto).
    inversion Ha0; subst bound. discriminate Ha1. }
  split; [exact Hd |].
  assert (Lf : length folds = 5%nat).
  { destruct (Nat.ltb (length X) 5) eqn:Hn.
    { unfold split in Ha2. change (n_splits KF) with 5%nat in Ha2.
      rewrite Hn in Ha2. discriminate. }
    apply Nat.ltb_ge in Hn.
    pose proof (split_KF rng_shuffle (length X) Hn) as Ek.
    rewrite Ha2 in Ek. apply (f_equal (fun r => match r with
                                                | Ok l => length l
                                                | Raise _ => 0%nat
                                                end)) in Ek.
    cbv beta iota in Ek. rewrite Ek, length_map. apply chunks_length. }
  assert (Lr : length results = 5%nat).
  { apply mapM_length in Ha3.
    rewrite Ha3, length_combine, length_seq, Lf. reflexivity. }
  assert (Wr : Forall (fun r => length r = 3%nat) results).
  { apply Forall_forall. intros r Hr.
    destruct (mapM_In _ _ _ _ Ha3 Hr) as ([i [tr te]] & _ & E).
    inv_bind E.
    destruct (run_fold_row _ _ _ _ _ _ _ _ _ _ _ _ E)
      as (_ & _ & _ & _ & _ & _ & _ & _ & _ & m & r' & p & -> & _).
    reflexivity. }
  destruct results as [| r0 rest]; [discriminate |].
  assert (Hr0 : length r0 = 3%nat) by now inversion Wr.
  destruct (mean0_row 3 r0 rest Wr) as (M & EM & LM & _).
  unfold aggregate in H. unfold matrix, row in *.
  rewrite EM in H. cbn [bind] in H.
  unfold vstack at 1 in H. rewrite Hr0, LM in H. cbn [Nat.eqb bind] in H.
  inv_bind H. rename a into s.
  pose proof (std0_length sqrt 3 _ s ltac:(lia) Wr Ha4) as LS.
  cbn [app] in H. unfold vstack in H. rewrite Hr0, LS in H.
  cbn [Nat.eqb bind app] in H.
  assert (Lt : length (r0 :: (rest ++ [M]) ++ [s]) = 7%nat).
  { cbn [length] in *. rewrite !length_app. cbn [length]. lia. }
  assert (Wt : Forall (fun r => length r = 3%nat)
                      (r0 :: (rest ++ [M]) ++ [s])).
  { inversion Wr; subst. constructor; [assumption |].
    apply Forall_app. split; [apply Forall_app; split |]; auto. }
  unfold set_columns, new_DataFrame in H. cbn [frame] in H.
  rewrite Hr0 in H.
  destruct (String.eqb (task args) "Latency") eqn:EL.
  - assert (ET : String.eqb (task args) "Throughput" = false).
    { apply String.eqb_eq in EL. now rewrite EL. }
    cbn [length Nat.eqb bind frame] in H. rewrite ET in H.
    cbn [bind] in H. injection H as <- <-.
    cbn [frame columns]. repeat split; assumption.
  - cbn [bind frame] in H. rewrite Hr0 in H.
    destruct (String.eqb (task args) "Throughput");
      cbn [length Nat.eqb bind frame] in H; injection H as <- <-;
      cbn [frame columns]; repeat split; assumption.
Qed.

Lemma run_writes_seven_by_three_table_witness :
  exists path df,
    cli_main (fun _ => Ok (mk_ndarray 4 [[0; 1; 5; 7]; [1; 0; 6; 8];
                                         [0; 1; 5; 9]; [1; 0; 6; 7];
                                         [0; 1; 5; 8]]))
             (fun _ l => rev l) (fun _ n => seq 0 n) (fun q => q)
             (fun _ => zero_init) (fun _ _ _ _ => false)
             (fun m _ _ => m)
             (mk_Args 32 (1 # 1000) "BPD-1" "Latency") = Ok (path, df)
    /\ length (frame df) = 7%nat.
Proof.
  assert (R : exists out,
             cli_main (fun _ => Ok (mk_ndarray 4 [[0; 1; 5; 7]; [1; 0; 6; 8];
                                                  [0; 1; 5; 9]; [1; 0; 6; 7];
                                                  [0; 1; 5; 8]]))
                      (fun _ l => rev l) (fun _ n => seq 0 n) (fun q => q)
                      (fun _ => zero_init) (fun _ _ _ _ => false)
                      (fun m _ _ => m)
                      (mk_Args 32 (1 # 1000) "BPD-1" "Latency") = Ok out)
    by (eexists; vm_compute; reflexivity).
  destruct R as [[path df] R]. exists path, df. split; [exact R |].
  exact (proj1 (proj2 (proj2
           (run_writes_seven_by_three_table _ _ _ _ _ _ _ _ _ _ R)))).
Defined.

Lemma select_columns_rows (args : Args) (raw_data : ndarray)
  (X Y1 : matrix) :
  select_columns args raw_data = Ok (Some (X, Y1)) ->
  length X = length (values raw_data).
Proof.
  unfold select_columns, column_slice. intros H.
  destruct (String.eqb (dataset args) "BPD-1");
    [| destruct (String.eqb (dataset args) "HFBTP");
       [| destruct (String.eqb (dataset args) "MMBPD");
          [| discriminate]]];
    destruct (String.eqb (task args) "Latency");
    inv_bind H; inversion H; subst; apply length_map.
Qed.

(** X16: a run that returns its table was given a positive batch size
    and a CSV file of at least 5 records: with [--batch_size 0] or a
    negative one the first fold fails where it builds the training loader,
    and with fewer than 5 records the splitter refuses the data. *)
Theorem run_needs_positive_batch_size :
  forall (read_csv : string -> result ndarray)
         (rng_shuffle : Z -> list nat -> list nat)
         (randperm : nat -> nat -> list nat) (sqrt : Q -> Q)
         (init : nat -> initializer)
         (keep : nat -> nat -> nat -> nat -> bool)
         (optimizer_step : LitClassifier -> matrix * matrix -> Q
                           -> LitClassifier)
         (args : Args) (out : CsvFile),
    cli_main read_csv rng_shuffle randperm sqrt init keep optimizer_step args
    = Ok out ->
    (0 < batch_size args)%Z
    /\ exists raw_data,
         read_csv ("../data/" ++ dataset args ++ ".csv")%string = Ok raw_data
         /\ (5 <= length (values raw_data))%nat.
Proof.
  intros read_csv rng_shuffle randperm sqrt init keep optimizer_step
         args out H.
  unfold cli_main in H. inv_bind H. rename a into raw_data.
  inv_bind H. rename a into bound. inv_bind H. rename a into X.
  inv_bind H. rename a into folds. inv_bind H. rename a into results.
  destruct bound as [[X' Y1] |]; [| discriminate].
  cbn [option_map fst snd read_local] in Ha1, Ha3.
  inversion Ha1; subst X'; clear Ha1.
  assert (Hn : (5 <= length X)%nat).
  { destruct (Nat.ltb (length X) 5) eqn:Hn.
    - unfold split in Ha2. change (n_splits KF) with 5%nat in Ha2.
      rewrite Hn in Ha2. discriminate.
    - now apply Nat.ltb_ge in Hn. }
  split.
  - pose proof (split_KF rng_shuffle (length X) Hn) as Ek.
    rewrite Ha2 in Ek.
    apply (f_equal (fun r => match r with
                             | Ok l => length l
                             | Raise _ => 0%nat
                             end)) in Ek.
    cbv beta iota in Ek. rewrite length_map, chunks_length in Ek.
    destruct folds as [| [tr te] folds]; [discriminate |].
    cbn [length seq combine mapM] in Ha3. inv_bind Ha3.
    cbn [bind] in Ha1.
    destruct (run_fold_row _ _ _ _ _ _ _ _ _ _ _ _ Ha1)
      as (fd & _ & _ & _ & _ & _ & P & _).
    destruct (train_batch_indices _ _ _ _ _ _ randperm 0%nat P) as (Hb & _).
    lia.
  - exists raw_data. split; [exact Ha |].
    now rewrite <- (select_columns_rows _ _ _ _ Ha0).
Qed.

Lemma run_needs_positive_batch_size_witness :
  (0 < batch_size default_args)%Z
  /\ exists raw_data,
       Ok (mk_ndarray 4 [[0; 1; 5; 7]; [1; 0; 6; 8]; [0; 1; 5; 9];
                         [1; 0; 6; 7]; [0; 1; 5; 8]])
       = Ok raw_data
       /\ (5 <= length (values raw_data))%nat.
Proof.
  eapply (run_needs_positive_batch_size
            (fun _ => Ok (mk_ndarray 4 [[0; 1; 5; 7]; [1; 0; 6; 8];
                                        [0; 1; 5; 9]; [1; 0; 6; 7];
                                        [0; 1; 5; 8]]))
            (fun _ l => rev l) (fun _ n => seq 0 n) (fun q => q)
            (fun _ => zero_init) (fun _ _ _ _ => false)
            (fun m _ _ => m) default_args).
  vm_compute. reflexivity.
Defined.
